(** * releaseGen: release generation script, shallow embedding

    The script [releaseGen.py] selects a release and its build images,
    assembles a Rogue zip file and a CPSW tarball, and optionally tags and
    publishes the release.  The functions of the script are embedded as
    Rocq functions: configuration dictionaries as records and association
    lists, exceptions as a [result] type, console input and the repository
    as explicit state, the archives as the list of members written. *)

From Stdlib Require Import String Ascii List ZArith NArith Lia Bool Arith Sorted.
Import ListNotations.

Local Open Scope list_scope.
Local Open Scope string_scope.

(** ** Python strings *)

Module PyStr.

(** [needle in hay] on two [str] values. *)
Fixpoint contains (needle hay : string) : bool :=
  if String.prefix needle hay then true
  else match hay with
       | EmptyString => false
       | String _ hay' => contains needle hay'
       end.

Definition startswith (p s : string) : bool := String.prefix p s.

(** [s.endswith(suffix)] *)
Fixpoint endswith (suffix s : string) : bool :=
  if String.eqb s suffix then true
  else match s with
       | EmptyString => false
       | String _ s' => endswith suffix s'
       end.

(** [s.split(sep)[0]] for a one-character separator: the text before the
    first separator, the whole text when there is none. *)
Fixpoint split_head (sep : ascii) (s : string) : string :=
  match s with
  | EmptyString => EmptyString
  | String c s' => if Ascii.eqb c sep then EmptyString
                   else String c (split_head sep s')
  end.

(** [s.replace(old, '')]: every occurrence of [old], scanning from the
    left and without overlap, is deleted.  [skip] counts the characters
    of a matched occurrence that are still to be dropped. *)
Fixpoint remove_from (old : string) (skip : nat) (s : string) : string :=
  match s with
  | EmptyString => EmptyString
  | String c s' =>
      match skip with
      | S k => remove_from old k s'
      | O => if String.prefix old s
             then remove_from old (String.length old - 1) s'
             else String c (remove_from old 0 s')
      end
  end.

Definition remove_all (old s : string) : string :=
  match old with
  | EmptyString => s
  | _ => remove_from old 0 s
  end.

(** Iterating a text file: the lines, each with its terminating newline
    (the last one possibly without).  The text is the decoded one, after
    Python's newline translation. *)
Fixpoint readlines (s : string) : list string :=
  match s with
  | EmptyString => []
  | String c s' =>
      if Ascii.eqb c "010"%char then String c EmptyString :: readlines s'
      else match readlines s' with
           | [] => [String c EmptyString]
           | l :: ls => String c l :: ls
           end
  end.

(** [s1 <= s2] on [str]: code-point order, which is the byte order of
    the UTF-8 text. *)
Definition leb (s1 s2 : string) : bool := String.leb s1 s2.

End PyStr.

(** ** [os.path] on POSIX *)

Module OsPath.

Definition sep : string := "/".

(** [os.path.join(a, b)] *)
Definition join (a b : string) : string :=
  if PyStr.startswith sep b then b
  else if orb (String.eqb a "") (PyStr.endswith sep a) then a ++ b
  else a ++ sep ++ b.

Definition join3 (a b c : string) : string := join (join a b) c.
Definition join4 (a b c d : string) : string := join (join (join a b) c) d.

(** [os.path.basename(p)]: the text after the last separator. *)
Fixpoint basename (p : string) : string :=
  match p with
  | EmptyString => EmptyString
  | String c p' =>
      if PyStr.contains sep p' then basename p'
      else if Ascii.eqb c "/"%char then p' else p
  end.

End OsPath.

(** ** Exceptions and results *)

Inductive exn : Type :=
| Exception (msg : string)     (* [raise Exception(msg)] of the script *)
| KeyError
| TypeError
| AttributeError
| IndexError
| ValueError
| EOFError
| OSError                       (* FileNotFoundError, IsADirectoryError, ... *)
| GitCommandError
| GithubException.

Inductive result (A : Type) : Type :=
| Ok (a : A)
| Raise (e : exn).
Arguments Ok {A} a.
Arguments Raise {A} e.

Definition is_ok {A} (r : result A) : bool :=
  match r with Ok _ => true | Raise _ => false end.

(** Computations over a state [S] that may raise: the state reached when
    the exception is raised is kept. *)
Definition M (S A : Type) : Type := S -> result A * S.

Definition ret {S A} (a : A) : M S A := fun s => (Ok a, s).
Definition raise {S A} (e : exn) : M S A := fun s => (Raise e, s).
Definition bind {S A B} (m : M S A) (k : A -> M S B) : M S B :=
  fun s => match m s with
           | (Ok a, s') => k a s'
           | (Raise e, s') => (Raise e, s')
           end.
Definition lift {S A} (r : result A) : M S A := fun s => (r, s).

Declare Scope py_scope.
Delimit Scope py_scope with py.
Notation "x <- m ;; k" := (bind m (fun x => k))
  (at level 61, m at next level, right associativity) : py_scope.
Notation "' pat <- m ;; k" :=
  (bind m (fun x => match x with pat => k end))
  (at level 61, pat pattern, m at next level, right associativity) : py_scope.
Notation "m ;;; k" := (bind m (fun _ => k))
  (at level 61, right associativity) : py_scope.

(** ** Python lists and dictionaries *)

Module Py.

(** [l[i]] with Python's negative indices. *)
Definition index {A} (l : list A) (i : Z) : result A :=
  let n := Z.of_nat (List.length l) in
  let j := if (i <? 0)%Z then (n + i)%Z else i in
  if (j <? 0)%Z then Raise IndexError
  else match nth_error l (Z.to_nat j) with
       | Some a => Ok a
       | None => Raise IndexError
       end.

(** [x in l] for a list of strings. *)
Definition mem (x : string) (l : list string) : bool :=
  existsb (String.eqb x) l.

(** A [dict] with [str] keys, as its items in insertion order. *)
Definition dict (V : Type) : Type := list (string * V).

Fixpoint get {V} (d : dict V) (k : string) : option V :=
  match d with
  | [] => None
  | (k', v) :: d' => if String.eqb k k' then Some v else get d' k
  end.

Definition keys {V} (d : dict V) : list string := map fst d.

(** [sorted(set(l))]: insertion into an ascending list without
    repetition. *)
Fixpoint insert (x : string) (l : list string) : list string :=
  match l with
  | [] => [x]
  | y :: l' =>
      if String.eqb x y then l
      else if PyStr.leb x y then x :: l
      else y :: insert x l'
  end.

Definition sorted_set (l : list string) : list string :=
  fold_right insert [] l.

End Py.

(** What a dictionary holds under a key the script tests with
    [k in d] and [d[k] is None]. *)
Inductive field (A : Type) : Type :=
| Absent                        (* the key is not in the dictionary *)
| Null                          (* the key is there, with value [None] *)
| Val (a : A).
Arguments Absent {A}.
Arguments Null {A}.
Arguments Val {A} a.

(** [not k in d or d[k] is None] *)
Definition missing {A} (f : field A) : bool :=
  match f with Val _ => false | _ => true end.

(** ** The release configuration ([releases.yaml])

    The dictionaries [yaml.load] returns.  A key the script tests before
    use is a [field].  The document itself (line 112) and the value of a
    target (line 185) are tested with [k in v] before anything else is
    done with them, and are given with every shape YAML has for them
    ([yaml]); the other values have the types the script expects:
    mappings, lists of strings and strings. *)

(** What [yaml.load] gives where the script expects a mapping and tests
    it with [k in v] before it reads [v[k]]: the mapping, or a value that
    is not one.  The latter is [None] (a file without a document, a key
    written with no value), a string, a sequence, or another scalar (a
    number, a boolean, a date).  Of the items of a sequence the
    membership test sees which ones are strings, and which strings: the
    other items are [None] here. *)
Inductive non_mapping : Type :=
| YNone
| YStr (s : string)
| YSeq (items : list (option string))
| YScalar.

Inductive yaml (A : Type) : Type :=
| YMap (a : A)
| YOther (v : non_mapping).
Arguments YMap {A} a.
Arguments YOther {A} v.

(** [x in items] for a string [x] and the items of a sequence. *)
Definition seq_mem (x : string) (items : list (option string)) : bool :=
  existsb (fun i => match i with
                    | Some s => String.eqb x s
                    | None => false
                    end) items.

(** [not k in v or v[k] is None] on a value [v] that is not a mapping.
    [k in v] raises TypeError on [None] and on a scalar that is not a
    string; it is the substring test on a string and the membership test
    on a sequence, and where it holds [v[k]] raises TypeError, strings
    and lists being indexed by integers.  [Ok tt]: the test holds. *)
Definition missing_in (k : string) (v : non_mapping) : result unit :=
  match v with
  | YNone | YScalar => Raise TypeError
  | YStr s => if PyStr.contains k s then Raise TypeError else Ok tt
  | YSeq items => if seq_mem k items then Raise TypeError else Ok tt
  end.

Record TargetDef : Type := {
  Extensions : field (list string)
}.

Record ReleaseDef : Type := {
  rel_Targets : field (list string);
  rel_Types   : field (list string);
  rel_group   : string -> field (list string)   (* RoguePackages, ... *)
}.

Record ReleaseConfig : Type := {
  Releases   : field (Py.dict ReleaseDef);
  Targets    : field (Py.dict (yaml TargetDef));
  TopPackage : field string;
  cfg_group  : string -> field (list string)    (* RoguePackages, ... *)
}.

(** The parsed command line ([args]). *)
Record Args : Type := {
  project  : string;
  release  : option string;
  build    : option string;
  version  : option string;
  prev     : option string;
  user     : option string;
  password : option string;
  push     : option nat
}.

(** ** The file system *)

Inductive node : Type :=
| File (name : string) (text : string)
| Dir (name : string) (children : list node).

Definition node_name (n : node) : string :=
  match n with File nm _ => nm | Dir nm _ => nm end.

Definition is_dir (n : node) : bool :=
  match n with Dir _ _ => true | File _ _ => false end.

(** The console: the lines still to be read by [input()]. *)
Definition console : Type := list string.

Definition input : M console string :=
  fun c => match c with
           | [] => (Raise EOFError, [])
           | l :: c' => (Ok l, c')
           end.

(** A member written to an archive: a path of the file system added under
    an archive name ([zf.write], [tf.add]), or bytes written under an
    archive name ([zf.open(name,'w')]). *)
Inductive member : Type :=
| FromDisk (fullPath arcname : string)
| FromBytes (arcname : string) (data : string).

Definition arcname_of (m : member) : string :=
  match m with FromDisk _ a => a | FromBytes a _ => a end.

(** Reading a member of a written archive by name: the last one written
    under that name. *)
Fixpoint archive_read (name : string) (ms : list member) : option member :=
  match ms with
  | [] => None
  | m :: ms' =>
      match archive_read name ms' with
      | Some m' => Some m'
      | None => if String.eqb (arcname_of m) name then Some m else None
      end
  end.

(** Entries of a file list, the dictionaries built by [genFileList]. *)
Inductive kind : Type := folder | file.

Definition kind_eqb (a b : kind) : bool :=
  match a, b with
  | folder, folder | file, file => true
  | _, _ => false
  end.

Record FileEntry : Type := {
  type     : kind;
  fullPath : string;
  subPath  : string
}.

(** ** The script *)

Section ReleaseGen.

(** The parsed command line, the file system (what is at a path), the
    YAML parser ([None]: it raised) and the conversion [int(text)]
    ([None]: ValueError). *)
Variable args : Args.
Variable fs : string -> option node.
Variable yaml_load : string -> option (yaml ReleaseConfig).
Variable py_int : string -> option Z.

Definition FirmwareDir : string := OsPath.join (project args) "firmware".

Definition read_text (path : string) : result string :=
  match fs path with
  | Some (File _ txt) => Ok txt
  | _ => Raise OSError
  end.

Definition int_of (txt : string) : result Z :=
  match py_int txt with
  | Some z => Ok z
  | None => Raise ValueError
  end.

Definition loadReleaseConfig : result ReleaseConfig :=
  let relFile := OsPath.join FirmwareDir "releases.yaml" in
  match match read_text relFile with
        | Ok txt => yaml_load txt
        | Raise _ => None
        end with
  | None =>
      Raise (Exception ("Failed to load project release file " ++ relFile))
  | Some (YMap cfg) =>
      if missing (Releases cfg) then
        Raise (Exception
                 "Invalid release config. Releases key is missing or empty!")
      else if missing (Targets cfg) then
        Raise (Exception
                 "Invalid release config. Targets key is missing or empty!")
      else Ok cfg
  | Some (YOther doc) =>
      (* line 112, outside the [try] *)
      match missing_in "Releases" doc with
      | Raise e => Raise e
      | Ok tt =>
          Raise (Exception
                   "Invalid release config. Releases key is missing or empty!")
      end
  end.

Definition getVersion : M console (string * option string) :=
  (ver <- match version args with
          | None => input
          | Some v => ret v
          end ;;
   prev <- match push args, prev args with
           | Some _, None => (p <- input ;; ret (Some p))
           | _, p => ret p
           end ;;
   ret (ver, prev))%py.

Definition selectRelease (cfg : ReleaseConfig)
  : M console (string * ReleaseDef) :=
  (releases <- match Releases cfg with
               | Absent => raise KeyError
               | Null => raise AttributeError
               | Val d => ret d
               end ;;
   let keyList := Py.keys releases in
   relName <- match release args with
              | Some relName =>
                  if negb (Py.mem relName keyList) then
                    raise (Exception
                      ("Invalid command line release arg: " ++ relName))
                  else ret relName
              | None =>
                  match keyList with
                  | [k] => ret k
                  | _ =>
                      txt <- input ;;
                      idx <- lift (int_of txt) ;;
                      if (idx >=? Z.of_nat (length keyList))%Z then
                        raise (Exception "Invalid release index")
                      else lift (Py.index keyList idx)
                  end
              end ;;
   relData <- match Py.get releases relName with
              | Some d => ret d
              | None => raise KeyError
              end ;;
   if missing (rel_Targets relData) then
     raise (Exception ("Invalid release config. Targets list in release "
                         ++ relName ++ " is missing or empty!"))
   else if missing (rel_Types relData) then
     raise (Exception ("Invalid release config. Types list in release "
                         ++ relName ++ " is missing or empty!"))
   else ret (relName, relData))%py.

(** [[f for f in os.listdir(imageDir) if os.path.isfile(...)]] *)
Definition listdir_files (imageDir : string) : result (list string) :=
  match fs imageDir with
  | Some (Dir _ ch) =>
      Ok (map node_name (filter (fun n => negb (is_dir n)) ch))
  | _ => Raise OSError
  end.

(** Lines 196-202: the base names of the files that mention the target,
    as a sorted list. *)
Definition buildCandidates (target : string) (dirList : list string)
  : list string :=
  Py.sorted_set
    (map (PyStr.split_head "."%char)
         (filter (PyStr.contains target) dirList)).

(** Lines 206-223: the build name, from [--build] or from the console. *)
Definition chooseBuild (sortList : list string) : M console string :=
  match build args with
  | Some buildName =>
      if String.eqb buildName "latest" then
        lift (Py.index sortList (-1))
      else if negb (Py.mem buildName sortList) then
        raise (Exception
                 ("Invalid command line build arg: " ++ buildName))
      else ret buildName
  | None =>
      (txt <- input ;;
       idx <- lift (int_of txt) ;;
       if (idx >=? Z.of_nat (length sortList))%Z then
         raise (Exception "Invalid build index")
       else lift (Py.index sortList idx))%py
  end.

(** Lines 225-230: the images of the chosen build. *)
Definition buildImages (imageDir buildName : string)
           (extensions dirList : list string) : list string :=
  let tarList := map (fun ext => buildName ++ "." ++ ext) extensions in
  map (OsPath.join imageDir)
      (filter (fun f => Py.mem f tarList) dirList).

(** The body of the loop over the targets of the release. *)
Definition selectBuildImages_target (cfg : ReleaseConfig)
           (target : string) (retList : list string)
  : M console (list string) :=
  (let imageDir := OsPath.join4 FirmwareDir "targets" target "images" in
   targets <- match Targets cfg with
              | Absent => raise KeyError
              | Null => raise TypeError
              | Val d => ret d
              end ;;
   tdef <- match Py.get targets target with
           | Some t => ret t
           | None =>
               raise (Exception
                 ("Invalid release config. Referenced target " ++ target
                    ++ " is missing in target list.!"))
           end ;;
   extensions <- match tdef with
                 | YMap t =>
                     match Extensions t with
                     | Val e => ret e
                     | _ =>
                         raise (Exception
                           ("Invalid release config. Extensions list for target "
                              ++ target ++ " is missing or empty!"))
                     end
                 | YOther v =>
                     (* line 185 on a target that is not a mapping *)
                     lift (missing_in "Extensions" v) ;;;
                     raise (Exception
                       ("Invalid release config. Extensions list for target "
                          ++ target ++ " is missing or empty!"))
                 end ;;
   dirList <- lift (listdir_files imageDir) ;;
   let sortList := buildCandidates target dirList in
   buildName <- chooseBuild sortList ;;
   ret (retList ++ buildImages imageDir buildName extensions dirList)%list)%py.

Fixpoint selectBuildImages_loop (cfg : ReleaseConfig)
         (targets : list string) (retList : list string)
  : M console (list string) :=
  match targets with
  | [] => ret retList
  | target :: rest =>
      (r <- selectBuildImages_target cfg target retList ;;
       selectBuildImages_loop cfg rest r)%py
  end.

Definition selectBuildImages (cfg : ReleaseConfig) (relName : string)
           (relData : ReleaseDef) : M console (list string) :=
  match rel_Targets relData with
  | Absent => raise KeyError
  | Null => raise TypeError
  | Val targets => selectBuildImages_loop cfg targets []
  end.

Definition genFileList (base root : string) (entries : list string)
           (typ : kind) : list FileEntry :=
  map (fun e =>
         let fullPath := OsPath.join root e in
         let subPath := PyStr.remove_all (base ++ "/") fullPath in
         {| type := typ; fullPath := fullPath; subPath := subPath |})
      entries.

(** [os.walk(top)], top-down: for a directory its path, the names of its
    sub-directories and the names of its other entries, then the walk of
    each sub-directory in turn.  The children of a directory are in the
    order the directory is scanned.  Symbolic links are not modelled. *)
Fixpoint walk_node (path : string) (n : node)
  : list (string * list string * list string) :=
  match n with
  | File _ _ => []
  | Dir _ ch =>
      (path,
       map node_name (filter is_dir ch),
       map node_name (filter (fun c => negb (is_dir c)) ch))
        :: flat_map (fun c => walk_node (OsPath.join path (node_name c)) c)
                    ch
  end.

Definition os_walk (top : string)
  : list (string * list string * list string) :=
  match fs top with
  | Some n => walk_node top n
  | None => []
  end.

(** [cfg[key]] when [key in cfg and cfg[key] is not None], else nothing *)
Definition group_dirs (f : field (list string)) : list string :=
  match f with Val l => l | _ => [] end.

Definition selectFiles (cfg : ReleaseConfig) (relData : ReleaseDef)
           (key : string) : list FileEntry :=
  let dirList := (group_dirs (cfg_group cfg key)
                    ++ group_dirs (rel_group relData key))%list in
  flat_map
    (fun d =>
       let base := OsPath.join FirmwareDir d in
       flat_map
         (fun '(root, folders, files) =>
            (genFileList base root folders folder
               ++ genFileList base root files file)%list)
         (os_walk base))
    dirList.

(** *** The Rogue zip file *)

Definition nl : string := String "010"%char EmptyString.

Definition zf_write (fullPath dst : string) : M (list member) unit :=
  fun z => (Ok tt, (z ++ [FromDisk fullPath dst])%list).

(** [with zf.open(name,'w') as f: f.write(data.encode('utf-8'))] *)
Definition zf_writestr (name data : string) : M (list member) unit :=
  fun z => (Ok tt, (z ++ [FromBytes name data])%list).

(** [with zipfile.ZipFile(name,'w') as zf: body] and
    [with tarfile.open(name,'w:gz') as tf: body], on the state of the
    file [name] ([None]: there is no such file).  The file is created
    empty, and is closed with what was written also when the body
    raises. *)
Definition with_archive {A} (body : M (list member) A)
  : M (option (list member)) A :=
  fun _ => let '(r, z) := body [] in (r, Some z).

(** Lines 280-285. *)
Definition setupPy_head (relName ver : string) : string :=
  nl ++ nl ++ "from distutils.core import setup" ++ nl ++ nl
     ++ "setup (" ++ nl
     ++ "   name='" ++ relName ++ "'," ++ nl
     ++ "   version='" ++ ver ++ "'," ++ nl
     ++ "   packages=[" ++ nl.

(** Lines 293-303: the loop over the package entries, with the
    variables [setupPy] and [topPath] it updates. *)
Fixpoint rogue_packages (topInit : string) (pList : list FileEntry)
         (setupPy : string) (topPath : option string)
  : M (list member) (string * option string) :=
  match pList with
  | [] => ret (setupPy, topPath)
  | e :: rest =>
      (let dst := subPath e in
       topPath' <- (if String.eqb (subPath e) topInit
                    then ret (Some (fullPath e))
                    else (zf_write (fullPath e) dst ;;; ret topPath)) ;;
       let setupPy' :=
         if kind_eqb (type e) folder
         then setupPy ++ "             '" ++ dst ++ "'," ++ nl
         else setupPy in
       rogue_packages topInit rest setupPy' topPath')%py
  end.

Fixpoint rogue_config (top : string) (cList : list FileEntry)
  : M (list member) unit :=
  match cList with
  | [] => ret tt
  | e :: rest =>
      (zf_write (fullPath e) (top ++ "/config/" ++ subPath e) ;;;
       rogue_config top rest)%py
  end.

Fixpoint rogue_images (top : string) (imgList : list string)
  : M (list member) unit :=
  match imgList with
  | [] => ret tt
  | e :: rest =>
      (zf_write e (top ++ "/images/" ++ OsPath.basename e) ;;;
       rogue_images top rest)%py
  end.

(** Lines 325-328: a line is kept when it has none of the markers. *)
Definition keep_line (line : string) : bool :=
  negb (PyStr.contains "import os" line)
  && negb (PyStr.contains "__version__" line)
  && negb (PyStr.contains "ConfigDir" line)
  && negb (PyStr.contains "ImageDir" line).

(** Lines 331-337. *)
Definition added_lines (ver : string) : string :=
  nl ++ nl
     ++ "##################### Added by release script ###################"
     ++ nl
     ++ "import os" ++ nl
     ++ "__version__ = '" ++ ver ++ "'" ++ nl
     ++ "ConfigDir = os.path.dirname(__file__) + '/config'" ++ nl
     ++ "ImageDir  = os.path.dirname(__file__) + '/images'" ++ nl
     ++ "#################################################################"
     ++ nl.

Definition newInit_of (txt ver : string) : string :=
  String.concat "" (filter keep_line (PyStr.readlines txt))
    ++ added_lines ver.

(** [open(topPath,'r')] and the lines read *)
Definition open_topPath (topPath : option string) : result string :=
  match topPath with
  | None => Raise TypeError
  | Some p => read_text p
  end.

Definition buildRogueFile (zipName : string) (cfg : ReleaseConfig)
           (ver relName : string) (relData : ReleaseDef)
           (imgList : list string) : M (option (list member)) unit :=
  let pList := selectFiles cfg relData "RoguePackages" in
  let cList := selectFiles cfg relData "RogueConfig" in
  if Nat.eqb (length pList) 0 then
    raise (Exception "Invalid release config. Rogue packages list is empty!")
  else
    match TopPackage cfg with
    | Val top =>
        let setupPy := setupPy_head relName ver in
        let topInit := top ++ "/__init__.py" in
        with_archive
          ('(setupPy, topPath) <- rogue_packages topInit pList setupPy None ;;
           let setupPy := setupPy ++ "            ]," ++ nl in
           rogue_config top cList ;;;
           rogue_images top imgList ;;;
           let setupPy := setupPy ++ "   package_data={'" ++ top
                                  ++ "':['config/*','images/*']}" ++ nl in
           let setupPy := setupPy ++ ")" ++ nl in
           zf_writestr "setup.py" setupPy ;;;
           txt <- lift (open_topPath topPath) ;;
           zf_writestr topInit (newInit_of txt ver))%py
    | _ =>
        raise (Exception "Invalid release config. TopPackage is not defined!")
    end.

(** *** The CPSW tarball *)

(** [tf.add(name=..., arcname=..., recursive=False)] *)
Definition tf_add (name arcname : string) : M (list member) unit :=
  fun t => (Ok tt, (t ++ [FromDisk name arcname])%list).

Fixpoint cpsw_add (prefix : string) (l : list FileEntry)
  : M (list member) unit :=
  match l with
  | [] => ret tt
  | e :: rest =>
      ((if kind_eqb (type e) file
        then tf_add (fullPath e) (prefix ++ subPath e)
        else ret tt) ;;;
       cpsw_add prefix rest)%py
  end.

Definition buildCpswFile (tarName : string) (cfg : ReleaseConfig)
           (ver relName : string) (relData : ReleaseDef)
           (imgList : list string) : M (option (list member)) unit :=
  let sList := selectFiles cfg relData "CpswSource" in
  let cList := selectFiles cfg relData "CpswConfig" in
  let baseDir := relName ++ "_project.yaml" in
  if Nat.eqb (length sList) 0 then
    raise (Exception "Invalid release config. Cpsw packages list is empty!")
  else
    with_archive
      (cpsw_add (baseDir ++ "/") sList ;;;
       cpsw_add (baseDir ++ "/config/") cList)%py.

(** *** Tagging and publishing *)

(** A release on the hosting service. *)
Record GitRelease : Type := {
  gr_repo    : string;
  gr_tag     : string;
  gr_name    : string;
  gr_message : string;
  gr_assets  : list string
}.

(** What a push of a tag to the remote [origin] does (line 379): the
    remote takes the tag; or it refuses it, which [push] reports in the
    value it returns, a value the script drops; or the command fails and
    [push] raises. *)
Inductive push_outcome : Type :=
| Pushed
| Refused
| PushFails.

(** How git and the hosting service answer the calls of [pushRelease]:
    whether git makes a tag of this name ([create_tag] raises when it
    refuses the name, as it does for one with a space in it), what the
    push of a tag does, and whether the hosting service makes a release
    for a tag and takes a file as an asset of the release of a tag (the
    exception raised if not). *)
Record Services : Type := {
  tag_name_ok    : string -> bool;
  push_answer    : string -> push_outcome;
  release_answer : string -> result unit;
  asset_answer   : string -> string -> result unit
}.

(** What [pushRelease] reads and changes: the console, the local
    repository at [args.project] (remote url, dirty flag, tags), the tags
    pushed to the remote and the releases on the hosting service, with
    the answers of git and of the service.  The repository is there:
    [git.Repo(args.project)] returns. *)
Record World : Type := {
  w_console  : console;
  w_url      : option string;
  w_dirty    : bool;
  w_tags     : list (string * string);
  w_pushed   : list string;
  w_releases : list GitRelease;
  w_services : Services
}.

(** The hosting service ([true]: the repository is found with these
    credentials) and the release-notes module of the repository. *)
Variable gh_get_repo : string -> string -> string -> bool.
Variable getReleaseNotes : string -> string -> string -> result string.

Fixpoint strip_prefix (p s : string) : option string :=
  match p, s with
  | EmptyString, _ => Some s
  | String a p', String b s' =>
      if Ascii.eqb a b then strip_prefix p' s' else None
  | String _ _, EmptyString => None
  end.

(** [(?P<name>.*?)(?P<ext>\.git?)] at the start of [s]: the shortest
    text without a newline that is followed by [.gi]. *)
Fixpoint match_name (s : string) : option string :=
  if String.prefix ".gi" s then Some EmptyString
  else match s with
       | EmptyString => None
       | String c s' =>
           if Ascii.eqb c "010"%char then None
           else option_map (String c) (match_name s')
       end.

(** [re.compile(r'slaclab/(?P<name>.*?)(?P<ext>\.git?)').search(url)],
    the group [name] of the leftmost match. *)
Fixpoint search_name (url : string) : option string :=
  match match strip_prefix "slaclab/" url with
        | Some rest => match_name rest
        | None => None
        end with
  | Some name => Some name
  | None => match url with
            | EmptyString => None
            | String _ url' => search_name url'
            end
  end.

Definition world_input : M World string :=
  fun w => let '(r, c) := input (w_console w) in
           (r, {| w_console := c; w_url := w_url w; w_dirty := w_dirty w;
                  w_tags := w_tags w; w_pushed := w_pushed w;
                  w_releases := w_releases w;
                  w_services := w_services w |}).

(** [locRepo.create_tag(path=tag, message=msg)]: git raises when the tag
    exists and when it refuses the name. *)
Definition create_tag (tag msg : string) : M World unit :=
  fun w => if Py.mem tag (map fst (w_tags w))
              || negb (tag_name_ok (w_services w) tag)
           then (Raise GitCommandError, w)
           else (Ok tt,
                 {| w_console := w_console w; w_url := w_url w;
                    w_dirty := w_dirty w;
                    w_tags := (w_tags w ++ [(tag, msg)])%list;
                    w_pushed := w_pushed w;
                    w_releases := w_releases w;
                    w_services := w_services w |}).

(** [locRepo.remotes.origin.push(newTag)], the value returned dropped: a
    refused push changes nothing and is not noticed. *)
Definition push_tag (tag : string) : M World unit :=
  fun w => match push_answer (w_services w) tag with
           | Pushed =>
               (Ok tt,
                {| w_console := w_console w; w_url := w_url w;
                   w_dirty := w_dirty w; w_tags := w_tags w;
                   w_pushed := (w_pushed w ++ [tag])%list;
                   w_releases := w_releases w;
                   w_services := w_services w |})
           | Refused => (Ok tt, w)
           | PushFails => (Raise GitCommandError, w)
           end.

Definition create_git_release (rel : GitRelease) : M World unit :=
  fun w => match release_answer (w_services w) (gr_tag rel) with
           | Ok _ =>
               (Ok tt,
                {| w_console := w_console w; w_url := w_url w;
                   w_dirty := w_dirty w; w_tags := w_tags w;
                   w_pushed := w_pushed w;
                   w_releases := (w_releases w ++ [rel])%list;
                   w_services := w_services w |})
           | Raise e => (Raise e, w)
           end.

(** [remRel.upload_asset(t)] for the release made for [tag] *)
Definition upload_asset (tag t : string) : M World unit :=
  fun w => match asset_answer (w_services w) tag t with
           | Ok _ =>
               (Ok tt,
                {| w_console := w_console w; w_url := w_url w;
                   w_dirty := w_dirty w; w_tags := w_tags w;
                   w_pushed := w_pushed w;
                   w_releases :=
                     map (fun r =>
                            if String.eqb (gr_tag r) tag
                            then {| gr_repo := gr_repo r; gr_tag := gr_tag r;
                                    gr_name := gr_name r;
                                    gr_message := gr_message r;
                                    gr_assets := (gr_assets r ++ [t])%list |}
                            else r)
                         (w_releases w);
                   w_services := w_services w |})
           | Raise e => (Raise e, w)
           end.

Fixpoint upload_assets (tag : string) (tagAttach : list string)
  : M World unit :=
  match tagAttach with
  | [] => ret tt
  | t :: rest => (upload_asset tag t ;;; upload_assets tag rest)%py
  end.

Definition pushRelease (relName ver : string) (tagAttach : list string)
           (prev : option string) : M World unit :=
  (url <- (fun w => match w_url w with
                    | Some u => (Ok u, w)
                    | None => (Raise ValueError, w)
                    end) ;;
   let url := if PyStr.endswith ".git" url then url else url ++ ".git" in
   proj <- match search_name url with
           | Some name => ret name
           | None => raise AttributeError
           end ;;
   dirty <- (fun w => (Ok (w_dirty w), w)) ;;
   if (dirty : bool) then
     raise (Exception "Cannot create tag! Git repo is dirty!")
   else
     let tag := relName ++ "_" ++ ver in
     let msg := relName ++ " version " ++ ver in
     create_tag tag msg ;;;
     push_tag tag ;;;
     username <- match user args with
                 | None => world_input
                 | Some u => ret u
                 end ;;
     password <- match password args with
                 | None => world_input
                 | Some p => ret p
                 end ;;
     let prevText := match prev with Some p => p | None => "None" end in
     let tagRange := relName ++ "_" ++ prevText ++ ".."
                             ++ relName ++ "_" ++ ver in
     let remRepo := "slaclab/" ++ proj in
     (if gh_get_repo username password remRepo then ret tt
      else raise GithubException) ;;;
     md <- lift (getReleaseNotes (project args) remRepo tagRange) ;;
     create_git_release {| gr_repo := remRepo; gr_tag := tag;
                           gr_name := msg; gr_message := md;
                           gr_assets := [] |} ;;;
     upload_assets tag tagAttach)%py.

End ReleaseGen.

(** ** The main program (lines 407-432) *)

(** What a run reads and changes: the console, repository and hosting
    service of [World], and the archive files written, by path. *)
Record Machine : Type := {
  m_world : World;
  m_files : Py.dict (list member)
}.

(** [d[k] = v] *)
Fixpoint dict_set {V} (d : Py.dict V) (k : string) (v : V) : Py.dict V :=
  match d with
  | [] => [(k, v)]
  | (k', v') :: d' =>
      if String.eqb k k' then (k, v) :: d' else (k', v') :: dict_set d' k v
  end.

(** A computation on the console, run on the console of the machine. *)
Definition on_console {A} (m : M console A) : M Machine A :=
  fun s =>
    let w := m_world s in
    let '(r, c) := m (w_console w) in
    (r, {| m_world :=
             {| w_console := c; w_url := w_url w; w_dirty := w_dirty w;
                w_tags := w_tags w; w_pushed := w_pushed w;
                w_releases := w_releases w;
                w_services := w_services w |};
           m_files := m_files s |}).

Definition on_world {A} (m : M World A) : M Machine A :=
  fun s => let '(r, w) := m (m_world s) in
           (r, {| m_world := w; m_files := m_files s |}).

(** A computation on the archive file [name]. *)
Definition on_file {A} (name : string) (m : M (option (list member)) A)
  : M Machine A :=
  fun s =>
    let '(r, f) := m (Py.get (m_files s) name) in
    (r, {| m_world := m_world s;
           m_files := match f with
                      | Some ms => dict_set (m_files s) name ms
                      | None => m_files s
                      end |}).

Section Main.

(** As for the functions above; [fs_zip] is the file system once the zip
    file has been written into the firmware directory, which is what the
    file groups of the tarball are read from. *)
Variable args : Args.
Variable fs : string -> option node.
Variable fs_zip : string -> option node.
Variable yaml_load : string -> option (yaml ReleaseConfig).
Variable py_int : string -> option Z.
Variable gh_get_repo : string -> string -> string -> bool.
Variable getReleaseNotes : string -> string -> string -> result string.

(** [t in relData['Types']] *)
Definition has_type {S} (relData : ReleaseDef) (t : string) : M S bool :=
  match rel_Types relData with
  | Absent => raise KeyError
  | Null => raise TypeError
  | Val types => ret (Py.mem t types)
  end.

(** Lines 417-429.  [tagAttach] is the list [imgList] itself: what is
    appended to it is in the list handed to [buildCpswFile]. *)
Definition build_archives (cfg : ReleaseConfig) (relName : string)
           (relData : ReleaseDef) (imgList : list string) (ver : string)
  : M Machine (list string) :=
  (let tagAttach := imgList in
   rogue <- has_type relData "Rogue" ;;
   tagAttach <-
     (if (rogue : bool) then
        let zipName :=
          OsPath.join (FirmwareDir args)
                      ("rogue_" ++ relName ++ "_" ++ ver ++ ".zip") in
        on_file zipName
                (buildRogueFile args fs zipName cfg ver relName relData
                                tagAttach) ;;;
        ret (tagAttach ++ [zipName])%list
      else ret tagAttach) ;;
   cpsw <- has_type relData "CPSW" ;;
   if (cpsw : bool) then
     let tarName :=
       OsPath.join (FirmwareDir args)
                   ("cpsw_" ++ relName ++ "_" ++ ver ++ ".tar.gz") in
     on_file tarName
             (buildCpswFile args fs_zip tarName cfg ver relName relData
                            tagAttach) ;;;
     ret (tagAttach ++ [tarName])%list
   else ret tagAttach)%py.

Definition main : M Machine unit :=
  (cfg <- lift (loadReleaseConfig args fs yaml_load) ;;
   ' (relName, relData) <- on_console (selectRelease args py_int cfg) ;;
   imgList <- on_console
                (selectBuildImages args fs py_int cfg relName relData) ;;
   ' (ver, prev) <- on_console (getVersion args) ;;
   tagAttach <- build_archives cfg relName relData imgList ver ;;
   match push args with
   | Some _ =>
       on_world (pushRelease args gh_get_repo getReleaseNotes
                             relName ver tagAttach prev)
   | None => ret tt
   end)%py.

End Main.

(** ** A file system given as a tree

    Paths are looked up from the root directory of the tree, component by
    component; empty components are skipped, so a trailing separator on a
    directory path changes nothing. *)

Module TreeFs.

(** The components of a path. *)
Fixpoint components (p : string) : list string :=
  match p with
  | EmptyString => []
  | String c p' =>
      if Ascii.eqb c "/"%char then EmptyString :: components p'
      else match components p' with
           | [] => [String c EmptyString]
           | x :: xs => String c x :: xs
           end
  end.

Fixpoint child (name : string) (ch : list node) : option node :=
  match ch with
  | [] => None
  | n :: ch' => if String.eqb (node_name n) name then Some n
                else child name ch'
  end.

Fixpoint descend (comps : list string) (n : node) : option node :=
  match comps with
  | [] => Some n
  | c :: comps' =>
      if String.eqb c EmptyString then descend comps' n
      else match n with
           | Dir _ ch =>
               match child c ch with
               | Some n' => descend comps' n'
               | None => None
               end
           | File _ _ => None
           end
  end.

Definition lookup (root : node) (path : string) : option node :=
  descend (components path) root.

End TreeFs.

(** * Definitions for the statements

    Sample inputs, and the functions the properties below are stated
    with. *)

(** ** Concrete inputs used by the examples *)

Module Sample.

Definition args : Args :=
  {| project := "p"; release := None; build := None; version := None;
     prev := None; user := None; password := None; push := None |}.

Definition with_build (b : string) : Args :=
  {| project := "p"; release := None; build := Some b; version := None;
     prev := None; user := None; password := None; push := None |}.

Definition no_groups : string -> field (list string) := fun _ => Absent.

Definition relData : ReleaseDef :=
  {| rel_Targets := Val ["fw"]; rel_Types := Val ["Rogue"; "CPSW"];
     rel_group := no_groups |}.

Definition targets : Py.dict (yaml TargetDef) :=
  [("fw", YMap {| Extensions := Val ["bit"; "mcs"] |})].

(** A console conversion for the examples: the decimal texts used. *)
Definition to_int (txt : string) : option Z :=
  if String.eqb txt "-1" then Some (-1)%Z
  else if String.eqb txt "-2" then Some (-2)%Z
  else if String.eqb txt "0" then Some 0%Z
  else if String.eqb txt "1" then Some 1%Z
  else if String.eqb txt "2" then Some 2%Z
  else if String.eqb txt "3" then Some 3%Z
  else None.

(** [Releases: {}], every other key in order. *)
Definition cfg_empty_releases : ReleaseConfig :=
  {| Releases := Val []; Targets := Val targets; TopPackage := Val "top";
     cfg_group := no_groups |}.

(** The text of a release file that holds this configuration. *)
Definition text_empty_releases : string :=
  "Releases: {}" ++ nl
    ++ "Targets:" ++ nl
    ++ "  fw:" ++ nl
    ++ "    Extensions: [bit, mcs]" ++ nl
    ++ "TopPackage: top" ++ nl.

Definition tree_cfg : node :=
  Dir "" [Dir "p" [Dir "firmware"
    [File "releases.yaml" text_empty_releases]]].

(** A release file without a document. *)
Definition tree_empty_file : node :=
  Dir "" [Dir "p" [Dir "firmware" [File "releases.yaml" ""]]].

End Sample.

(** One step of a computation in [M]. *)
Ltac mstep :=
  cbv beta iota delta [bind ret raise lift input int_of].

(** The order [sorted] produces. *)
Definition ascending : list string -> Prop :=
  StronglySorted (fun x y => PyStr.leb x y = true).

(** The images of a build as the specification lists them, one per declared
    extension in the order of the extensions (for comparison with
    [buildImages], which follows the source). *)
Definition images_in_extension_order (imageDir buildName : string)
           (extensions dirList : list string) : list string :=
  map (OsPath.join imageDir)
      (filter (fun f => Py.mem f dirList)
              (map (fun ext => buildName ++ "." ++ ext) extensions)).

Module ImagesSample.

(** The image directory of target fw lists the .mcs file before the
    .bit file; the extensions are declared bit, then mcs. *)
Definition tree : node :=
  Dir "" [Dir "p" [Dir "firmware" [Dir "targets" [Dir "fw" [Dir "images"
    [File "fw_1.mcs" "m"; File "fw_1.bit" "b"; File "fw_1.txt" "t";
     File "fw_2.bit" "b"]]]]]].

Definition cfg : ReleaseConfig :=
  {| Releases := Val [("r", Sample.relData)];
     Targets := Val Sample.targets; TopPackage := Val "top";
     cfg_group := Sample.no_groups |}.

Definition imageDir : string := "p/firmware/targets/fw/images".

End ImagesSample.

(** [e['type'] == 'file'] *)
Definition is_file (e : FileEntry) : bool := kind_eqb (type e) file.

(** ** A sample project *)

Module Project.

Definition initText : string :=
  "import os" ++ nl
    ++ "from top.mod import *" ++ nl
    ++ "__version__ = 'dev'" ++ nl
    ++ "ConfigDir = 'x'" ++ nl
    ++ "ImageDir = 'y'" ++ nl
    ++ "name = 'top'".

(** The release file of the project: the configuration [cfg] below. *)
Definition releasesText : string :=
  "Releases:" ++ nl
    ++ "  r:" ++ nl
    ++ "    Targets: [fw]" ++ nl
    ++ "    Types: [Rogue, CPSW]" ++ nl
    ++ "Targets:" ++ nl
    ++ "  fw:" ++ nl
    ++ "    Extensions: [bit, mcs]" ++ nl
    ++ "TopPackage: top" ++ nl
    ++ "RoguePackages: [python]" ++ nl
    ++ "RogueConfig: [config]" ++ nl
    ++ "CpswSource: [cpsw]" ++ nl
    ++ "CpswConfig: [cpswcfg]" ++ nl.

Definition tree : node :=
  Dir ""
    [Dir "p"
      [Dir "firmware"
        [File "releases.yaml" releasesText;
         Dir "python"
           [Dir "top" [File "__init__.py" initText; File "mod.py" "pass"]];
         Dir "config" [File "defaults.yml" "a: 1"];
         Dir "cpsw" [File "top.yaml" "t"; Dir "sub" [File "x.yaml" "x"]];
         Dir "cpswcfg" [File "c.yaml" "c"];
         Dir "targets"
           [Dir "fw"
             [Dir "images" [File "fw_1.bit" "b"; File "fw_1.mcs" "m"]]]]]].

Definition fs : string -> option node := TreeFs.lookup tree.

Definition groups (key : string) : field (list string) :=
  if String.eqb key "RoguePackages" then Val ["python"]
  else if String.eqb key "RogueConfig" then Val ["config"]
  else if String.eqb key "CpswSource" then Val ["cpsw"]
  else if String.eqb key "CpswConfig" then Val ["cpswcfg"]
  else Absent.

Definition cfg : ReleaseConfig :=
  {| Releases := Val [("r", Sample.relData)];
     Targets := Val Sample.targets; TopPackage := Val "top";
     cfg_group := groups |}.

Definition imgList : list string :=
  ["p/firmware/targets/fw/images/fw_1.bit";
   "p/firmware/targets/fw/images/fw_1.mcs"].

(** The members of the zip file built for the sample project. *)
Definition built (relName ver : string) : list member :=
  match snd (buildRogueFile Sample.args fs "p/firmware/rogue.zip" cfg
                            ver relName Sample.relData imgList None) with
  | Some ms => ms
  | None => []
  end.

End Project.

(** The YAML parser on the texts of the examples: the two release files
    above and the file without a document. *)
Definition sample_yaml (txt : string) : option (yaml ReleaseConfig) :=
  if String.eqb txt Sample.text_empty_releases
  then Some (YMap Sample.cfg_empty_releases)
  else if String.eqb txt Project.releasesText then Some (YMap Project.cfg)
  else if String.eqb txt "" then Some (YOther YNone)
  else None.

(** Git and a hosting service that accept what the examples ask for. *)
Definition willing : Services :=
  {| tag_name_ok := fun _ => true;
     push_answer := fun _ => Pushed;
     release_answer := fun _ => Ok tt;
     asset_answer := fun _ _ => Ok tt |}.

Module PushSample.

Definition dirty : World :=
  {| w_console := ["me"; "secret"];
     w_url := Some "https://github.com/slaclab/ruckus";
     w_dirty := true; w_tags := [("r_v0", "r version v0")];
     w_pushed := ["r_v0"]; w_releases := []; w_services := willing |}.

Definition clean : World :=
  {| w_console := ["me"; "secret"];
     w_url := Some "https://github.com/slaclab/ruckus";
     w_dirty := false; w_tags := [("r_v0", "r version v0")];
     w_pushed := ["r_v0"]; w_releases := []; w_services := willing |}.

(** The clean repository with a remote that refuses the push. *)
Definition refusing : World :=
  {| w_console := ["me"; "secret"];
     w_url := Some "https://github.com/slaclab/ruckus";
     w_dirty := false; w_tags := [("r_v0", "r version v0")];
     w_pushed := ["r_v0"]; w_releases := [];
     w_services :=
       {| tag_name_ok := fun _ => true;
          push_answer := fun _ => Refused;
          release_answer := fun _ => Ok tt;
          asset_answer := fun _ _ => Ok tt |} |}.

End PushSample.

(** The value of [topPath] after the loop of lines 293-303. *)
Fixpoint captured (topInit : string) (pList : list FileEntry)
         (topPath : option string) : option string :=
  match pList with
  | [] => topPath
  | e :: rest =>
      captured topInit rest
               (if String.eqb (subPath e) topInit then Some (fullPath e)
                else topPath)
  end.

(** The lines the loop adds to [setupPy]. *)
Fixpoint package_lines (pList : list FileEntry) : string :=
  match pList with
  | [] => ""
  | e :: rest =>
      (if kind_eqb (type e) folder
       then "             '" ++ subPath e ++ "'," ++ nl
       else "") ++ package_lines rest
  end.

(** The members the three loops of [buildRogueFile] write. *)
Definition raw_members (topInit : string) (pList : list FileEntry)
  : list member :=
  map (fun e => FromDisk (fullPath e) (subPath e))
      (filter (fun e => negb (String.eqb (subPath e) topInit)) pList).

Definition config_members (top : string) (cList : list FileEntry)
  : list member :=
  map (fun e => FromDisk (fullPath e) (top ++ "/config/" ++ subPath e))
      cList.

Definition image_members (top : string) (imgList : list string)
  : list member :=
  map (fun e => FromDisk e (top ++ "/images/" ++ OsPath.basename e))
      imgList.

(** The text written as setup.py (lines 280-317). *)
Definition setupPy_text (relName ver top : string)
           (pList : list FileEntry) : string :=
  (((setupPy_head relName ver ++ package_lines pList)
      ++ "            ]," ++ nl)
     ++ "   package_data={'" ++ top ++ "':['config/*','images/*']}" ++ nl)
    ++ ")" ++ nl.

(** What is in the archive when setup.py has been written. *)
Definition members_before_init (top relName ver : string)
           (pList cList : list FileEntry) (imgList : list string)
  : list member :=
  (raw_members (top ++ "/__init__.py") pList
     ++ config_members top cList
     ++ image_members top imgList
     ++ [FromBytes "setup.py" (setupPy_text relName ver top pList)])%list.

Module ProjectNoInit.

(** The sample project with a top package that has no initializer among
    the package files. *)
Definition cfg : ReleaseConfig :=
  {| Releases := Val [("r", Sample.relData)];
     Targets := Val Sample.targets; TopPackage := Val "other";
     cfg_group := Project.groups |}.

End ProjectNoInit.

Module BareTarget.

(** The sample project with the target fw declared with no value:
    the line [fw:] and nothing under it. *)
Definition cfg : ReleaseConfig :=
  {| Releases := Val [("r", Sample.relData)];
     Targets := Val [("fw", YOther YNone)]; TopPackage := Val "top";
     cfg_group := Project.groups |}.

End BareTarget.

(** ** Reading the generated setup.py

    What a reader of the descriptor finds as the keyword arguments of the
    call of [setup].  The whole text is read, as Python reads the whole
    file before it runs any of it: the lines up to [name=], a string
    literal in single quotes, the text up to [version=], a second
    literal, the opening of [packages], one literal per line, the closing
    of the list, the key of [package_data] as a literal, and the fixed
    end of the call; nothing may follow.  A literal is read as Python
    reads one without escapes: it ends at the next single quote; a
    backslash, a line break or a NUL character inside it is not read (the
    first starts an escape, the second is a syntax error, the third is
    not allowed in a source file). *)

Definition plain_char (c : ascii) : bool :=
  negb (Ascii.eqb c "'"%char || Ascii.eqb c "\"%char
        || Ascii.eqb c "010"%char || Ascii.eqb c "013"%char
        || Ascii.eqb c "000"%char).

Fixpoint plain (s : string) : bool :=
  match s with
  | EmptyString => true
  | String c s' => plain_char c && plain s'
  end.

(** The text after an opening quote: the value and what follows the
    closing quote. *)
Fixpoint read_literal (s : string) : option (string * string) :=
  match s with
  | EmptyString => None
  | String c s' =>
      if Ascii.eqb c "'"%char then Some (EmptyString, s')
      else if plain_char c then
             match read_literal s' with
             | Some (v, r) => Some (String c v, r)
             | None => None
             end
           else None
  end.

Definition descriptor_prefix : string :=
  nl ++ nl ++ "from distutils.core import setup" ++ nl ++ nl
     ++ "setup (" ++ nl ++ "   name='".

Definition version_prefix : string := "," ++ nl ++ "   version='".

Definition packages_prefix : string := "," ++ nl ++ "   packages=[" ++ nl.

Definition package_open : string := "             '".

Definition packages_end : string := "            ]," ++ nl.

Definition data_prefix : string := "   package_data={'".

Definition data_suffix : string :=
  ":['config/*','images/*']}" ++ nl ++ ")" ++ nl.

(** The items of the list [packages] and what follows the closing of the
    list.  [fuel] bounds the number of items read; the length of the text
    is enough. *)
Fixpoint read_packages (fuel : nat) (s : string)
  : option (list string * string) :=
  match strip_prefix packages_end s with
  | Some r => Some ([], r)
  | None =>
      match fuel with
      | O => None
      | S fuel' =>
          match strip_prefix package_open s with
          | None => None
          | Some r1 =>
              match read_literal r1 with
              | None => None
              | Some (pkg, r2) =>
                  match strip_prefix ("," ++ nl) r2 with
                  | None => None
                  | Some r3 =>
                      match read_packages fuel' r3 with
                      | Some (pkgs, r) => Some (pkg :: pkgs, r)
                      | None => None
                      end
                  end
              end
          end
      end
  end.

(** The keyword arguments of the call of [setup]. *)
Record SetupCall : Type := {
  su_name         : string;
  su_version      : string;
  su_packages     : list string;
  su_package_data : string          (* the key of [package_data] *)
}.

Definition read_call (descriptor : string) : option SetupCall :=
  match strip_prefix descriptor_prefix descriptor with
  | None => None
  | Some r1 =>
  match read_literal r1 with
  | None => None
  | Some (name, r2) =>
  match strip_prefix version_prefix r2 with
  | None => None
  | Some r3 =>
  match read_literal r3 with
  | None => None
  | Some (ver, r4) =>
  match strip_prefix packages_prefix r4 with
  | None => None
  | Some r5 =>
  match read_packages (String.length r5) r5 with
  | None => None
  | Some (pkgs, r6) =>
  match strip_prefix data_prefix r6 with
  | None => None
  | Some r7 =>
  match read_literal r7 with
  | None => None
  | Some (top, r8) =>
  match strip_prefix data_suffix r8 with
  | Some EmptyString =>
      Some {| su_name := name; su_version := ver; su_packages := pkgs;
              su_package_data := top |}
  | _ => None
  end end end end end end end end end.

(** The descriptor that declares these arguments. *)
Fixpoint render_packages (pkgs : list string) : string :=
  match pkgs with
  | [] => ""
  | pkg :: pkgs' =>
      package_open ++ pkg ++ "'," ++ nl ++ render_packages pkgs'
  end.

Definition render (call : SetupCall) : string :=
  descriptor_prefix ++ su_name call ++ "'"
    ++ version_prefix ++ su_version call ++ "'"
    ++ packages_prefix ++ render_packages (su_packages call)
    ++ packages_end
    ++ data_prefix ++ su_package_data call ++ "'" ++ data_suffix.

(** The declared package name and version. *)
Definition read_setup (descriptor : string) : option (string * string) :=
  match read_call descriptor with
  | Some call => Some (su_name call, su_version call)
  | None => None
  end.

(** [e['type'] == 'folder'] *)
Definition is_folder (e : FileEntry) : bool := kind_eqb (type e) folder.

(** The sample project with a package directory that has a single quote
    in its name. *)
Module QuotedFolder.

Definition tree : node :=
  Dir ""
    [Dir "p"
      [Dir "firmware"
        [Dir "python"
           [Dir "top" [File "__init__.py" "pass"; Dir "d'x" []]]]]].

Definition fs : string -> option node := TreeFs.lookup tree.

End QuotedFolder.

(** ** Sample trees for the file lists *)

Module WalkSample.

(** The tree base/{a.txt, sub/b.txt} in the firmware directory. *)
Definition tree : node :=
  Dir "" [Dir "p" [Dir "firmware"
    [Dir "base" [File "a.txt" "A"; Dir "sub" [File "b.txt" "B"]]]]].

(** A package directory that holds, further down, a directory path equal
    to its own. *)
Definition nested : node :=
  Dir "" [Dir "p" [Dir "firmware"
    [Dir "x" [Dir "p" [Dir "firmware" [Dir "x" [File "f.txt" "F"]]]]]]].

Definition group (dirs : list string) : ReleaseConfig :=
  {| Releases := Val [("r", Sample.relData)];
     Targets := Val Sample.targets; TopPackage := Val "top";
     cfg_group := fun key => if String.eqb key "RoguePackages"
                             then Val dirs else Absent |}.

End WalkSample.

(** The entries [selectFiles] records for one walk. *)
Definition walk_entries (base path : string) (n : node) : list FileEntry :=
  flat_map (fun '(root, folders, files) =>
              (genFileList base root folders folder
                 ++ genFileList base root files file)%list)
           (walk_node path n).

(** [under path n p' n']: the node [n'] is reached below the directory
    [n] walked as [path], and [p'] is the path [os.walk] builds for it. *)
Inductive under : string -> node -> string -> node -> Prop :=
| under_child path nm ch c :
    In c ch -> under path (Dir nm ch) (OsPath.join path (node_name c)) c
| under_deeper path nm ch c p' n' :
    In c ch ->
    under (OsPath.join path (node_name c)) c p' n' ->
    under path (Dir nm ch) p' n'.

(** The type [selectFiles] gives the entry of a node. *)
Definition kind_of (n : node) : kind :=
  if is_dir n then folder else file.

(** Computations that leave the state as it is. *)
Definition keeps_state {S A} (m : M S A) : Prop :=
  forall s r s', m s = (r, s') -> s' = s.

(** A release without file groups of its own, and a configuration
    without global file groups. *)
Definition no_release_groups (relData : ReleaseDef) : ReleaseDef :=
  {| rel_Targets := rel_Targets relData; rel_Types := rel_Types relData;
     rel_group := fun _ => Absent |}.

Definition no_global_groups (cfg : ReleaseConfig) : ReleaseConfig :=
  {| Releases := Releases cfg; Targets := Targets cfg;
     TopPackage := TopPackage cfg; cfg_group := fun _ => Absent |}.

(** The line of setup.py that declares a package (line 303). *)
Definition package_line (dst : string) : string :=
  "             '" ++ dst ++ "'," ++ nl.

(** The state once the tag is created in the local repository (line
    378). *)
Definition tag_created (w : World) (tag msg : string) : World :=
  {| w_console := w_console w; w_url := w_url w; w_dirty := w_dirty w;
     w_tags := (w_tags w ++ [(tag, msg)])%list;
     w_pushed := w_pushed w;
     w_releases := w_releases w;
     w_services := w_services w |}.

(** The state [pushRelease] leaves once the tag is created and the push
    has returned (line 379), with the console as it is then: the tag is
    on the remote only if the remote took it. *)
Definition tagged (w : World) (c : console) (tag msg : string) : World :=
  {| w_console := c; w_url := w_url w; w_dirty := w_dirty w;
     w_tags := (w_tags w ++ [(tag, msg)])%list;
     w_pushed := match push_answer (w_services w) tag with
                 | Pushed => (w_pushed w ++ [tag])%list
                 | _ => w_pushed w
                 end;
     w_releases := w_releases w;
     w_services := w_services w |}.

(** The machine with another console. *)
Definition with_console (s : Machine) (c : console) : Machine :=
  {| m_world :=
       {| w_console := c; w_url := w_url (m_world s);
          w_dirty := w_dirty (m_world s); w_tags := w_tags (m_world s);
          w_pushed := w_pushed (m_world s);
          w_releases := w_releases (m_world s);
          w_services := w_services (m_world s) |};
     m_files := m_files s |}.

(** [url] with [.git] added when it does not end with it (line 367). *)
Definition git_url (url : string) : string :=
  if PyStr.endswith ".git" url then url else url ++ ".git".

(** A value from the command line, or else the next line of the
    console: what is left of the console is the third argument. *)
Definition given_or_read (arg : option string) (c : console)
           (v : string) (c' : console) : Prop :=
  (arg = Some v /\ c' = c) \/ (arg = None /\ c = v :: c').

(** The repository and the hosting service are the same in two states of
    the machine: only the console and the files may differ. *)
Definition same_repo (s s' : Machine) : Prop :=
  w_url (m_world s') = w_url (m_world s)
  /\ w_dirty (m_world s') = w_dirty (m_world s)
  /\ w_tags (m_world s') = w_tags (m_world s)
  /\ w_pushed (m_world s') = w_pushed (m_world s)
  /\ w_releases (m_world s') = w_releases (m_world s).

(** The names of the two archives (lines 421 and 427). *)
Definition zipName_of (args : Args) (relName ver : string) : string :=
  OsPath.join (FirmwareDir args) ("rogue_" ++ relName ++ "_" ++ ver ++ ".zip").

Definition tarName_of (args : Args) (relName ver : string) : string :=
  OsPath.join (FirmwareDir args)
              ("cpsw_" ++ relName ++ "_" ++ ver ++ ".tar.gz").

(** A run of the sample project with [--push]: everything is given on
    the command line, the tree is clean. *)
Module MainSample.

Definition args : Args :=
  {| project := "p"; release := Some "r"; build := Some "latest";
     version := Some "v1"; prev := Some "v0"; user := Some "me";
     password := Some "secret"; push := Some 1 |}.

Definition start : Machine :=
  {| m_world := PushSample.clean; m_files := [] |}.

Definition run : result unit * Machine :=
  main args Project.fs Project.fs sample_yaml Sample.to_int
       (fun _ _ _ => true) (fun _ _ _ => Ok "notes") start.

End MainSample.

(** [below n rel n']: the node [n'] is in the directory [n], at the
    relative path [rel] (the names from [n] down, joined by [/]). *)
Inductive below : node -> string -> node -> Prop :=
| below_child nm ch c :
    In c ch -> below (Dir nm ch) (node_name c) c
| below_deeper nm ch c rel n' :
    In c ch -> below c rel n' ->
    below (Dir nm ch) (node_name c ++ "/" ++ rel) n'.

(** A file name: not empty, no separator in it. *)
Definition proper_name (nm : string) : Prop :=
  nm <> "" /\ PyStr.contains "/" nm = false.

(** The entry [genFileList] makes for a node walked as [p] from [base]. *)
Definition entry_of (base p : string) (n : node) : FileEntry :=
  {| type := kind_of n; fullPath := p;
     subPath := PyStr.remove_all (base ++ "/") p |}.

(** The lines of a text file: every line but the last ends with its only
    newline. *)
Fixpoint lines_ok (ls : list string) : Prop :=
  match ls with
  | [] => True
  | l :: ls' =>
      (ls' = [] \/ exists body, l = body ++ nl
                                /\ PyStr.contains nl body = false)
      /\ lines_ok ls'
  end.

(** * Properties *)

(** ** Loading the configuration *)

Section LoadFacts.

Variable args : Args.
Variable fs : string -> option node.
Variable yaml_load : string -> option (yaml ReleaseConfig).

Lemma missing_true {A} (f : field A) :
  missing f = true <-> f = Absent \/ f = Null.
Proof.
  destruct f; simpl; split; intros H; try reflexivity;
    try discriminate; auto.
  destruct H; discriminate.
Qed.

Lemma missing_false {A} (f : field A) :
  missing f = false <-> exists a, f = Val a.
Proof.
  destruct f; simpl; split; intros H; try discriminate;
    try (destruct H; discriminate); eauto.
Qed.

Lemma loadReleaseConfig_parsed txt cfg :
  read_text fs (OsPath.join (FirmwareDir args) "releases.yaml") = Ok txt ->
  yaml_load txt = Some (YMap cfg) ->
  loadReleaseConfig args fs yaml_load =
    if missing (Releases cfg) then
      Raise (Exception
               "Invalid release config. Releases key is missing or empty!")
    else if missing (Targets cfg) then
      Raise (Exception
               "Invalid release config. Targets key is missing or empty!")
    else Ok cfg.
Proof.
  intros Hr Hy. unfold loadReleaseConfig. rewrite Hr, Hy. reflexivity.
Qed.

Lemma loadReleaseConfig_other txt doc :
  read_text fs (OsPath.join (FirmwareDir args) "releases.yaml") = Ok txt ->
  yaml_load txt = Some (YOther doc) ->
  loadReleaseConfig args fs yaml_load =
    match missing_in "Releases" doc with
    | Raise e => Raise e
    | Ok tt =>
        Raise (Exception
                 "Invalid release config. Releases key is missing or empty!")
    end.
Proof.
  intros Hr Hy. unfold loadReleaseConfig. rewrite Hr, Hy. reflexivity.
Qed.

End LoadFacts.

(** C4, as amended.  When the release file is read and parsed to a
    mapping, loading raises the validation exception exactly when the
    [Releases] key or the [Targets] key is absent or holds [None]; it
    returns the parsed configuration exactly when both keys hold a value
    other than [None], an empty mapping included.  When the file parses
    to something that is not a mapping, nothing is returned: [None] (a
    file without a document) and a scalar that is not a string end in the
    TypeError of line 112, a string or a sequence in that TypeError when
    [Releases] is in it and in the validation exception for [Releases]
    when it is not. *)
Theorem loadReleaseConfig_validation
        (args : Args) (fs : string -> option node)
        (yaml_load : string -> option (yaml ReleaseConfig))
        (txt : string) (doc : yaml ReleaseConfig) :
  read_text fs (OsPath.join (FirmwareDir args) "releases.yaml") = Ok txt ->
  yaml_load txt = Some doc ->
  (forall cfg,
      doc = YMap cfg ->
      (Releases cfg = Absent \/ Releases cfg = Null ->
       loadReleaseConfig args fs yaml_load =
         Raise (Exception
                  "Invalid release config. Releases key is missing or empty!"))
      /\ ((exists r, Releases cfg = Val r) ->
          Targets cfg = Absent \/ Targets cfg = Null ->
          loadReleaseConfig args fs yaml_load =
            Raise (Exception
                     "Invalid release config. Targets key is missing or empty!"))
      /\ (loadReleaseConfig args fs yaml_load = Ok cfg <->
          exists r t, Releases cfg = Val r /\ Targets cfg = Val t))
  /\ (forall cfg,
         loadReleaseConfig args fs yaml_load = Ok cfg -> doc = YMap cfg)
  /\ (doc = YOther YNone \/ doc = YOther YScalar ->
      loadReleaseConfig args fs yaml_load = Raise TypeError)
  /\ (forall s,
         doc = YOther (YStr s) ->
         loadReleaseConfig args fs yaml_load =
           if PyStr.contains "Releases" s then Raise TypeError
           else Raise (Exception
                  "Invalid release config. Releases key is missing or empty!"))
  /\ (forall items,
         doc = YOther (YSeq items) ->
         loadReleaseConfig args fs yaml_load =
           if seq_mem "Releases" items then Raise TypeError
           else Raise (Exception
                  "Invalid release config. Releases key is missing or empty!")).
Proof.
  intros Hr Hy. split; [|split; [|split; [|split]]].
  - intros cfg ->.
    rewrite (loadReleaseConfig_parsed args fs yaml_load txt cfg Hr Hy).
    repeat split.
    + intros H. apply missing_true in H. now rewrite H.
    + intros Hrel H. apply missing_false in Hrel. apply missing_true in H.
      now rewrite Hrel, H.
    + destruct (Releases cfg) as [| |r]; simpl; try discriminate.
      destruct (Targets cfg) as [| |t]; simpl; try discriminate.
      intros _. now exists r, t.
    + intros (r & t & Hrel & Htgt). now rewrite Hrel, Htgt.
  - intros cfg. destruct doc as [cfg0|v].
    + rewrite (loadReleaseConfig_parsed args fs yaml_load txt cfg0 Hr Hy).
      destruct (missing (Releases cfg0)); [discriminate|].
      destruct (missing (Targets cfg0)); [discriminate|].
      intros H. now injection H as <-.
    + rewrite (loadReleaseConfig_other args fs yaml_load txt v Hr Hy).
      destruct (missing_in "Releases" v) as [[]|e]; discriminate.
  - intros [-> | ->];
      now rewrite (loadReleaseConfig_other args fs yaml_load txt _ Hr Hy).
  - intros s ->.
    rewrite (loadReleaseConfig_other args fs yaml_load txt _ Hr Hy).
    cbn [missing_in]. now destruct (PyStr.contains "Releases" s).
  - intros items ->.
    rewrite (loadReleaseConfig_other args fs yaml_load txt _ Hr Hy).
    cbn [missing_in]. now destruct (seq_mem "Releases" items).
Qed.

Lemma loadReleaseConfig_validation_witness :
  (loadReleaseConfig Sample.args (TreeFs.lookup Sample.tree_cfg) sample_yaml
   = Ok Sample.cfg_empty_releases
   <-> exists r t, Releases Sample.cfg_empty_releases = Val r
                   /\ Targets Sample.cfg_empty_releases = Val t)
  /\ loadReleaseConfig Sample.args (TreeFs.lookup Sample.tree_empty_file)
                       sample_yaml
     = Raise TypeError.
Proof.
  split.
  - apply (proj1 (loadReleaseConfig_validation
                    Sample.args (TreeFs.lookup Sample.tree_cfg) sample_yaml
                    Sample.text_empty_releases
                    (YMap Sample.cfg_empty_releases) eq_refl eq_refl)
                 Sample.cfg_empty_releases eq_refl).
  - apply (proj1 (proj2 (proj2 (loadReleaseConfig_validation
                    Sample.args (TreeFs.lookup Sample.tree_empty_file)
                    sample_yaml "" (YOther YNone) eq_refl eq_refl)))).
    now left.
Defined.

(** C4 as stated fails: the release file below sets [Releases] to the
    empty mapping and declares a target; loading it does not fail and
    returns the parsed configuration. *)
Lemma loadReleaseConfig_accepts_empty_releases :
  read_text (TreeFs.lookup Sample.tree_cfg)
            (OsPath.join (FirmwareDir Sample.args) "releases.yaml")
  = Ok ("Releases: {}" ++ nl
          ++ "Targets:" ++ nl
          ++ "  fw:" ++ nl
          ++ "    Extensions: [bit, mcs]" ++ nl
          ++ "TopPackage: top" ++ nl)
  /\ sample_yaml Sample.text_empty_releases
     = Some (YMap Sample.cfg_empty_releases)
  /\ Releases Sample.cfg_empty_releases = Val []
  /\ loadReleaseConfig Sample.args (TreeFs.lookup Sample.tree_cfg)
                       sample_yaml
     = Ok Sample.cfg_empty_releases.
Proof. repeat split. Qed.

(** ** Python indexing *)

Section IndexFacts.

Context {A : Type}.

Lemma index_nonneg (l : list A) (i : Z) :
  (0 <= i < Z.of_nat (length l))%Z ->
  exists a, nth_error l (Z.to_nat i) = Some a /\ Py.index l i = Ok a.
Proof.
  intros Hi. unfold Py.index.
  destruct (Z.ltb_spec i 0); [lia|].
  destruct (Z.ltb_spec i 0); [lia|].
  destruct (nth_error l (Z.to_nat i)) as [a|] eqn:E.
  - now exists a.
  - apply nth_error_None in E. lia.
Qed.

Lemma index_negative (l : list A) (i : Z) :
  (- Z.of_nat (length l) <= i < 0)%Z ->
  exists a, nth_error l (Z.to_nat (Z.of_nat (length l) + i)) = Some a
            /\ Py.index l i = Ok a.
Proof.
  intros Hi. unfold Py.index.
  destruct (Z.ltb_spec i 0); [|lia].
  destruct (Z.ltb_spec (Z.of_nat (length l) + i) 0); [lia|].
  destruct (nth_error l (Z.to_nat (Z.of_nat (length l) + i)))
    as [a|] eqn:E.
  - now exists a.
  - apply nth_error_None in E. lia.
Qed.

Lemma index_below (l : list A) (i : Z) :
  (i < - Z.of_nat (length l))%Z -> Py.index l i = Raise IndexError.
Proof.
  intros Hi. unfold Py.index.
  destruct (Z.ltb_spec i 0); [|lia].
  destruct (Z.ltb_spec (Z.of_nat (length l) + i) 0); [reflexivity|lia].
Qed.

Lemma index_last (l : list A) (d : A) :
  l <> [] -> Py.index l (-1) = Ok (last l d).
Proof.
  intros Hl.
  destruct (index_negative l (-1)) as (a & Hn & Hi).
  { destruct l; [congruence|]. simpl length. lia. }
  rewrite Hi. f_equal.
  destruct (@exists_last _ l Hl) as (l' & x & ->).
  rewrite last_last.
  rewrite length_app in Hn. simpl in Hn.
  replace (Z.to_nat (Z.of_nat (length l' + 1) + -1)) with (length l')
    in Hn by lia.
  rewrite nth_error_app2, Nat.sub_diag in Hn by lia.
  simpl in Hn. congruence.
Qed.

End IndexFacts.

(** ** Index prompts *)

Section PromptFacts.

Variable args : Args.
Variable py_int : string -> option Z.

Lemma geb_true (i n : Z) : (i >= n)%Z -> (i >=? n)%Z = true.
Proof. intros H. rewrite Z.geb_leb. apply Z.leb_le. lia. Qed.

Lemma geb_false (i n : Z) : (i < n)%Z -> (i >=? n)%Z = false.
Proof. intros H. rewrite Z.geb_leb. apply Z.leb_gt. lia. Qed.

(** Lines 158-161 of [selectRelease]. *)
Lemma selectRelease_index_rejected cfg releases txt c i :
  release args = None ->
  Releases cfg = Val releases ->
  length releases <> 1 ->
  py_int txt = Some i ->
  (i >= Z.of_nat (length releases))%Z ->
  selectRelease args py_int cfg (txt :: c)
  = (Raise (Exception "Invalid release index"), c).
Proof.
  intros Hrel Hcfg Hlen Hint Hi.
  unfold selectRelease. rewrite Hrel, Hcfg. mstep.
  assert (Hk : length (Py.keys releases) = length releases)
    by apply length_map.
  destruct (Py.keys releases) as [|k [|k' ks]] eqn:Ek;
    try (simpl in Hk; congruence);
    rewrite Hint; rewrite geb_true by (rewrite Hk; exact Hi);
    reflexivity.
Qed.

(** Lines 158-174 of [selectRelease], for an index the test of line 160
    lets through. *)
Lemma selectRelease_index_accepted cfg releases txt c i relName relData :
  release args = None ->
  Releases cfg = Val releases ->
  length releases <> 1 ->
  py_int txt = Some i ->
  (i < Z.of_nat (length releases))%Z ->
  Py.index (Py.keys releases) i = Ok relName ->
  Py.get releases relName = Some relData ->
  missing (rel_Targets relData) = false ->
  missing (rel_Types relData) = false ->
  selectRelease args py_int cfg (txt :: c) = (Ok (relName, relData), c).
Proof.
  intros Hrel Hcfg Hlen Hint Hi Hidx Hget Ht Hy.
  unfold selectRelease. rewrite Hrel, Hcfg. mstep.
  assert (Hk : length (Py.keys releases) = length releases)
    by apply length_map.
  destruct (Py.keys releases) as [|k [|k' ks]] eqn:Ek;
    try (simpl in Hk; congruence);
    rewrite Hint; rewrite geb_false by (rewrite Hk; exact Hi);
    rewrite Hidx, Hget, Ht, Hy; reflexivity.
Qed.

Lemma selectRelease_index_error cfg releases txt c i :
  release args = None ->
  Releases cfg = Val releases ->
  length releases <> 1 ->
  py_int txt = Some i ->
  (i < - Z.of_nat (length releases))%Z ->
  selectRelease args py_int cfg (txt :: c) = (Raise IndexError, c).
Proof.
  intros Hrel Hcfg Hlen Hint Hi.
  unfold selectRelease. rewrite Hrel, Hcfg. mstep.
  assert (Hk : length (Py.keys releases) = length releases)
    by apply length_map.
  destruct (Py.keys releases) as [|k [|k' ks]] eqn:Ek;
    try (simpl in Hk; congruence);
    rewrite Hint; rewrite geb_false by (rewrite Hk; lia);
    rewrite index_below by (rewrite Hk; lia); reflexivity.
Qed.

(** Lines 217-223 of [selectBuildImages]. *)
Lemma chooseBuild_index_rejected sortList txt c i :
  build args = None ->
  py_int txt = Some i ->
  (i >= Z.of_nat (length sortList))%Z ->
  chooseBuild args py_int sortList (txt :: c)
  = (Raise (Exception "Invalid build index"), c).
Proof.
  intros Hb Hint Hi. unfold chooseBuild. rewrite Hb. mstep.
  rewrite Hint. now rewrite geb_true.
Qed.

Lemma chooseBuild_index_accepted sortList txt c i :
  build args = None ->
  py_int txt = Some i ->
  (i < Z.of_nat (length sortList))%Z ->
  chooseBuild args py_int sortList (txt :: c)
  = (Py.index sortList i, c).
Proof.
  intros Hb Hint Hi. unfold chooseBuild. rewrite Hb. mstep.
  rewrite Hint. now rewrite geb_false.
Qed.

End PromptFacts.

Section PromptRejection.

Variable args : Args.
Variable py_int : string -> option Z.

Lemma index_raises_IndexError {A} (l : list A) (i : Z) (e : exn) :
  Py.index l i = Raise e -> e = IndexError.
Proof.
  unfold Py.index.
  destruct ((if (i <? 0)%Z then (Z.of_nat (length l) + i)%Z else i) <? 0)%Z;
    [congruence|].
  destruct (nth_error l _); congruence.
Qed.

Lemma selectRelease_index_not_rejected cfg releases txt c i :
  release args = None ->
  Releases cfg = Val releases ->
  length releases <> 1 ->
  py_int txt = Some i ->
  (i < Z.of_nat (length releases))%Z ->
  selectRelease args py_int cfg (txt :: c)
  <> (Raise (Exception "Invalid release index"), c).
Proof.
  intros Hrel Hcfg Hlen Hint Hi.
  unfold selectRelease. rewrite Hrel, Hcfg. mstep.
  assert (Hk : length (Py.keys releases) = length releases)
    by apply length_map.
  destruct (Py.keys releases) as [|k [|k' ks]] eqn:Ek;
    try (simpl in Hk; congruence);
    rewrite Hint; rewrite geb_false by (rewrite Hk; exact Hi);
    (destruct (Py.index _ i) as [relName|e] eqn:Ei;
     [ destruct (Py.get releases relName) as [relData|];
       [ destruct (missing (rel_Targets relData));
         [ simpl; discriminate
         | destruct (missing (rel_Types relData));
           [ simpl; discriminate | discriminate ] ]
       | discriminate ]
     | apply index_raises_IndexError in Ei; subst e; discriminate ]).
Qed.

(** An index that [keyList[idx]] accepts does not end in IndexError. *)
Lemma selectRelease_index_in_range cfg releases txt c i relName :
  release args = None ->
  Releases cfg = Val releases ->
  length releases <> 1 ->
  py_int txt = Some i ->
  (i < Z.of_nat (length releases))%Z ->
  Py.index (Py.keys releases) i = Ok relName ->
  selectRelease args py_int cfg (txt :: c) <> (Raise IndexError, c).
Proof.
  intros Hrel Hcfg Hlen Hint Hi Hidx.
  unfold selectRelease. rewrite Hrel, Hcfg. mstep.
  assert (Hk : length (Py.keys releases) = length releases)
    by apply length_map.
  destruct (Py.keys releases) as [|k [|k' ks]] eqn:Ek;
    try (simpl in Hk; congruence);
    rewrite Hint; rewrite geb_false by (rewrite Hk; exact Hi);
    rewrite Hidx;
    (destruct (Py.get releases relName) as [relData|];
     [ destruct (missing (rel_Targets relData));
       [ discriminate
       | destruct (missing (rel_Types relData)); discriminate ]
     | discriminate ]).
Qed.

End PromptRejection.

(** C10: at both index prompts the entered integer is rejected as an
    invalid index exactly when it is greater than or equal to the number of
    choices; an integer [i] with [-n <= i < 0] is not rejected, raises no
    IndexError and selects the choice at position [n + i] (for a release,
    [selectRelease] returns it with its data once lines 168-172 find the
    Targets and Types lists of that release). *)
Theorem index_prompt_negative_indices
        (args : Args) (py_int : string -> option Z)
        (txt : string) (c : console) (i : Z) :
  release args = None ->
  build args = None ->
  py_int txt = Some i ->
  (forall cfg releases,
      Releases cfg = Val releases ->
      length releases <> 1 ->
      let n := Z.of_nat (length releases) in
      (selectRelease args py_int cfg (txt :: c)
       = (Raise (Exception "Invalid release index"), c) <-> (i >= n)%Z)
      /\ ((- n <= i < 0)%Z ->
          exists relName,
            nth_error (Py.keys releases) (Z.to_nat (n + i)) = Some relName
            /\ selectRelease args py_int cfg (txt :: c)
               <> (Raise IndexError, c)
            /\ forall relData,
                Py.get releases relName = Some relData ->
                missing (rel_Targets relData) = false ->
                missing (rel_Types relData) = false ->
                selectRelease args py_int cfg (txt :: c)
                = (Ok (relName, relData), c)))
  /\ (forall sortList,
         let n := Z.of_nat (length sortList) in
         (chooseBuild args py_int sortList (txt :: c)
          = (Raise (Exception "Invalid build index"), c) <-> (i >= n)%Z)
         /\ ((- n <= i < 0)%Z ->
             exists buildName,
               nth_error sortList (Z.to_nat (n + i)) = Some buildName
               /\ chooseBuild args py_int sortList (txt :: c)
                  = (Ok buildName, c))).
Proof.
  intros Hrel Hbuild Hint. split.
  - intros cfg releases Hcfg Hlen n. split; [split|].
    + intros H. destruct (Z_lt_ge_dec i n) as [L|G]; [|exact G].
      exfalso.
      now apply (selectRelease_index_not_rejected
                   args py_int cfg releases txt c i).
    + intros G.
      now apply (selectRelease_index_rejected args py_int cfg releases
                                              txt c i).
    + intros Hi.
      assert (Hk : length (Py.keys releases) = length releases)
        by apply length_map.
      destruct (index_negative (Py.keys releases) i) as (r & Hn & Hidx).
      { rewrite Hk. exact Hi. }
      exists r. split; [|split].
      * rewrite Hk in Hn. exact Hn.
      * apply (selectRelease_index_in_range args py_int cfg releases
                                            txt c i r);
          auto; subst n; lia.
      * intros relData Hget Ht Hy.
        apply (selectRelease_index_accepted args py_int cfg releases
                                            txt c i r relData);
          auto; subst n; lia.
  - intros sortList n. split; [split|].
    + intros H. destruct (Z_lt_ge_dec i n) as [L|G]; [|exact G].
      exfalso.
      rewrite (chooseBuild_index_accepted args py_int sortList txt c i)
        in H by assumption.
      injection H as H.
      now apply index_raises_IndexError in H.
    + intros G.
      now apply (chooseBuild_index_rejected args py_int sortList txt c i).
    + intros Hi.
      destruct (index_negative sortList i) as (b & Hn & Hidx); [exact Hi|].
      exists b. split; [exact Hn|].
      rewrite (chooseBuild_index_accepted args py_int sortList txt c i)
        by (auto; subst n; lia).
      now rewrite Hidx.
Qed.

Lemma index_prompt_negative_indices_witness :
  selectRelease Sample.args Sample.to_int
    {| Releases := Val [("a", Sample.relData); ("b", Sample.relData)];
       Targets := Val Sample.targets; TopPackage := Val "top";
       cfg_group := Sample.no_groups |} ["-1"]
  = (Ok ("b", Sample.relData), [])
  /\ chooseBuild Sample.args Sample.to_int ["fw_1"; "fw_10"; "fw_2"] ["-1"]
     = (Ok "fw_2", []).
Proof.
  destruct (index_prompt_negative_indices
              Sample.args Sample.to_int "-1" [] (-1)%Z
              eq_refl eq_refl eq_refl) as [Hr Hb].
  split.
  - destruct (Hr {| Releases := Val [("a", Sample.relData);
                                     ("b", Sample.relData)];
                    Targets := Val Sample.targets; TopPackage := Val "top";
                    cfg_group := Sample.no_groups |}
                 [("a", Sample.relData); ("b", Sample.relData)]
                 eq_refl) as [_ Hneg].
    { simpl. lia. }
    destruct Hneg as (relName & Hn & _ & Hsel).
    { simpl. lia. }
    simpl in Hn. injection Hn as <-.
    apply Hsel; reflexivity.
  - destruct (Hb ["fw_1"; "fw_10"; "fw_2"]) as [_ Hneg].
    destruct Hneg as (b & Hn & Hsel).
    { simpl. lia. }
    simpl in Hn. injection Hn as <-.
    exact Hsel.
Defined.

(** ** The order of strings and [sorted] *)

Section StringOrder.

Lemma ascii_compare_refl (a : ascii) : Ascii.compare a a = Eq.
Proof. unfold Ascii.compare. apply N.compare_refl. Qed.

Lemma ascii_compare_trans (a b c : ascii) :
  Ascii.compare a b <> Gt -> Ascii.compare b c <> Gt ->
  Ascii.compare a c <> Gt
  /\ (Ascii.compare a c = Eq ->
      Ascii.compare a b = Eq /\ Ascii.compare b c = Eq).
Proof.
  unfold Ascii.compare.
  destruct (N.compare_spec (N_of_ascii a) (N_of_ascii b));
    destruct (N.compare_spec (N_of_ascii b) (N_of_ascii c));
    destruct (N.compare_spec (N_of_ascii a) (N_of_ascii c));
    intros; split; intros; try split; try congruence; lia.
Qed.

Lemma compare_le_trans (s1 s2 s3 : string) :
  String.compare s1 s2 <> Gt -> String.compare s2 s3 <> Gt ->
  String.compare s1 s3 <> Gt.
Proof.
  revert s2 s3.
  induction s1 as [|a s1 IH]; intros [|b s2] [|c s3]; simpl;
    try congruence.
  intros H12 H23.
  assert (Hab : Ascii.compare a b <> Gt)
    by (destruct (Ascii.compare a b); congruence).
  assert (Hbc : Ascii.compare b c <> Gt)
    by (destruct (Ascii.compare b c); congruence).
  destruct (ascii_compare_trans a b c Hab Hbc) as [Hac Heq].
  destruct (Ascii.compare a c) eqn:E; try congruence.
  destruct (Heq eq_refl) as [E1 E2]. rewrite E1 in H12. rewrite E2 in H23.
  now apply (IH s2 s3).
Qed.

Lemma leb_trans (s1 s2 s3 : string) :
  PyStr.leb s1 s2 = true -> PyStr.leb s2 s3 = true ->
  PyStr.leb s1 s3 = true.
Proof.
  unfold PyStr.leb, String.leb. intros H12 H23.
  assert (H : String.compare s1 s3 <> Gt).
  { apply (compare_le_trans s1 s2 s3).
    - destruct (String.compare s1 s2); congruence.
    - destruct (String.compare s2 s3); congruence. }
  destruct (String.compare s1 s3); congruence.
Qed.

Lemma leb_refl (s : string) : PyStr.leb s s = true.
Proof.
  unfold PyStr.leb. destruct (String.leb_total s s); assumption.
Qed.

Lemma insert_In (x a : string) (l : list string) :
  In x (Py.insert a l) <-> x = a \/ In x l.
Proof.
  induction l as [|y l IH]; simpl.
  - intuition.
  - destruct (String.eqb_spec a y) as [->|Hne].
    + simpl. intuition.
    + destruct (PyStr.leb a y); simpl; [intuition|].
      rewrite IH. intuition.
Qed.

Lemma insert_ascending (a : string) (l : list string) :
  ascending l -> ascending (Py.insert a l).
Proof.
  unfold ascending.
  induction l as [|y l IH]; intros Hs; simpl.
  - constructor; constructor.
  - destruct (String.eqb_spec a y) as [->|Hne]; [exact Hs|].
    inversion Hs as [|? ? Hl Hy]; subst.
    destruct (PyStr.leb a y) eqn:E.
    + constructor; [exact Hs|].
      constructor; [exact E|].
      rewrite Forall_forall in *. intros z Hz.
      apply (leb_trans a y z); auto.
    + constructor; [now apply IH|].
      rewrite Forall_forall in *. intros z Hz.
      apply insert_In in Hz. destruct Hz as [->|Hz]; [|now apply Hy].
      destruct (String.leb_total y a) as [H|H]; [exact H|].
      unfold PyStr.leb in E. congruence.
Qed.

Lemma sorted_set_In (x : string) (l : list string) :
  In x (Py.sorted_set l) <-> In x l.
Proof.
  induction l as [|a l IH]; simpl; [reflexivity|].
  rewrite insert_In, IH. intuition.
Qed.

Lemma sorted_set_ascending (l : list string) : ascending (Py.sorted_set l).
Proof.
  induction l as [|a l IH]; simpl.
  - constructor.
  - now apply insert_ascending.
Qed.

Lemma ascending_last_max (l : list string) (d x : string) :
  ascending l -> In x l -> PyStr.leb x (last l d) = true.
Proof.
  unfold ascending. induction l as [|y l IH]; intros Hs Hx; [destruct Hx|].
  inversion Hs as [|? ? Hl Hy]; subst.
  destruct l as [|z l].
  - destruct Hx as [->|[]]. apply leb_refl.
  - change (last (y :: z :: l) d) with (last (z :: l) d).
    destruct Hx as [->|Hx]; [|now apply IH].
    rewrite Forall_forall in Hy. apply Hy.
    destruct (@exists_last _ (z :: l)) as (l' & w & E); [discriminate|].
    rewrite E, last_last. apply in_or_app. right. now left.
Qed.

End StringOrder.

(** ** Build selection *)

Section BuildFacts.

Variable args : Args.
Variable fs : string -> option node.
Variable py_int : string -> option Z.

(** The candidates are the base names of the files that mention the
    target. *)
Lemma buildCandidates_In target dirList x :
  In x (buildCandidates target dirList) <->
  exists fn, In fn dirList /\ PyStr.contains target fn = true
             /\ x = PyStr.split_head "."%char fn.
Proof.
  unfold buildCandidates. rewrite sorted_set_In, in_map_iff.
  split.
  - intros (fn & <- & Hfn). apply filter_In in Hfn.
    exists fn. tauto.
  - intros (fn & Hin & Hc & ->). exists fn. split; [reflexivity|].
    apply filter_In. tauto.
Qed.

Lemma chooseBuild_latest sortList c :
  build args = Some "latest" ->
  sortList <> [] ->
  chooseBuild args py_int sortList c = (Ok (last sortList ""), c).
Proof.
  intros Hb Hne. unfold chooseBuild. rewrite Hb. simpl String.eqb.
  unfold lift. now rewrite (index_last sortList "").
Qed.

Lemma mem_In (x : string) (l : list string) :
  Py.mem x l = true <-> In x l.
Proof.
  unfold Py.mem. rewrite existsb_exists. split.
  - intros (y & Hy & E). apply String.eqb_eq in E. now subst.
  - intros H. exists x. split; [exact H|apply String.eqb_refl].
Qed.

Lemma selectBuildImages_target_inv cfg target retList c r c' :
  selectBuildImages_target args fs py_int cfg target retList c
  = (Ok r, c') ->
  exists targets tdef extensions dirList buildName,
    Targets cfg = Val targets
    /\ Py.get targets target = Some (YMap tdef)
    /\ Extensions tdef = Val extensions
    /\ listdir_files fs
         (OsPath.join4 (FirmwareDir args) "targets" target "images")
       = Ok dirList
    /\ chooseBuild args py_int (buildCandidates target dirList) c
       = (Ok buildName, c')
    /\ r = (retList
              ++ buildImages
                   (OsPath.join4 (FirmwareDir args) "targets" target
                                 "images")
                   buildName extensions dirList)%list.
Proof.
  unfold selectBuildImages_target. mstep.
  destruct (Targets cfg) as [| |targets] eqn:Et; try discriminate.
  destruct (Py.get targets target) as [[tdef|v]|] eqn:Eg; try discriminate.
  2:{ unfold missing_in. destruct v; try discriminate.
      - destruct (PyStr.contains _ _); discriminate.
      - destruct (seq_mem _ _); discriminate. }
  destruct (Extensions tdef) as [| |extensions] eqn:Ee; try discriminate.
  destruct (listdir_files fs _) as [dirList|e] eqn:El; try discriminate.
  destruct (chooseBuild args py_int (buildCandidates target dirList) c)
    as [[buildName|e] c''] eqn:Ec; try discriminate.
  intros H. injection H as <- <-.
  exists targets, tdef, extensions, dirList, buildName.
  repeat split; assumption.
Qed.

End BuildFacts.

(** C3: with [--build latest] and at least one candidate the build chosen
    is a candidate base name that every candidate is less than or equal to
    in the order of strings; among fw_1, fw_2 and fw_10 it is fw_2. *)
Theorem latest_selects_last_in_string_order
        (args : Args) (py_int : string -> option Z) (c : console) :
  build args = Some "latest" ->
  (forall target dirList,
      buildCandidates target dirList <> [] ->
      exists buildName,
        chooseBuild args py_int (buildCandidates target dirList) c
        = (Ok buildName, c)
        /\ In buildName (buildCandidates target dirList)
        /\ forall x, In x (buildCandidates target dirList) ->
                     PyStr.leb x buildName = true)
  /\ chooseBuild args py_int (Py.sorted_set ["fw_1"; "fw_2"; "fw_10"]) c
     = (Ok "fw_2", c).
Proof.
  intros Hb. split.
  - intros target dirList Hne.
    exists (last (buildCandidates target dirList) ""). split; [|split].
    + now apply chooseBuild_latest.
    + destruct (@exists_last _ _ Hne) as (l' & w & ->).
      rewrite last_last. apply in_or_app. right. now left.
    + intros x Hx. apply ascending_last_max; [|exact Hx].
      apply sorted_set_ascending.
  - rewrite chooseBuild_latest by (auto; discriminate). reflexivity.
Qed.

Lemma latest_selects_last_in_string_order_witness :
  (exists buildName,
      chooseBuild (Sample.with_build "latest") Sample.to_int
        (buildCandidates "fw" ["fw_1.bit"; "fw_2.bit"; "fw_10.bit"; "notes"])
        []
      = (Ok buildName, [])
      /\ In buildName
            (buildCandidates "fw"
                             ["fw_1.bit"; "fw_2.bit"; "fw_10.bit"; "notes"])
      /\ forall x,
          In x (buildCandidates "fw"
                                ["fw_1.bit"; "fw_2.bit"; "fw_10.bit"; "notes"])
          -> PyStr.leb x buildName = true)
  /\ chooseBuild (Sample.with_build "latest") Sample.to_int
                 (Py.sorted_set ["fw_1"; "fw_2"; "fw_10"]) []
     = (Ok "fw_2", []).
Proof.
  destruct (latest_selects_last_in_string_order
              (Sample.with_build "latest") Sample.to_int [] eq_refl)
    as [Hgen Hex].
  split; [|exact Hex].
  apply Hgen. vm_compute. discriminate.
Defined.

(** C5, as amended: the images selected for a target are exactly the files
    of its image directory whose name is the build name, a dot and one of
    the declared extensions, in the order the directory lists them. *)
Theorem selectBuildImages_target_images
        (args : Args) (fs : string -> option node)
        (py_int : string -> option Z) (cfg : ReleaseConfig)
        (target : string) (retList : list string) (c c' : console)
        (r : list string) :
  selectBuildImages_target args fs py_int cfg target retList c = (Ok r, c') ->
  let imageDir :=
    OsPath.join4 (FirmwareDir args) "targets" target "images" in
  exists targets tdef extensions dirList buildName keep,
    Targets cfg = Val targets
    /\ Py.get targets target = Some (YMap tdef)
    /\ Extensions tdef = Val extensions
    /\ listdir_files fs imageDir = Ok dirList
    /\ chooseBuild args py_int (buildCandidates target dirList) c
       = (Ok buildName, c')
    /\ (forall f, keep f = true <->
                  exists ext, In ext extensions
                              /\ f = buildName ++ "." ++ ext)
    /\ r = (retList ++ map (OsPath.join imageDir) (filter keep dirList))%list.
Proof.
  intros H imageDir.
  apply selectBuildImages_target_inv in H.
  destruct H as (targets & tdef & extensions & dirList & buildName
                 & Ht & Hg & He & Hl & Hc & ->).
  exists targets, tdef, extensions, dirList, buildName.
  exists (fun f =>
            Py.mem f (map (fun ext => buildName ++ "." ++ ext) extensions)).
  repeat split; try assumption.
  - intros Hm. apply mem_In, in_map_iff in Hm.
    destruct Hm as (ext & <- & Hin). now exists ext.
  - intros (ext & Hin & ->). apply mem_In, in_map_iff. now exists ext.
Qed.

Lemma selectBuildImages_target_images_witness :
  exists targets tdef extensions dirList buildName keep,
    Targets ImagesSample.cfg = Val targets
    /\ Py.get targets "fw" = Some (YMap tdef)
    /\ Extensions tdef = Val extensions
    /\ listdir_files (TreeFs.lookup ImagesSample.tree)
                     (OsPath.join4 (FirmwareDir (Sample.with_build "fw_1"))
                                   "targets" "fw" "images")
       = Ok dirList
    /\ chooseBuild (Sample.with_build "fw_1") Sample.to_int
                   (buildCandidates "fw" dirList) []
       = (Ok buildName, [])
    /\ (forall f, keep f = true <->
                  exists ext, In ext extensions
                              /\ f = buildName ++ "." ++ ext)
    /\ ["p/firmware/targets/fw/images/fw_1.mcs";
        "p/firmware/targets/fw/images/fw_1.bit"]
       = ([] ++ map (OsPath.join
                       (OsPath.join4 (FirmwareDir (Sample.with_build "fw_1"))
                                     "targets" "fw" "images"))
                    (filter keep dirList))%list.
Proof.
  apply (selectBuildImages_target_images
           (Sample.with_build "fw_1") (TreeFs.lookup ImagesSample.tree)
           Sample.to_int ImagesSample.cfg "fw" [] [] []
           ["p/firmware/targets/fw/images/fw_1.mcs";
            "p/firmware/targets/fw/images/fw_1.bit"]).
  reflexivity.
Defined.

(** C5 as stated fails: the images come in the order the directory lists
    them, here .mcs before .bit, while the extensions are declared bit
    then mcs. *)
Lemma selectBuildImages_not_in_extension_order :
  selectBuildImages (Sample.with_build "fw_1")
                    (TreeFs.lookup ImagesSample.tree) Sample.to_int
                    ImagesSample.cfg "r" Sample.relData []
  = (Ok ["p/firmware/targets/fw/images/fw_1.mcs";
         "p/firmware/targets/fw/images/fw_1.bit"], [])
  /\ images_in_extension_order
       ImagesSample.imageDir "fw_1" ["bit"; "mcs"]
       ["fw_1.mcs"; "fw_1.bit"; "fw_1.txt"; "fw_2.bit"]
     = ["p/firmware/targets/fw/images/fw_1.bit";
        "p/firmware/targets/fw/images/fw_1.mcs"]
  /\ ["p/firmware/targets/fw/images/fw_1.mcs";
      "p/firmware/targets/fw/images/fw_1.bit"]
     <> images_in_extension_order
          ImagesSample.imageDir "fw_1" ["bit"; "mcs"]
          ["fw_1.mcs"; "fw_1.bit"; "fw_1.txt"; "fw_2.bit"].
Proof.
  split; [reflexivity|]. split; [reflexivity|].
  vm_compute. discriminate.
Qed.

(** ** Strings *)

Section StringFacts.

Lemma append_assoc (a b c : string) : (a ++ b) ++ c = a ++ (b ++ c).
Proof. induction a as [|x a IH]; simpl; [reflexivity|now rewrite IH]. Qed.

Lemma append_nil_r (a : string) : a ++ "" = a.
Proof. induction a as [|x a IH]; simpl; [reflexivity|now rewrite IH]. Qed.

Lemma length_append (a b : string) :
  String.length (a ++ b) = String.length a + String.length b.
Proof. induction a as [|x a IH]; simpl; [reflexivity|now rewrite IH]. Qed.

Lemma prefix_append (p s : string) : String.prefix p (p ++ s) = true.
Proof.
  induction p as [|x p IH]; simpl.
  - now destruct s.
  - destruct (ascii_dec x x); [exact IH|congruence].
Qed.

Lemma prefix_inv (p s : string) :
  String.prefix p s = true -> exists r, s = p ++ r.
Proof.
  revert s. induction p as [|x p IH]; intros s H.
  - now exists s.
  - destruct s as [|y s]; simpl in H; [discriminate|].
    destruct (ascii_dec x y) as [->|]; [|discriminate].
    destruct (IH s H) as (r & ->). now exists r.
Qed.

Lemma contains_unfold (needle hay : string) :
  PyStr.contains needle hay =
    if String.prefix needle hay then true
    else match hay with
         | EmptyString => false
         | String _ hay' => PyStr.contains needle hay'
         end.
Proof. destruct hay; reflexivity. Qed.

Lemma contains_append (needle a b : string) :
  PyStr.contains needle (a ++ needle ++ b) = true.
Proof.
  induction a as [|x a IH].
  - change ("" ++ needle ++ b) with (needle ++ b).
    rewrite contains_unfold. now rewrite prefix_append.
  - change (String x a ++ needle ++ b)
      with (String x (a ++ needle ++ b)).
    rewrite contains_unfold, IH.
    now destruct (String.prefix needle _).
Qed.

Lemma contains_inv (needle s : string) :
  PyStr.contains needle s = true -> exists a b, s = a ++ needle ++ b.
Proof.
  induction s as [|x s IH]; rewrite contains_unfold.
  - destruct needle; [|discriminate]. intros _. now exists "", "".
  - destruct (String.prefix needle (String x s)) eqn:E.
    + intros _. apply prefix_inv in E. destruct E as (r & ->).
      now exists "", r.
    + intros H. destruct (IH H) as (a & b & ->).
      now exists (String x a), b.
Qed.

End StringFacts.

(** ** The CPSW tarball *)

Section CpswFacts.

Lemma cpsw_add_spec prefix l t :
  cpsw_add prefix l t =
    (Ok tt,
     (t ++ map (fun e => FromDisk (fullPath e) (prefix ++ subPath e))
               (filter is_file l))%list).
Proof.
  revert t. induction l as [|e l IH]; intros t; simpl.
  - now rewrite app_nil_r.
  - unfold bind at 1. unfold is_file at 1.
    destruct (kind_eqb (type e) file).
    + unfold tf_add. rewrite IH. simpl. now rewrite <- app_assoc.
    + unfold ret at 1. now rewrite IH.
Qed.

End CpswFacts.

(** C7: when the source group is not empty the tarball is produced and
    holds one member for each source-group entry of type file, named
    [{relName}_project.yaml/{subPath}], then one for each config-group
    entry of type file, named [{relName}_project.yaml/config/{subPath}];
    folder entries add nothing, and every member name starts with
    [{relName}_project.yaml/]. *)
Theorem buildCpswFile_layout
        (args : Args) (fs : string -> option node)
        (tarName : string) (cfg : ReleaseConfig) (ver relName : string)
        (relData : ReleaseDef) (imgList : list string)
        (st : option (list member)) :
  let sList := selectFiles args fs cfg relData "CpswSource" in
  let cList := selectFiles args fs cfg relData "CpswConfig" in
  let baseDir := relName ++ "_project.yaml" in
  sList <> [] ->
  exists ms,
    buildCpswFile args fs tarName cfg ver relName relData imgList st
    = (Ok tt, Some ms)
    /\ ms = (map (fun e => FromDisk (fullPath e)
                                    ((baseDir ++ "/") ++ subPath e))
                 (filter (fun e => kind_eqb (type e) file) sList)
               ++ map (fun e => FromDisk (fullPath e)
                                         ((baseDir ++ "/config/")
                                            ++ subPath e))
                      (filter (fun e => kind_eqb (type e) file) cList))%list
    /\ Forall (fun m => String.prefix (baseDir ++ "/") (arcname_of m) = true)
              ms
    /\ forall m, In m ms ->
                 exists e, (In e sList \/ In e cList) /\ type e = file
                           /\ fullPath e
                              = match m with
                                | FromDisk p _ => p
                                | FromBytes _ _ => ""
                                end.
Proof.
  intros sList cList baseDir Hne.
  eexists. split; [|split; [reflexivity|split]].
  - unfold buildCpswFile. fold sList cList baseDir.
    destruct sList as [|e0 sl] eqn:Es; [congruence|].
    simpl length. simpl Nat.eqb. cbv iota.
    unfold with_archive, bind. rewrite !cpsw_add_spec.
    rewrite app_nil_l. reflexivity.
  - apply Forall_app. split; apply Forall_forall; intros m Hm;
      apply in_map_iff in Hm; destruct Hm as (e & <- & _); simpl.
    + apply prefix_append.
    + replace (baseDir ++ "/config/") with ((baseDir ++ "/") ++ "config/")
        by (now rewrite append_assoc).
      rewrite append_assoc. apply prefix_append.
  - intros m Hm. apply in_app_or in Hm.
    destruct Hm as [Hm|Hm]; apply in_map_iff in Hm;
      destruct Hm as (e & <- & He); apply filter_In in He;
      destruct He as [He Hk]; exists e;
      (split; [tauto|split; [|reflexivity]]);
      destruct (type e); simpl in Hk; congruence.
Qed.

Lemma buildCpswFile_layout_witness :
  exists ms,
    buildCpswFile Sample.args Project.fs "p/firmware/cpsw_r_v1.tar.gz"
                  Project.cfg "v1" "r" Sample.relData Project.imgList None
    = (Ok tt, Some ms)
    /\ Forall (fun m => String.prefix "r_project.yaml/" (arcname_of m) = true)
              ms.
Proof.
  destruct (buildCpswFile_layout
              Sample.args Project.fs "p/firmware/cpsw_r_v1.tar.gz"
              Project.cfg "v1" "r" Sample.relData Project.imgList None)
    as (ms & Hrun & _ & Hroot & _).
  - vm_compute. discriminate.
  - exists ms. split; [exact Hrun|exact Hroot].
Defined.

(** ** Publishing *)

Section PushFacts.

Variable args : Args.
Variable gh_get_repo : string -> string -> string -> bool.
Variable getReleaseNotes : string -> string -> string -> result string.

Lemma pushRelease_dirty relName ver tagAttach prev w :
  w_dirty w = true ->
  pushRelease args gh_get_repo getReleaseNotes relName ver tagAttach prev w
  = match w_url w with
    | None => (Raise ValueError, w)
    | Some url =>
        match search_name (if PyStr.endswith ".git" url then url
                           else url ++ ".git") with
        | None => (Raise AttributeError, w)
        | Some _ =>
            (Raise (Exception "Cannot create tag! Git repo is dirty!"), w)
        end
    end.
Proof.
  intros Hd. unfold pushRelease. mstep.
  destruct (w_url w) as [url|]; [|reflexivity].
  destruct (search_name _) as [name|]; [|reflexivity].
  now rewrite Hd.
Qed.

End PushFacts.

(** C8: on a dirty working tree [pushRelease] raises and leaves the
    repository as it was: no tag is created and none is pushed.  When the
    remote url is there and names the project, the exception is the one
    of the dirty test. *)
Theorem pushRelease_dirty_fails_unchanged
        (args : Args)
        (gh_get_repo : string -> string -> string -> bool)
        (getReleaseNotes : string -> string -> string -> result string)
        (relName ver : string) (tagAttach : list string)
        (prev : option string) (w : World) :
  w_dirty w = true ->
  (exists e,
      pushRelease args gh_get_repo getReleaseNotes relName ver tagAttach
                  prev w = (Raise e, w))
  /\ (forall r w',
         pushRelease args gh_get_repo getReleaseNotes relName ver tagAttach
                     prev w = (r, w') ->
         w_tags w' = w_tags w /\ w_pushed w' = w_pushed w
         /\ w_releases w' = w_releases w)
  /\ (forall url name,
         w_url w = Some url ->
         search_name (if PyStr.endswith ".git" url then url
                      else url ++ ".git") = Some name ->
         pushRelease args gh_get_repo getReleaseNotes relName ver tagAttach
                     prev w
         = (Raise (Exception "Cannot create tag! Git repo is dirty!"), w)).
Proof.
  intros Hd.
  rewrite (pushRelease_dirty args gh_get_repo getReleaseNotes
                             relName ver tagAttach prev w Hd).
  split; [|split].
  - destruct (w_url w) as [url|]; [|eauto].
    destruct (search_name _); eauto.
  - intros r w' H.
    destruct (w_url w) as [url|];
      [destruct (search_name _)|]; injection H as _ <-; auto.
  - intros url name Hu Hs. now rewrite Hu, Hs.
Qed.

Lemma pushRelease_dirty_fails_unchanged_witness :
  pushRelease Sample.args (fun _ _ _ => true) (fun _ _ _ => Ok "notes")
              "r" "v1" ["a.zip"] (Some "v0") PushSample.dirty
  = (Raise (Exception "Cannot create tag! Git repo is dirty!"),
     PushSample.dirty).
Proof.
  apply (proj2 (proj2 (pushRelease_dirty_fails_unchanged
                         Sample.args (fun _ _ _ => true)
                         (fun _ _ _ => Ok "notes")
                         "r" "v1" ["a.zip"] (Some "v0") PushSample.dirty
                         eq_refl))
           "https://github.com/slaclab/ruckus" "ruckus");
    reflexivity.
Defined.

(** On a clean tree the same call creates and pushes the tag. *)
Example pushRelease_clean_tags :
  let '(r, w') :=
    pushRelease Sample.args (fun _ _ _ => true) (fun _ _ _ => Ok "notes")
                "r" "v1" ["a.zip"] (Some "v0") PushSample.clean in
  r = Ok tt
  /\ w_tags w' = [("r_v0", "r version v0"); ("r_v1", "r version v1")]
  /\ w_pushed w' = ["r_v0"; "r_v1"]
  /\ map gr_assets (w_releases w') = [["a.zip"]].
Proof. vm_compute. repeat split. Qed.

(** ** The Rogue zip file *)

Section RogueFacts.

Variable args : Args.
Variable fs : string -> option node.

Lemma rogue_packages_spec topInit pList setupPy topPath z :
  rogue_packages topInit pList setupPy topPath z =
    (Ok (setupPy ++ package_lines pList, captured topInit pList topPath),
     (z ++ raw_members topInit pList)%list).
Proof.
  revert setupPy topPath z.
  induction pList as [|e rest IH]; intros setupPy topPath z.
  - simpl. unfold ret, raw_members. simpl.
    now rewrite append_nil_r, app_nil_r.
  - simpl rogue_packages. unfold bind at 1.
    unfold raw_members. simpl filter. simpl captured. simpl package_lines.
    destruct (String.eqb (subPath e) topInit) eqn:E; simpl negb; cbv iota.
    + unfold ret at 1. rewrite IH. unfold raw_members.
      destruct (kind_eqb (type e) folder);
        [now rewrite append_assoc|reflexivity].
    + unfold bind at 1. unfold zf_write at 1. unfold ret at 1.
      rewrite IH. unfold raw_members. simpl map.
      rewrite <- app_assoc. simpl app.
      destruct (kind_eqb (type e) folder);
        [now rewrite append_assoc|reflexivity].
Qed.

Lemma rogue_config_spec top cList z :
  rogue_config top cList z = (Ok tt, (z ++ config_members top cList)%list).
Proof.
  revert z. induction cList as [|e rest IH]; intros z; simpl.
  - unfold ret. now rewrite app_nil_r.
  - unfold bind at 1. unfold zf_write at 1. rewrite IH.
    now rewrite <- app_assoc.
Qed.

Lemma rogue_images_spec top imgList z :
  rogue_images top imgList z = (Ok tt, (z ++ image_members top imgList)%list).
Proof.
  revert z. induction imgList as [|e rest IH]; intros z; simpl.
  - unfold ret. now rewrite app_nil_r.
  - unfold bind at 1. unfold zf_write at 1. rewrite IH.
    now rewrite <- app_assoc.
Qed.

Lemma buildRogueFile_spec zipName cfg ver relName relData imgList st top :
  selectFiles args fs cfg relData "RoguePackages" <> [] ->
  TopPackage cfg = Val top ->
  let pList := selectFiles args fs cfg relData "RoguePackages" in
  let cList := selectFiles args fs cfg relData "RogueConfig" in
  let topInit := top ++ "/__init__.py" in
  let ms := members_before_init top relName ver pList cList imgList in
  buildRogueFile args fs zipName cfg ver relName relData imgList st =
    match open_topPath fs (captured topInit pList None) with
    | Ok txt =>
        (Ok tt,
         Some (ms ++ [FromBytes topInit (newInit_of txt ver)])%list)
    | Raise e => (Raise e, Some ms)
    end.
Proof.
  intros Hne Htop pList cList topInit ms.
  unfold buildRogueFile. fold pList cList. rewrite Htop.
  assert (Hlen : Nat.eqb (length pList) 0 = false)
    by (unfold pList;
        destruct (selectFiles args fs cfg relData "RoguePackages");
        [congruence|reflexivity]).
  rewrite Hlen. unfold with_archive.
  unfold bind at 1. rewrite rogue_packages_spec.
  unfold bind at 1. rewrite rogue_config_spec.
  unfold bind at 1. rewrite rogue_images_spec.
  unfold bind at 1. unfold zf_writestr at 1.
  unfold bind at 1. unfold lift.
  fold topInit.
  destruct (open_topPath fs (captured topInit pList None)) as [txt|e];
    unfold zf_writestr, ms, members_before_init, setupPy_text;
    fold topInit; rewrite app_nil_l, <- !app_assoc; reflexivity.
Qed.

Lemma captured_inv topInit pList topPath p :
  captured topInit pList topPath = Some p ->
  topPath = Some p
  \/ exists e, In e pList /\ subPath e = topInit /\ fullPath e = p.
Proof.
  revert topPath. induction pList as [|e rest IH]; intros topPath H.
  - now left.
  - simpl in H. apply IH in H. destruct H as [H|(e' & Hin & Hs & Hf)].
    + destruct (String.eqb_spec (subPath e) topInit) as [E|E].
      * right. exists e. injection H as <-. simpl. auto.
      * now left.
    + right. exists e'. simpl. auto.
Qed.


Lemma buildRogueFile_ok_inv zipName cfg ver relName relData imgList st st' :
  buildRogueFile args fs zipName cfg ver relName relData imgList st
  = (Ok tt, st') ->
  selectFiles args fs cfg relData "RoguePackages" <> []
  /\ exists top, TopPackage cfg = Val top.
Proof.
  unfold buildRogueFile.
  destruct (selectFiles args fs cfg relData "RoguePackages") as [|e l].
  - simpl. unfold raise. discriminate.
  - simpl length. simpl Nat.eqb. cbv iota.
    destruct (TopPackage cfg) as [| |top]; unfold raise; try discriminate.
    intros _. split; [discriminate|]. now exists top.
Qed.

End RogueFacts.

Section RogueArchive.

Lemma append_inv_head (a b c : string) : a ++ b = a ++ c -> b = c.
Proof.
  induction a as [|x a IH]; simpl; intros H; [exact H|].
  injection H as H. now apply IH.
Qed.


Lemma archive_read_last name ms m :
  arcname_of m = name -> archive_read name (ms ++ [m]) = Some m.
Proof.
  intros Hm. induction ms as [|x ms IH]; simpl.
  - rewrite Hm. now rewrite String.eqb_refl.
  - now rewrite IH.
Qed.

Lemma archive_read_skip name ms m :
  arcname_of m <> name ->
  archive_read name (ms ++ [m]) = archive_read name ms.
Proof.
  intros Hm. induction ms as [|x ms IH]; simpl.
  - apply String.eqb_neq in Hm. now rewrite Hm.
  - now rewrite IH.
Qed.

(** No file of the disk is added under the name of the initializer. *)
Lemma members_before_init_names top relName ver pList cList imgList p a :
  In (FromDisk p a)
     (members_before_init top relName ver pList cList imgList) ->
  a <> top ++ "/__init__.py".
Proof.
  unfold members_before_init. intros H.
  apply in_app_or in H. destruct H as [H|H].
  { unfold raw_members in H. apply in_map_iff in H.
    destruct H as (e & E & He). injection E as <- <-.
    apply filter_In in He. destruct He as [_ He].
    apply negb_true_iff in He. now apply String.eqb_neq. }
  apply in_app_or in H. destruct H as [H|H].
  { unfold config_members in H. apply in_map_iff in H.
    destruct H as (e & E & _). injection E as <- <-.
    intros C. apply append_inv_head in C. discriminate. }
  apply in_app_or in H. destruct H as [H|H].
  { unfold image_members in H. apply in_map_iff in H.
    destruct H as (e & E & _). injection E as <- <-.
    intros C. apply append_inv_head in C. discriminate. }
  destruct H as [H|[]]. discriminate.
Qed.

Lemma topInit_not_setup (top : string) : top ++ "/__init__.py" <> "setup.py".
Proof.
  intros C. apply (f_equal String.length) in C.
  rewrite length_append in C. simpl in C. lia.
Qed.

Lemma keep_line_spec (line : string) :
  keep_line line = true <->
  forall marker,
    In marker ["import os"; "__version__"; "ConfigDir"; "ImageDir"] ->
    PyStr.contains marker line = false.
Proof.
  unfold keep_line. rewrite !andb_true_iff, !negb_true_iff. split.
  - intros [[[H1 H2] H3] H4] marker Hm. simpl in Hm.
    destruct Hm as [<-|[<-|[<-|[<-|[]]]]]; assumption.
  - intros H. repeat split; apply H; simpl; auto.
Qed.

Lemma concat_cons (x : string) (xs : list string) :
  String.concat "" (x :: xs) = x ++ String.concat "" xs.
Proof.
  destruct xs as [|y ys]; simpl; [now rewrite append_nil_r|reflexivity].
Qed.

Lemma readlines_nil (s : string) : PyStr.readlines s = [] -> s = "".
Proof.
  destruct s as [|c s]; [reflexivity|]. simpl.
  destruct (Ascii.eqb c "010"); [discriminate|].
  destruct (PyStr.readlines s); discriminate.
Qed.

(** The lines read are the text, cut after each newline. *)
Lemma readlines_concat (s : string) :
  String.concat "" (PyStr.readlines s) = s.
Proof.
  induction s as [|c s IH]; [reflexivity|].
  simpl PyStr.readlines.
  destruct (Ascii.eqb c "010").
  - rewrite concat_cons, IH. reflexivity.
  - destruct (PyStr.readlines s) as [|l ls] eqn:E.
    + apply readlines_nil in E. now subst.
    + rewrite concat_cons. rewrite concat_cons in IH.
      simpl. now rewrite IH.
Qed.

End RogueArchive.




(** C1: in a build that returns, no file of the disk is written under the
    name of the top-package initializer; the member read back under that
    name is the rewritten text: the lines of the initializer that contain
    none of [import os], [__version__], [ConfigDir], [ImageDir], in their
    order, then the added block with the version string and the two path
    constants. *)
Theorem buildRogueFile_rewrites_initializer
        (args : Args) (fs : string -> option node)
        (zipName : string) (cfg : ReleaseConfig) (ver relName : string)
        (relData : ReleaseDef) (imgList : list string)
        (st st' : option (list member)) :
  buildRogueFile args fs zipName cfg ver relName relData imgList st
  = (Ok tt, st') ->
  exists top e txt ms,
    TopPackage cfg = Val top
    /\ In e (selectFiles args fs cfg relData "RoguePackages")
    /\ subPath e = top ++ "/__init__.py"
    /\ read_text fs (fullPath e) = Ok txt
    /\ st' = Some ms
    /\ (forall p a, In (FromDisk p a) ms -> a <> top ++ "/__init__.py")
    /\ archive_read (top ++ "/__init__.py") ms
       = Some (FromBytes
                 (top ++ "/__init__.py")
                 (String.concat "" (filter keep_line (PyStr.readlines txt))
                    ++ nl ++ nl
                    ++ "##################### Added by release script ###################"
                    ++ nl
                    ++ "import os" ++ nl
                    ++ "__version__ = '" ++ ver ++ "'" ++ nl
                    ++ "ConfigDir = os.path.dirname(__file__) + '/config'"
                    ++ nl
                    ++ "ImageDir  = os.path.dirname(__file__) + '/images'"
                    ++ nl
                    ++ "#################################################################"
                    ++ nl))
    /\ String.concat "" (PyStr.readlines txt) = txt
    /\ forall line,
        keep_line line = true <->
        forall marker,
          In marker ["import os"; "__version__"; "ConfigDir"; "ImageDir"] ->
          PyStr.contains marker line = false.
Proof.
  intros H.
  destruct (buildRogueFile_ok_inv args fs _ _ _ _ _ _ _ _ H)
    as (Hne & top & Htop).
  rewrite (buildRogueFile_spec args fs zipName cfg ver relName relData
                               imgList st top Hne Htop) in H.
  cbv zeta in H.
  destruct (captured (top ++ "/__init__.py") _ None) as [p|] eqn:Ec;
    [|simpl in H; discriminate].
  apply captured_inv in Ec. destruct Ec as [Ec|(e & Hin & Hs & Hf)];
    [discriminate|].
  simpl open_topPath in H.
  destruct (read_text fs p) as [txt|err] eqn:Er; [|discriminate].
  injection H as <-.
  exists top, e, txt. eexists.
  split; [exact Htop|]. split; [exact Hin|]. split; [exact Hs|].
  split; [now rewrite Hf|]. split; [reflexivity|].
  split; [|split; [|split]].
  - intros q a Hq. apply in_app_or in Hq. destruct Hq as [Hq|[Hq|[]]].
    + now apply members_before_init_names in Hq.
    + discriminate.
  - now rewrite archive_read_last.
  - apply readlines_concat.
  - apply keep_line_spec.
Qed.

Lemma buildRogueFile_rewrites_initializer_witness :
  exists ms,
    buildRogueFile Sample.args Project.fs "p/firmware/rogue_r_v1.zip"
                   Project.cfg "v1" "r" Sample.relData Project.imgList None
    = (Ok tt, Some ms)
    /\ (forall p a, In (FromDisk p a) ms -> a <> "top/__init__.py")
    /\ archive_read "top/__init__.py" ms
       = Some (FromBytes
                 "top/__init__.py"
                 ("from top.mod import *" ++ nl ++ "name = 'top'"
                    ++ nl ++ nl
                    ++ "##################### Added by release script ###################"
                    ++ nl
                    ++ "import os" ++ nl
                    ++ "__version__ = 'v1'" ++ nl
                    ++ "ConfigDir = os.path.dirname(__file__) + '/config'"
                    ++ nl
                    ++ "ImageDir  = os.path.dirname(__file__) + '/images'"
                    ++ nl
                    ++ "#################################################################"
                    ++ nl)).
Proof.
  destruct (buildRogueFile_rewrites_initializer
              Sample.args Project.fs "p/firmware/rogue_r_v1.zip"
              Project.cfg "v1" "r" Sample.relData Project.imgList None
              (snd (buildRogueFile Sample.args Project.fs
                                   "p/firmware/rogue_r_v1.zip" Project.cfg
                                   "v1" "r" Sample.relData Project.imgList
                                   None)))
    as (top & e & txt & ms & Htop & Hin & Hs & Hr & Hst & Hnames & Hread & _).
  - vm_compute. reflexivity.
  - injection Htop as <-.
    exists ms. split; [|split].
    + rewrite <- Hst. vm_compute. reflexivity.
    + exact Hnames.
    + etransitivity; [exact Hread|]. f_equal. f_equal.
      assert (Htxt : txt = Project.initText).
      { vm_compute in Hin.
        destruct Hin as [<-|[<-|[<-|[]]]]; try discriminate Hs.
        vm_compute in Hr. now injection Hr as <-. }
      subst txt. vm_compute. reflexivity.
Defined.

(** ** Reading the generated setup.py *)

Section DescriptorFacts.

Lemma strip_prefix_append (p s : string) : strip_prefix p (p ++ s) = Some s.
Proof.
  induction p as [|x p IH]; simpl.
  - now destruct s.
  - now rewrite Ascii.eqb_refl.
Qed.

Lemma plain_char_not_quote (x : ascii) :
  plain_char x = true -> Ascii.eqb x "'"%char = false.
Proof.
  unfold plain_char. intros Hx. apply negb_true_iff in Hx.
  apply orb_false_iff in Hx. destruct Hx as [Hx _].
  apply orb_false_iff in Hx. destruct Hx as [Hx _].
  apply orb_false_iff in Hx. destruct Hx as [Hx _].
  apply orb_false_iff in Hx. now destruct Hx as [Hx _].
Qed.

Lemma read_literal_plain (v r : string) :
  plain v = true -> read_literal (v ++ String "'"%char r) = Some (v, r).
Proof.
  induction v as [|x v IH]; simpl; intros H; [reflexivity|].
  apply andb_true_iff in H. destruct H as [Hx Hv].
  rewrite Hx. rewrite (IH Hv).
  now rewrite (plain_char_not_quote x Hx).
Qed.

(** What [read_literal] returns is a plain value, up to its closing
    quote. *)
Lemma read_literal_inv (s v r : string) :
  read_literal s = Some (v, r) ->
  plain v = true /\ s = v ++ String "'"%char r.
Proof.
  revert v. induction s as [|c s IH]; intros v; simpl; [discriminate|].
  destruct (Ascii.eqb_spec c "'"%char) as [->|_].
  - intros H. injection H as <- <-. now split.
  - destruct (plain_char c) eqn:Ec; [|discriminate].
    destruct (read_literal s) as [[v' r']|]; [|discriminate].
    intros H. injection H as <- <-.
    destruct (IH v' eq_refl) as [Hv ->].
    split; [|reflexivity]. simpl. now rewrite Ec, Hv.
Qed.

Lemma setupPy_text_shape relName ver top pList :
  setupPy_text relName ver top pList
  = descriptor_prefix ++ relName ++ String "'"%char
      (version_prefix ++ ver ++ String "'"%char
         (packages_prefix ++ package_lines pList ++ packages_end
            ++ data_prefix ++ top ++ String "'"%char data_suffix)).
Proof.
  unfold setupPy_text, setupPy_head, descriptor_prefix, version_prefix,
    packages_prefix, packages_end, data_prefix, data_suffix.
  rewrite !append_assoc. reflexivity.
Qed.

Lemma folders_le_lines pList :
  length (filter is_folder pList) <= String.length (package_lines pList).
Proof.
  induction pList as [|e l IH]; [apply Nat.le_refl|].
  cbn [filter package_lines]. unfold is_folder at 1.
  rewrite length_append.
  destruct (kind_eqb (type e) folder).
  - rewrite length_append. simpl. lia.
  - simpl. exact IH.
Qed.

Lemma read_packages_lines pList rest fuel :
  (forall e, In e pList -> type e = folder -> plain (subPath e) = true) ->
  length (filter is_folder pList) <= fuel ->
  read_packages fuel (package_lines pList ++ packages_end ++ rest)
  = Some (map subPath (filter is_folder pList), rest).
Proof.
  revert fuel. induction pList as [|e l IH]; intros fuel Hp Hf.
  - cbn [package_lines filter map append].
    destruct fuel; cbn [read_packages]; now rewrite strip_prefix_append.
  - cbn [package_lines filter]. unfold is_folder at 1.
    unfold is_folder at 1 in Hf. cbn [filter] in Hf.
    destruct (kind_eqb (type e) folder) eqn:E.
    + destruct fuel as [|fuel]; [simpl in Hf; lia|].
      assert (Ht : type e = folder) by (now destruct (type e)).
      replace ((("             '" ++ subPath e ++ "'," ++ nl)
                  ++ package_lines l) ++ packages_end ++ rest)
        with (package_open
                ++ subPath e
                ++ String "'"%char
                     (("," ++ nl)
                        ++ package_lines l ++ packages_end ++ rest))
        by (unfold package_open; rewrite !append_assoc; reflexivity).
      cbn [read_packages].
      replace (strip_prefix packages_end
                 (package_open
                    ++ subPath e
                    ++ String "'"%char
                         (("," ++ nl)
                            ++ package_lines l ++ packages_end ++ rest)))
        with (@None string) by reflexivity.
      rewrite strip_prefix_append.
      rewrite (read_literal_plain (subPath e) _
                 (Hp e (or_introl eq_refl) Ht)).
      rewrite strip_prefix_append.
      rewrite IH.
      * reflexivity.
      * intros e' Hin. apply Hp. now right.
      * apply le_S_n. exact Hf.
    + change ("" ++ package_lines l) with (package_lines l). apply IH.
      * intros e' Hin. apply Hp. now right.
      * exact Hf.
Qed.

(** Reading the generated descriptor, when every text it quotes is
    plain. *)
Lemma read_call_text relName ver top pList :
  plain relName = true -> plain ver = true -> plain top = true ->
  (forall e, In e pList -> type e = folder -> plain (subPath e) = true) ->
  read_call (setupPy_text relName ver top pList)
  = Some {| su_name := relName; su_version := ver;
            su_packages := map subPath (filter is_folder pList);
            su_package_data := top |}.
Proof.
  intros Hn Hv Ht Hp. rewrite setupPy_text_shape. unfold read_call.
  rewrite strip_prefix_append, (read_literal_plain relName _ Hn).
  rewrite strip_prefix_append, (read_literal_plain ver _ Hv).
  rewrite strip_prefix_append.
  rewrite (read_packages_lines pList _ _ Hp).
  - rewrite strip_prefix_append, (read_literal_plain top _ Ht).
    reflexivity.
  - rewrite length_append.
    pose proof (folders_le_lines pList). lia.
Qed.

Lemma archive_read_setup top relName ver pList cList imgList data :
  archive_read "setup.py"
    (members_before_init top relName ver pList cList imgList
       ++ [FromBytes (top ++ "/__init__.py") data])
  = Some (FromBytes "setup.py" (setupPy_text relName ver top pList)).
Proof.
  rewrite archive_read_skip by (simpl; apply topInit_not_setup).
  unfold members_before_init. rewrite !app_assoc.
  now apply archive_read_last.
Qed.

End DescriptorFacts.

(** C2, as amended: when the release name, the version string, the name
    of the top package and the relative paths of the package folders hold
    no single quote, no backslash, no line break and no NUL character,
    the member read back from a produced zip file under [setup.py] is the
    generated descriptor, and reading it yields the release name as
    [name] and the version string as [version], with the package folders
    as [packages] and the top package as the key of [package_data]. *)
Theorem setup_py_roundtrip
        (args : Args) (fs : string -> option node)
        (zipName : string) (cfg : ReleaseConfig) (ver relName : string)
        (relData : ReleaseDef) (imgList : list string)
        (st : option (list member)) (ms : list member) :
  plain relName = true ->
  plain ver = true ->
  (forall top, TopPackage cfg = Val top -> plain top = true) ->
  (forall e,
      In e (selectFiles args fs cfg relData "RoguePackages") ->
      type e = folder -> plain (subPath e) = true) ->
  buildRogueFile args fs zipName cfg ver relName relData imgList st
  = (Ok tt, Some ms) ->
  exists descriptor top,
    archive_read "setup.py" ms = Some (FromBytes "setup.py" descriptor)
    /\ read_setup descriptor = Some (relName, ver)
    /\ TopPackage cfg = Val top
    /\ read_call descriptor
       = Some {| su_name := relName; su_version := ver;
                 su_packages :=
                   map subPath
                       (filter is_folder
                          (selectFiles args fs cfg relData "RoguePackages"));
                 su_package_data := top |}.
Proof.
  intros Hn Hv Ht Hp H.
  destruct (buildRogueFile_ok_inv args fs _ _ _ _ _ _ _ _ H)
    as (Hne & top & Htop).
  rewrite (buildRogueFile_spec args fs zipName cfg ver relName relData
                               imgList st top Hne Htop) in H.
  cbv zeta in H.
  destruct (open_topPath fs _) as [txt|e]; [|discriminate].
  injection H as <-.
  pose proof (read_call_text relName ver top _ Hn Hv (Ht top Htop) Hp) as R.
  eexists. exists top. split; [apply archive_read_setup|].
  split; [|split; [exact Htop|exact R]].
  unfold read_setup. now rewrite R.
Qed.

Lemma setup_py_roundtrip_witness :
  exists descriptor top,
    archive_read "setup.py" (Project.built "r" "v1.2.3")
    = Some (FromBytes "setup.py" descriptor)
    /\ read_setup descriptor = Some ("r", "v1.2.3")
    /\ TopPackage Project.cfg = Val top
    /\ read_call descriptor
       = Some {| su_name := "r"; su_version := "v1.2.3";
                 su_packages :=
                   map subPath
                       (filter is_folder
                          (selectFiles Sample.args Project.fs Project.cfg
                                       Sample.relData "RoguePackages"));
                 su_package_data := top |}.
Proof.
  apply (setup_py_roundtrip
           Sample.args Project.fs "p/firmware/rogue.zip" Project.cfg
           "v1.2.3" "r" Sample.relData Project.imgList None
           (Project.built "r" "v1.2.3")).
  - reflexivity.
  - reflexivity.
  - intros top H. injection H as <-. reflexivity.
  - intros e Hin _. vm_compute in Hin.
    repeat (destruct Hin as [<-|Hin]; [reflexivity|]). destruct Hin.
  - vm_compute. reflexivity.
Defined.

(** C2 as stated fails.  For the release name [it's] the archive is
    produced, and its setup.py cannot be read back: the name is not what
    the reader finds.  For the plain release name [r] and version [v1]
    and a package folder named [d'x] the archive is produced as well, and
    its setup.py, which holds that name between single quotes, cannot be
    read either. *)
Lemma setup_py_roundtrip_fails_on_quote :
  match buildRogueFile Sample.args Project.fs "p/firmware/rogue_it's_v1.zip"
                       Project.cfg "v1" "it's" Sample.relData
                       Project.imgList None with
  | (Ok tt, Some ms) =>
      match archive_read "setup.py" ms with
      | Some (FromBytes _ descriptor) =>
          PyStr.contains ("   name='it's'," ++ nl) descriptor = true
          /\ read_setup descriptor <> Some ("it's", "v1")
      | _ => False
      end
  | _ => False
  end
  /\ match buildRogueFile Sample.args QuotedFolder.fs
                          "p/firmware/rogue_r_v1.zip"
                          Project.cfg "v1" "r" Sample.relData [] None with
     | (Ok tt, Some ms) =>
         match archive_read "setup.py" ms with
         | Some (FromBytes _ descriptor) =>
             PyStr.contains ("             'top/d'x'," ++ nl) descriptor
             = true
             /\ read_setup descriptor = None
         | _ => False
         end
     | _ => False
     end.
Proof.
  vm_compute. split; (split; [reflexivity|]); [discriminate|reflexivity].
Qed.

(** ** File lists *)

Section WalkFacts.

Variable args : Args.
Variable fs : string -> option node.

Lemma genFileList_In base root entries typ e :
  In e entries ->
  In {| type := typ; fullPath := OsPath.join root e;
        subPath := PyStr.remove_all (base ++ "/") (OsPath.join root e) |}
     (genFileList base root entries typ).
Proof.
  intros H. unfold genFileList. apply in_map_iff. now exists e.
Qed.

Lemma walk_entries_Dir base path nm ch :
  walk_entries base path (Dir nm ch)
  = ((genFileList base path (map node_name (filter is_dir ch)) folder
        ++ genFileList base path
             (map node_name (filter (fun c => negb (is_dir c)) ch)) file)
       ++ flat_map (fun c => walk_entries base
                               (OsPath.join path (node_name c)) c) ch)%list.
Proof.
  unfold walk_entries. simpl walk_node. simpl flat_map. f_equal.
  induction ch as [|c ch IH]; [reflexivity|].
  simpl. rewrite flat_map_app. now rewrite IH.
Qed.

(** Every directory and file below the base is recorded, with its type,
    the path of the walk and the subPath computed from it. *)
Lemma walk_records_every_node base path n p' n' :
  under path n p' n' ->
  In {| type := kind_of n'; fullPath := p';
        subPath := PyStr.remove_all (base ++ "/") p' |}
     (walk_entries base path n).
Proof.
  induction 1 as [path nm ch c Hc|path nm ch c p' n' Hc Hu IH];
    rewrite walk_entries_Dir; apply in_or_app.
  - left. apply in_or_app. unfold kind_of.
    destruct (is_dir c) eqn:Ed; [left|right];
      apply genFileList_In, in_map, filter_In; split; auto.
    now rewrite Ed.
  - right. apply in_flat_map. now exists c.
Qed.

Lemma selectFiles_records_every_node cfg relData key d n p' n' :
  In d (group_dirs (cfg_group cfg key)
          ++ group_dirs (rel_group relData key))%list ->
  fs (OsPath.join (FirmwareDir args) d) = Some n ->
  under (OsPath.join (FirmwareDir args) d) n p' n' ->
  In {| type := kind_of n'; fullPath := p';
        subPath :=
          PyStr.remove_all (OsPath.join (FirmwareDir args) d ++ "/") p' |}
     (selectFiles args fs cfg relData key).
Proof.
  intros Hd Hfs Hu. unfold selectFiles. apply in_flat_map.
  exists d. split; [exact Hd|].
  unfold os_walk. rewrite Hfs.
  now apply (walk_records_every_node _ _ _ _ _ Hu).
Qed.

(** [s.replace(old,'')] when [old] stands at the start of [s] and nowhere
    in the rest: the rest is returned. *)
Lemma remove_from_skip old p s :
  PyStr.remove_from old (String.length p) (p ++ s)
  = PyStr.remove_from old 0 s.
Proof.
  induction p as [|x p IH]; [reflexivity|]. simpl. exact IH.
Qed.

Lemma remove_from_absent old s :
  PyStr.contains old s = false -> PyStr.remove_from old 0 s = s.
Proof.
  induction s as [|c s IH]; [reflexivity|].
  rewrite contains_unfold. cbn [PyStr.remove_from].
  destruct (String.prefix old (String c s)); [discriminate|].
  intros H. now rewrite (IH H).
Qed.

Lemma remove_all_prefix old rest :
  old <> "" ->
  PyStr.contains old rest = false ->
  PyStr.remove_all old (old ++ rest) = rest.
Proof.
  intros Hne Hc. destruct old as [|a old']; [congruence|].
  unfold PyStr.remove_all.
  change (String a old' ++ rest) with (String a (old' ++ rest)).
  cbn [PyStr.remove_from].
  change (String a (old' ++ rest)) with (String a old' ++ rest).
  rewrite prefix_append.
  replace (String.length (String a old') - 1) with (String.length old')
    by (simpl; lia).
  rewrite remove_from_skip. now apply remove_from_absent.
Qed.

End WalkFacts.

(** On the tree base/{a.txt, sub/b.txt} with the group [base] the entries
    are the folder sub and the files a.txt and sub/b.txt. *)
Example selectFiles_base_tree :
  selectFiles Sample.args (TreeFs.lookup WalkSample.tree)
              (WalkSample.group ["base"]) Sample.relData "RoguePackages"
  = [ {| type := folder; fullPath := "p/firmware/base/sub";
         subPath := "sub" |};
      {| type := file; fullPath := "p/firmware/base/a.txt";
         subPath := "a.txt" |};
      {| type := file; fullPath := "p/firmware/base/sub/b.txt";
         subPath := "sub/b.txt" |} ].
Proof. reflexivity. Qed.

(** C6, the code at the failing inputs.  With the group written [base/]
    the base directory ends with a separator, [base + '/'] is found in no
    path and every subPath is the full path, base prefix included.  With a
    package directory that holds a copy of its own path further down,
    every occurrence is deleted, not only the prefix: the file
    x/p/firmware/x/f.txt of the group [x] gets the subPath [f.txt]
    instead of [p/firmware/x/f.txt]. *)
Theorem selectFiles_subPath_not_prefix_stripped :
  map subPath
      (selectFiles Sample.args (TreeFs.lookup WalkSample.tree)
                   (WalkSample.group ["base/"]) Sample.relData
                   "RoguePackages")
  = ["p/firmware/base/sub"; "p/firmware/base/a.txt";
     "p/firmware/base/sub/b.txt"]
  /\ In {| type := file;
           fullPath := "p/firmware/x/p/firmware/x/f.txt";
           subPath := "f.txt" |}
        (selectFiles Sample.args (TreeFs.lookup WalkSample.nested)
                     (WalkSample.group ["x"]) Sample.relData
                     "RoguePackages").
Proof.
  split; [reflexivity|]. vm_compute. tauto.
Qed.

(** * Further properties of the script *)

(** ** Loading and version *)

(** X1: loading fails with the message naming the release file exactly
    when the file cannot be read or the parser raises on its text.  Every
    other failure is one of the two validation messages, or the TypeError
    that line 112 raises, outside the [try], on a document that is not a
    mapping; a file without a document ([None]) ends in that TypeError. *)
Theorem loadReleaseConfig_load_failure
        (args : Args) (fs : string -> option node)
        (yaml_load : string -> option (yaml ReleaseConfig)) :
  let relFile := OsPath.join (FirmwareDir args) "releases.yaml" in
  (loadReleaseConfig args fs yaml_load
   = Raise (Exception ("Failed to load project release file " ++ relFile))
   <-> (forall txt, read_text fs relFile = Ok txt -> yaml_load txt = None))
  /\ (forall e,
         loadReleaseConfig args fs yaml_load = Raise e ->
         e = Exception ("Failed to load project release file " ++ relFile)
         \/ e = Exception
                  "Invalid release config. Releases key is missing or empty!"
         \/ e = Exception
                  "Invalid release config. Targets key is missing or empty!"
         \/ (e = TypeError
             /\ exists txt v, read_text fs relFile = Ok txt
                              /\ yaml_load txt = Some (YOther v)))
  /\ (forall txt,
         read_text fs relFile = Ok txt ->
         yaml_load txt = Some (YOther YNone) ->
         loadReleaseConfig args fs yaml_load = Raise TypeError).
Proof.
  intros relFile. unfold loadReleaseConfig. fold relFile.
  destruct (read_text fs relFile) as [txt|e0].
  - destruct (yaml_load txt) as [[cfg|v]|] eqn:Ey.
    + split; [|split].
      * split.
        -- destruct (missing (Releases cfg)); [simpl; discriminate|].
           destruct (missing (Targets cfg)); simpl; discriminate.
        -- intros H. specialize (H txt eq_refl). congruence.
      * intros e. destruct (missing (Releases cfg)).
        { intros H. injection H as <-. auto. }
        destruct (missing (Targets cfg)); [|discriminate].
        intros H. injection H as <-. auto.
      * intros txt' E. injection E as <-. rewrite Ey. discriminate.
    + split; [|split].
      * split.
        -- destruct (missing_in "Releases" v) as [[]|e1] eqn:Em.
           ++ simpl. discriminate.
           ++ intros H. injection H as ->. exfalso.
              unfold missing_in in Em. destruct v; try discriminate.
              ** destruct (PyStr.contains _ _); discriminate.
              ** destruct (seq_mem _ _); discriminate.
        -- intros H. specialize (H txt eq_refl). congruence.
      * intros e. destruct (missing_in "Releases" v) as [[]|e1] eqn:Em.
        -- intros H. injection H as <-. auto.
        -- intros H. injection H as <-. right. right. right. split.
           ++ unfold missing_in in Em. destruct v; try congruence.
              ** destruct (PyStr.contains _ _); congruence.
              ** destruct (seq_mem _ _); congruence.
           ++ now exists txt, v.
      * intros txt' E. injection E as <-. rewrite Ey.
        intros H. injection H as ->. reflexivity.
    + split; [|split].
      * split; [|reflexivity]. intros _ txt' E. now injection E as <-.
      * intros e H. injection H as <-. auto.
      * intros txt' E. injection E as <-. rewrite Ey. discriminate.
  - split; [|split].
    + split; [|reflexivity]. intros _ txt E. discriminate.
    + intros e H. injection H as <-. auto.
    + intros txt E. discriminate.
Qed.

(** X2: [getVersion] reads the console only for what the command line
    lacks: nothing when the version is given and the previous version is
    given or not needed; without [--push] the previous version is the
    argument as it is, never a line read; with [--push] and neither
    given, the version is the first line read and the previous version
    the second. *)
Theorem getVersion_prompts (args : Args) (c : console) :
  (forall v,
      version args = Some v ->
      push args = None \/ (exists p, prev args = Some p) ->
      getVersion args c = (Ok (v, prev args), c))
  /\ (push args = None ->
      forall r c', getVersion args c = (Ok r, c') -> snd r = prev args)
  /\ (version args = None ->
      (exists n, push args = Some n) ->
      prev args = None ->
      forall v p c',
        c = v :: p :: c' -> getVersion args c = (Ok (v, Some p), c')).
Proof.
  unfold getVersion. split; [|split].
  - intros v Hv Hp. rewrite Hv. mstep.
    destruct Hp as [Hp|(p & Hp)]; rewrite Hp; [reflexivity|].
    now destruct (push args).
  - intros Hp r c'. rewrite Hp. mstep.
    destruct (version args) as [v|].
    + intros H. now injection H as <- _.
    + destruct c as [|l c0]; [discriminate|].
      intros H. now injection H as <- _.
  - intros Hv (n & Hp) Hprev v p c' ->. rewrite Hv, Hp, Hprev. reflexivity.
Qed.

Lemma getVersion_prompts_witness :
  getVersion {| project := "p"; release := None; build := None;
                version := None; prev := None; user := None;
                password := None; push := Some 1 |} ["v2"; "v1"; "x"]
  = (Ok ("v2", Some "v1"), ["x"]).
Proof.
  apply (proj2 (proj2 (getVersion_prompts
                         {| project := "p"; release := None; build := None;
                            version := None; prev := None; user := None;
                            password := None; push := Some 1 |}
                         ["v2"; "v1"; "x"]))).
  - reflexivity.
  - now exists 1.
  - reflexivity.
  - reflexivity.
Defined.

(** ** Release selection *)

Section SelectFacts.

Variable args : Args.
Variable py_int : string -> option Z.

Lemma get_In_keys {V} (d : Py.dict V) (k : string) (v : V) :
  Py.get d k = Some v -> In k (Py.keys d).
Proof.
  induction d as [|[k' v'] d IH]; simpl; [discriminate|].
  destruct (String.eqb_spec k k') as [->|Hne]; [now left|].
  intros H. right. now apply IH.
Qed.

Lemma index_In {A} (l : list A) (i : Z) (a : A) :
  Py.index l i = Ok a -> In a l.
Proof.
  unfold Py.index.
  destruct ((if (i <? 0)%Z then (Z.of_nat (length l) + i)%Z else i) <? 0)%Z;
    [discriminate|].
  destruct (nth_error l _) as [x|] eqn:E; [|discriminate].
  intros H. injection H as <-. now apply nth_error_In in E.
Qed.

Lemma bind_ok_inv {S A B} (m : M S A) (k : A -> M S B) s b s' :
  bind m k s = (Ok b, s') ->
  exists a s1, m s = (Ok a, s1) /\ k a s1 = (Ok b, s').
Proof.
  unfold bind. destruct (m s) as [[a|e] s1]; [|discriminate].
  intros H. now exists a, s1.
Qed.

Lemma lift_ok_inv {S A} (r : result A) (s s' : S) (a : A) :
  lift r s = (Ok a, s') -> r = Ok a /\ s' = s.
Proof. unfold lift. intros H. now injection H as -> <-. Qed.

Lemma ret_ok_inv {S A} (x a : A) (s s' : S) :
  ret x s = (Ok a, s') -> x = a /\ s' = s.
Proof. unfold ret. intros H. now injection H as -> <-. Qed.

Lemma keeps_ret {S A} (a : A) : keeps_state (@ret S A a).
Proof. intros s r s' H. now injection H as _ <-. Qed.

Lemma keeps_raise {S A} (e : exn) : keeps_state (@raise S A e).
Proof. intros s r s' H. now injection H as _ <-. Qed.

Lemma keeps_lift {S A} (x : result A) : keeps_state (@lift S A x).
Proof. intros s r s' H. now injection H as _ <-. Qed.

Lemma keeps_bind {S A B} (m : M S A) (k : A -> M S B) :
  keeps_state m -> (forall a, keeps_state (k a)) -> keeps_state (bind m k).
Proof.
  intros Hm Hk s r s'. unfold bind.
  destruct (m s) as [[a|e] s1] eqn:E.
  - intros H. apply Hk in H. apply Hm in E. congruence.
  - intros H. injection H as _ <-. now apply Hm in E.
Qed.

Lemma input_ok_inv (c c' : console) (txt : string) :
  input c = (Ok txt, c') -> c = txt :: c'.
Proof.
  unfold input. destruct c; [discriminate|].
  intros H. now injection H as -> ->.
Qed.

(** What a returned release went through (lines 142-174). *)
Lemma selectRelease_inv cfg c relName relData c' :
  selectRelease args py_int cfg c = (Ok (relName, relData), c') ->
  exists releases,
    Releases cfg = Val releases
    /\ Py.get releases relName = Some relData
    /\ missing (rel_Targets relData) = false
    /\ missing (rel_Types relData) = false
    /\ (c' = c \/ exists txt, c = txt :: c').
Proof.
  unfold selectRelease. intros H.
  apply bind_ok_inv in H. destruct H as (releases & c1 & H1 & H).
  cbv zeta in H.
  apply bind_ok_inv in H. destruct H as (name & c2 & H2 & H).
  apply bind_ok_inv in H. destruct H as (d & c3 & H3 & H).
  destruct (Releases cfg) as [| |rs]; try discriminate.
  apply ret_ok_inv in H1. destruct H1 as [E1 Hc1]. subst rs c1.
  destruct (Py.get releases name) as [d'|] eqn:Eg; [|discriminate].
  apply ret_ok_inv in H3. destruct H3 as [E3 Hc3]. subst d' c3.
  destruct (missing (rel_Targets d)) eqn:Et; [discriminate|].
  destruct (missing (rel_Types d)) eqn:Ey; [discriminate|].
  apply ret_ok_inv in H. destruct H as [E Hc']. injection E as E E'.
  subst name d c'.
  exists releases. repeat split; auto.
  clear Eg Et Ey.
  destruct (release args) as [r|].
  - destruct (negb (Py.mem r (Py.keys releases))); [discriminate|].
    apply ret_ok_inv in H2. destruct H2 as [_ Hc2]. now left.
  - assert (Hprompt :
      (txt <- input ;;
       idx <- lift (int_of py_int txt) ;;
       (if (idx >=? Z.of_nat (length (Py.keys releases)))%Z
        then raise (Exception "Invalid release index")
        else lift (Py.index (Py.keys releases) idx)))%py c
      = (Ok relName, c2) -> exists txt, c = txt :: c2).
    { intros P.
      apply bind_ok_inv in P. destruct P as (txt & c4 & P1 & P).
      apply bind_ok_inv in P. destruct P as (idx & c5 & P2 & P).
      apply input_ok_inv in P1. apply lift_ok_inv in P2.
      destruct P2 as [_ Hc5]. subst c5.
      destruct (idx >=? _)%Z; [discriminate|].
      apply lift_ok_inv in P. destruct P as [_ Hc4]. subst c4.
      now exists txt. }
    destruct (Py.keys releases) as [|k [|k' ks]].
    + right. now apply Hprompt.
    + apply ret_ok_inv in H2. destruct H2 as [_ Hc2]. now left.
    + right. now apply Hprompt.
Qed.

End SelectFacts.



(** X4: whatever way the release is chosen, a release that
    [selectRelease] returns is a key of [Releases], comes with the data
    stored under that key, and has its Targets and Types lists; at most
    one line of the console has been read. *)
Theorem selectRelease_returns_configured_release
        (args : Args) (py_int : string -> option Z) (cfg : ReleaseConfig)
        (c c' : console) (relName : string) (relData : ReleaseDef) :
  selectRelease args py_int cfg c = (Ok (relName, relData), c') ->
  exists releases,
    Releases cfg = Val releases
    /\ In relName (Py.keys releases)
    /\ Py.get releases relName = Some relData
    /\ (exists targets, rel_Targets relData = Val targets)
    /\ (exists types, rel_Types relData = Val types)
    /\ (c' = c \/ exists txt, c = txt :: c').
Proof.
  intros H. apply selectRelease_inv in H.
  destruct H as (releases & Hcfg & Hg & Ht & Hy & Hc).
  exists releases. repeat split; auto.
  - now apply get_In_keys in Hg.
  - now apply missing_false.
  - now apply missing_false.
Qed.

Lemma selectRelease_returns_configured_release_witness :
  exists releases,
    Releases Project.cfg = Val releases
    /\ In "r" (Py.keys releases)
    /\ Py.get releases "r" = Some Sample.relData
    /\ (exists targets, rel_Targets Sample.relData = Val targets)
    /\ (exists types, rel_Types Sample.relData = Val types)
    /\ (["x"] = ["x"] \/ exists txt, ["x"] = txt :: ["x"]).
Proof.
  apply (selectRelease_returns_configured_release
           Sample.args Sample.to_int Project.cfg ["x"] ["x"] "r"
           Sample.relData).
  reflexivity.
Defined.

(** X5: with [--release] the console is never read; a name that is not a
    key of [Releases] is rejected with the message that quotes it. *)
Theorem selectRelease_command_line
        (args : Args) (py_int : string -> option Z) (cfg : ReleaseConfig)
        (releases : Py.dict ReleaseDef) (relName : string) (c : console) :
  release args = Some relName ->
  Releases cfg = Val releases ->
  (forall r c', selectRelease args py_int cfg c = (r, c') -> c' = c)
  /\ (Py.mem relName (Py.keys releases) = false ->
      selectRelease args py_int cfg c
      = (Raise (Exception
                  ("Invalid command line release arg: " ++ relName)), c)).
Proof.
  intros Hrel Hcfg. split.
  - intros r c'. revert c r c'.
    change (keeps_state (selectRelease args py_int cfg)).
    unfold selectRelease. rewrite Hrel, Hcfg.
    apply keeps_bind; [apply keeps_ret|]. intros d. cbv zeta.
    apply keeps_bind.
    { destruct (negb _); [apply keeps_raise|apply keeps_ret]. }
    intros name. apply keeps_bind.
    { destruct (Py.get d name); [apply keeps_ret|apply keeps_raise]. }
    intros rd.
    destruct (missing (rel_Targets rd)); [apply keeps_raise|].
    destruct (missing (rel_Types rd)); [apply keeps_raise|apply keeps_ret].
  - intros Hm. unfold selectRelease. rewrite Hrel, Hcfg. mstep.
    now rewrite Hm.
Qed.

Lemma selectRelease_command_line_witness :
  selectRelease
    {| project := "p"; release := Some "nope"; build := None;
       version := None; prev := None; user := None; password := None;
       push := None |} Sample.to_int Project.cfg ["0"]
  = (Raise (Exception "Invalid command line release arg: nope"), ["0"]).
Proof.
  apply (proj2 (selectRelease_command_line
                  {| project := "p"; release := Some "nope"; build := None;
                     version := None; prev := None; user := None;
                     password := None; push := None |}
                  Sample.to_int Project.cfg [("r", Sample.relData)] "nope"
                  ["0"] eq_refl eq_refl)).
  reflexivity.
Defined.

(** ** Build selection *)

Section BuildSelection.

Variable args : Args.
Variable fs : string -> option node.
Variable py_int : string -> option Z.

Lemma chooseBuild_In sortList c b c' :
  chooseBuild args py_int sortList c = (Ok b, c') -> In b sortList.
Proof.
  unfold chooseBuild. destruct (build args) as [name|].
  - destruct (String.eqb name "latest").
    + intros H. apply lift_ok_inv in H. destruct H as [H _].
      now apply index_In in H.
    + destruct (Py.mem name sortList) eqn:Em; simpl negb; cbv iota.
      * intros H. apply ret_ok_inv in H. destruct H as [<- _].
        now apply mem_In.
      * discriminate.
  - intros H.
    apply bind_ok_inv in H. destruct H as (txt & c1 & _ & H).
    apply bind_ok_inv in H. destruct H as (idx & c2 & _ & H).
    destruct (idx >=? _)%Z; [discriminate|].
    apply lift_ok_inv in H. destruct H as [H _].
    now apply index_In in H.
Qed.

Lemma insert_NoDup (a : string) (l : list string) :
  ascending l -> NoDup l -> NoDup (Py.insert a l).
Proof.
  unfold ascending.
  induction l as [|y l IH]; intros Hs Hn; simpl.
  - constructor; [intros []|constructor].
  - destruct (String.eqb_spec a y) as [->|Hne]; [exact Hn|].
    inversion Hs as [|? ? Hl Hy]; subst.
    inversion Hn as [|? ? Hyl Hnl]; subst.
    destruct (PyStr.leb a y) eqn:E.
    + constructor; [|exact Hn].
      intros [H|H]; [congruence|].
      rewrite Forall_forall in Hy. specialize (Hy a H).
      apply Hne. now apply String.leb_antisym.
    + constructor; [|now apply IH].
      rewrite insert_In. intros [H|H]; [congruence|contradiction].
Qed.

Lemma sorted_set_NoDup (l : list string) : NoDup (Py.sorted_set l).
Proof.
  induction l as [|a l IH]; simpl; [constructor|].
  apply insert_NoDup; [apply sorted_set_ascending|exact IH].
Qed.

(** An ascending list without repetition is determined by its
    elements. *)
Lemma ascending_unique (l1 l2 : list string) :
  ascending l1 -> NoDup l1 -> ascending l2 -> NoDup l2 ->
  (forall x, In x l1 <-> In x l2) -> l1 = l2.
Proof.
  unfold ascending. revert l2.
  induction l1 as [|a l1 IH]; intros l2 Hs1 Hn1 Hs2 Hn2 Hin.
  - destruct l2 as [|b l2]; [reflexivity|].
    exfalso. apply (Hin b). now left.
  - destruct l2 as [|b l2].
    + exfalso. apply (Hin a). now left.
    + inversion Hs1 as [|? ? Hl1 Ha]; subst.
      inversion Hs2 as [|? ? Hl2 Hb]; subst.
      inversion Hn1 as [|? ? Ha1 Hn1']; subst.
      inversion Hn2 as [|? ? Hb2 Hn2']; subst.
      rewrite Forall_forall in Ha, Hb.
      assert (Eab : a = b).
      { assert (Hab : PyStr.leb a b = true).
        { destruct (proj2 (Hin b) (or_introl eq_refl)) as [->|H];
            [apply leb_refl|now apply Ha]. }
        assert (Hba : PyStr.leb b a = true).
        { destruct (proj1 (Hin a) (or_introl eq_refl)) as [->|H];
            [apply leb_refl|now apply Hb]. }
        now apply String.leb_antisym. }
      subst b. f_equal. apply IH; auto.
      intros x. split; intros Hx.
      * destruct (proj1 (Hin x) (or_intror Hx)) as [->|H];
          [contradiction|exact H].
      * destruct (proj2 (Hin x) (or_intror Hx)) as [->|H];
          [contradiction|exact H].
Qed.

Lemma split_head_idem (sep : ascii) (s : string) :
  PyStr.split_head sep (PyStr.split_head sep s) = PyStr.split_head sep s.
Proof.
  induction s as [|c s IH]; [reflexivity|]. simpl.
  destruct (Ascii.eqb c sep) eqn:E; [reflexivity|].
  simpl. now rewrite E, IH.
Qed.

Lemma split_head_append (sep : ascii) (b e : string) :
  PyStr.split_head sep (b ++ String sep e) = PyStr.split_head sep b.
Proof.
  induction b as [|c b IH]; simpl.
  - now rewrite Ascii.eqb_refl.
  - destruct (Ascii.eqb c sep); [reflexivity|]. now rewrite IH.
Qed.

Lemma candidate_split_head target dirList b :
  In b (buildCandidates target dirList) ->
  PyStr.split_head "."%char b = b.
Proof.
  intros H.
  destruct (proj1 (buildCandidates_In (fun _ => None) (fun _ => None)
                                       target dirList b) H)
    as (fn & _ & _ & ->).
  apply split_head_idem.
Qed.

(** The loop of [selectBuildImages], from the result back. *)
Lemma selectBuildImages_loop_inv cfg targets retList c r c' :
  selectBuildImages_loop args fs py_int cfg targets retList c = (Ok r, c') ->
  Forall (fun target =>
            exists tdict tdef extensions dirList,
              Targets cfg = Val tdict
              /\ Py.get tdict target = Some (YMap tdef)
              /\ Extensions tdef = Val extensions
              /\ listdir_files fs
                   (OsPath.join4 (FirmwareDir args) "targets" target
                                 "images") = Ok dirList)
         targets
  /\ forall p,
      In p r ->
      In p retList
      \/ exists target dirList f,
          In target targets
          /\ listdir_files fs
               (OsPath.join4 (FirmwareDir args) "targets" target "images")
             = Ok dirList
          /\ In f dirList
          /\ p = OsPath.join
                   (OsPath.join4 (FirmwareDir args) "targets" target
                                 "images") f.
Proof.
  revert retList c.
  induction targets as [|t ts IH]; intros retList c H.
  - apply ret_ok_inv in H. destruct H as [<- _]. split; [constructor|auto].
  - simpl in H. apply bind_ok_inv in H. destruct H as (r1 & c1 & H1 & H).
    apply IH in H. destruct H as [Hall Hin].
    apply selectBuildImages_target_inv in H1.
    destruct H1 as (tdict & tdef & exts & dirList & b
                    & Ht & Hg & He & Hl & Hc & ->).
    split.
    + constructor; [|exact Hall]. now exists tdict, tdef, exts, dirList.
    + intros p Hp. destruct (Hin p Hp) as [Hp'|(t' & dl & f & Ht' & R)].
      * apply in_app_or in Hp'. destruct Hp' as [Hp'|Hp']; [now left|].
        right. unfold buildImages in Hp'. apply in_map_iff in Hp'.
        destruct Hp' as (f & <- & Hf). apply filter_In in Hf.
        exists t, dirList, f. simpl. tauto.
      * right. exists t', dl, f. simpl. tauto.
Qed.

End BuildSelection.

(** X6: however the build is chosen (latest, by name, by index), a build
    name that [chooseBuild] returns is one of the candidates listed. *)
Theorem chooseBuild_returns_candidate
        (args : Args) (py_int : string -> option Z)
        (sortList : list string) (c c' : console) (buildName : string) :
  chooseBuild args py_int sortList c = (Ok buildName, c') ->
  In buildName sortList.
Proof. apply chooseBuild_In. Qed.

Lemma chooseBuild_returns_candidate_witness :
  In "fw_10" ["fw_1"; "fw_10"; "fw_2"].
Proof.
  apply (chooseBuild_returns_candidate
           Sample.args Sample.to_int ["fw_1"; "fw_10"; "fw_2"] ["1"] []
           "fw_10").
  reflexivity.
Defined.

(** X7: the list of build candidates is ascending, names no build twice
    and does not depend on the order in which the directory lists its
    files: the index shown for a build is the same for every listing
    order. *)
Theorem buildCandidates_canonical (target : string) (dirList : list string) :
  ascending (buildCandidates target dirList)
  /\ NoDup (buildCandidates target dirList)
  /\ forall dirList',
      (forall f, In f dirList <-> In f dirList') ->
      buildCandidates target dirList' = buildCandidates target dirList.
Proof.
  split; [apply sorted_set_ascending|]. split; [apply sorted_set_NoDup|].
  intros dirList' Hsame.
  apply ascending_unique;
    try apply sorted_set_ascending; try apply sorted_set_NoDup.
  intros x.
  rewrite !(buildCandidates_In (fun _ => None) (fun _ => None)). split.
  - intros (fn & Hin & R). exists fn. split; [now apply Hsame|exact R].
  - intros (fn & Hin & R). exists fn. split; [now apply Hsame|exact R].
Qed.

Lemma buildCandidates_canonical_witness :
  buildCandidates "fw" ["fw_2.bit"; "fw_1.mcs"; "fw_1.bit"; "fw_2.bit"]
  = buildCandidates "fw" ["fw_1.bit"; "fw_1.mcs"; "fw_2.bit"].
Proof.
  apply (proj2 (proj2 (buildCandidates_canonical
                         "fw" ["fw_1.bit"; "fw_1.mcs"; "fw_2.bit"]))).
  intros f. simpl. tauto.
Defined.

(** X8: when [selectBuildImages] returns, every target of the release is
    declared in [Targets] with an Extensions list and has an image
    directory, and every path returned is a file of the image directory
    of one of these targets. *)
Theorem selectBuildImages_returns_listed_files
        (args : Args) (fs : string -> option node)
        (py_int : string -> option Z) (cfg : ReleaseConfig)
        (relName : string) (relData : ReleaseDef) (c c' : console)
        (r : list string) :
  selectBuildImages args fs py_int cfg relName relData c = (Ok r, c') ->
  exists targets,
    rel_Targets relData = Val targets
    /\ Forall (fun target =>
                 exists tdict tdef extensions dirList,
                   Targets cfg = Val tdict
                   /\ Py.get tdict target = Some (YMap tdef)
                   /\ Extensions tdef = Val extensions
                   /\ listdir_files fs
                        (OsPath.join4 (FirmwareDir args) "targets" target
                                      "images") = Ok dirList)
              targets
    /\ forall p,
        In p r ->
        exists target dirList f,
          In target targets
          /\ listdir_files fs
               (OsPath.join4 (FirmwareDir args) "targets" target "images")
             = Ok dirList
          /\ In f dirList
          /\ p = OsPath.join
                   (OsPath.join4 (FirmwareDir args) "targets" target
                                 "images") f.
Proof.
  unfold selectBuildImages.
  destruct (rel_Targets relData) as [| |targets]; try discriminate.
  intros H. apply selectBuildImages_loop_inv in H. destruct H as [Hall Hin].
  exists targets. split; [reflexivity|]. split; [exact Hall|].
  intros p Hp. destruct (Hin p Hp) as [[]|R]. exact R.
Qed.

Lemma selectBuildImages_returns_listed_files_witness :
  exists targets,
    rel_Targets Sample.relData = Val targets
    /\ Forall (fun target =>
                 exists tdict tdef extensions dirList,
                   Targets Project.cfg = Val tdict
                   /\ Py.get tdict target = Some (YMap tdef)
                   /\ Extensions tdef = Val extensions
                   /\ listdir_files Project.fs
                        (OsPath.join4 (FirmwareDir (Sample.with_build "fw_1"))
                                      "targets" target "images") = Ok dirList)
              targets
    /\ forall p,
        In p Project.imgList ->
        exists target dirList f,
          In target targets
          /\ listdir_files Project.fs
               (OsPath.join4 (FirmwareDir (Sample.with_build "fw_1"))
                             "targets" target "images")
             = Ok dirList
          /\ In f dirList
          /\ p = OsPath.join
                   (OsPath.join4 (FirmwareDir (Sample.with_build "fw_1"))
                                 "targets" target "images") f.
Proof.
  apply (selectBuildImages_returns_listed_files
           (Sample.with_build "fw_1") Project.fs Sample.to_int Project.cfg
           "r" Sample.relData [] [] Project.imgList).
  reflexivity.
Defined.

(** X9: the images selected for a target all belong to the build chosen:
    the name of each, cut at its first dot as for the candidates, is the
    build name, and the build name is a candidate of that target. *)
Theorem selectBuildImages_target_one_build
        (args : Args) (fs : string -> option node)
        (py_int : string -> option Z) (cfg : ReleaseConfig)
        (target : string) (retList : list string) (c c' : console)
        (r : list string) :
  selectBuildImages_target args fs py_int cfg target retList c = (Ok r, c') ->
  let imageDir :=
    OsPath.join4 (FirmwareDir args) "targets" target "images" in
  exists dirList buildName files,
    listdir_files fs imageDir = Ok dirList
    /\ In buildName (buildCandidates target dirList)
    /\ r = (retList ++ map (OsPath.join imageDir) files)%list
    /\ Forall (fun f => In f dirList
                        /\ PyStr.split_head "."%char f = buildName) files.
Proof.
  intros H imageDir. apply selectBuildImages_target_inv in H.
  destruct H as (tdict & tdef & exts & dirList & b
                 & Ht & Hg & He & Hl & Hc & ->).
  apply chooseBuild_In in Hc.
  exists dirList, b.
  exists (filter (fun f => Py.mem f (map (fun ext => b ++ "." ++ ext) exts))
                 dirList).
  repeat split; auto.
  apply Forall_forall. intros f Hf. apply filter_In in Hf.
  destruct Hf as [Hin Hm]. split; [exact Hin|].
  apply mem_In, in_map_iff in Hm. destruct Hm as (ext & <- & _).
  change (b ++ "." ++ ext) with (b ++ String "."%char ext).
  rewrite split_head_append.
  now apply (candidate_split_head target dirList).
Qed.

Lemma selectBuildImages_target_one_build_witness :
  exists dirList buildName files,
    listdir_files Project.fs
      (OsPath.join4 (FirmwareDir (Sample.with_build "latest")) "targets"
                    "fw" "images") = Ok dirList
    /\ In buildName (buildCandidates "fw" dirList)
    /\ Project.imgList
       = ([] ++ map (OsPath.join
                       (OsPath.join4
                          (FirmwareDir (Sample.with_build "latest"))
                          "targets" "fw" "images")) files)%list
    /\ Forall (fun f => In f dirList
                        /\ PyStr.split_head "."%char f = buildName) files.
Proof.
  apply (selectBuildImages_target_one_build
           (Sample.with_build "latest") Project.fs Sample.to_int
           Project.cfg "fw" [] [] [] Project.imgList).
  reflexivity.
Defined.

(** ** File groups and archives *)

Section ArchiveFacts.

Variable args : Args.
Variable fs : string -> option node.

Lemma endswith_unfold (suffix s : string) :
  PyStr.endswith suffix s =
    if String.eqb s suffix then true
    else match s with
         | EmptyString => false
         | String _ s' => PyStr.endswith suffix s'
         end.
Proof. destruct s; reflexivity. Qed.

Lemma endswith_inv (suffix s : string) :
  PyStr.endswith suffix s = true -> exists a, s = a ++ suffix.
Proof.
  induction s as [|c s IH]; rewrite endswith_unfold.
  - destruct (String.eqb_spec "" suffix) as [<-|_]; [|discriminate].
    intros _. now exists "".
  - destruct (String.eqb_spec (String c s) suffix) as [<-|_].
    + intros _. now exists "".
    + intros H. destruct (IH H) as (a & ->). now exists (String c a).
Qed.

Lemma basename_after_sep (a f : string) :
  PyStr.contains "/" f = false -> OsPath.basename (a ++ "/" ++ f) = f.
Proof.
  intros Hf. induction a as [|c a IH].
  - change ("" ++ "/" ++ f) with (String "/"%char f).
    cbn [OsPath.basename]. unfold OsPath.sep. now rewrite Hf.
  - change (String c a ++ "/" ++ f) with (String c (a ++ "/" ++ f)).
    cbn [OsPath.basename]. unfold OsPath.sep.
    now rewrite contains_append.
Qed.

Lemma basename_no_sep (f : string) :
  PyStr.contains "/" f = false -> OsPath.basename f = f.
Proof.
  destruct f as [|c f]; [reflexivity|].
  rewrite contains_unfold.
  destruct (String.prefix "/" (String c f)) eqn:E; [discriminate|].
  intros Hf. cbn [OsPath.basename]. unfold OsPath.sep. rewrite Hf.
  simpl in E. destruct (ascii_dec "/" c) as [<-|Hne].
  - now destruct f.
  - destruct (Ascii.eqb_spec c "/"%char); [congruence|reflexivity].
Qed.

Lemma basename_join (d f : string) :
  PyStr.contains "/" f = false -> OsPath.basename (OsPath.join d f) = f.
Proof.
  intros Hf. unfold OsPath.join, PyStr.startswith.
  assert (Hp : String.prefix OsPath.sep f = false).
  { rewrite contains_unfold in Hf. unfold OsPath.sep.
    now destruct (String.prefix "/" f). }
  rewrite Hp.
  destruct (String.eqb_spec d "") as [->|Hd]; simpl orb; cbv iota.
  - now apply basename_no_sep.
  - destruct (PyStr.endswith OsPath.sep d) eqn:E.
    + apply endswith_inv in E. destruct E as (a & ->).
      rewrite append_assoc. now apply basename_after_sep.
    + now apply basename_after_sep.
Qed.

Lemma selectFiles_nil_iff_length cfg relData key :
  Nat.eqb (length (selectFiles args fs cfg relData key)) 0 = true
  <-> selectFiles args fs cfg relData key = [].
Proof.
  destruct (selectFiles args fs cfg relData key); simpl; split;
    congruence.
Qed.

Lemma package_lines_In pList e :
  In e pList -> type e = folder ->
  exists a b, package_lines pList = a ++ package_line (subPath e) ++ b.
Proof.
  intros Hin Hf. induction pList as [|x pList IH]; [destruct Hin|].
  simpl package_lines. destruct Hin as [->|Hin].
  - rewrite Hf. simpl kind_eqb. cbv iota.
    exists "", (package_lines pList). reflexivity.
  - destruct (IH Hin) as (a & b & ->).
    exists ((if kind_eqb (type x) folder
             then "             '" ++ subPath x ++ "'," ++ nl else "") ++ a), b.
    now rewrite append_assoc.
Qed.

End ArchiveFacts.

(** X10: a selected image, the file [f] of an image directory, is stored
    in the zip file as [{TopPackage}/images/f]: the directory part of its
    path is dropped (line 312). *)
Theorem rogue_images_names
        (top imageDir : string) (files : list string) (z : list member) :
  Forall (fun f => PyStr.contains "/" f = false) files ->
  rogue_images top (map (OsPath.join imageDir) files) z
  = (Ok tt,
     (z ++ map (fun f => FromDisk (OsPath.join imageDir f)
                                  (top ++ "/images/" ++ f)) files)%list).
Proof.
  intros H. rewrite rogue_images_spec. f_equal. f_equal.
  unfold image_members. rewrite map_map.
  apply map_ext_in. intros f Hf.
  rewrite Forall_forall in H. now rewrite basename_join by auto.
Qed.

Lemma rogue_images_names_witness :
  rogue_images "top"
    (map (OsPath.join "p/firmware/targets/fw/images")
         ["fw_1.bit"; "fw_1.mcs"]) []
  = (Ok tt,
     ([] ++ map (fun f =>
                   FromDisk (OsPath.join "p/firmware/targets/fw/images" f)
                            ("top" ++ "/images/" ++ f))
                ["fw_1.bit"; "fw_1.mcs"])%list).
Proof.
  apply (rogue_images_names
           "top" "p/firmware/targets/fw/images" ["fw_1.bit"; "fw_1.mcs"] []).
  repeat constructor.
Defined.

(** X11: the entries of a file group are those of the directories the
    configuration lists under the key, followed by those of the
    directories the release lists under it. *)
Theorem selectFiles_global_then_release
        (args : Args) (fs : string -> option node)
        (cfg : ReleaseConfig) (relData : ReleaseDef) (key : string) :
  selectFiles args fs cfg relData key
  = (selectFiles args fs cfg (no_release_groups relData) key
       ++ selectFiles args fs (no_global_groups cfg) relData key)%list.
Proof.
  unfold selectFiles, no_release_groups, no_global_groups. simpl.
  rewrite app_nil_r. apply flat_map_app.
Qed.

(** X12: a directory of a file group that is not there, is a plain file
    or is empty adds no entry; a group of such directories only, or a key
    that is absent or None on both sides, resolves to no entry at all. *)
Theorem selectFiles_nothing_to_walk
        (args : Args) (fs : string -> option node)
        (cfg : ReleaseConfig) (relData : ReleaseDef) (key : string) :
  (forall d nm ch,
      In d (group_dirs (cfg_group cfg key)
              ++ group_dirs (rel_group relData key))%list ->
      fs (OsPath.join (FirmwareDir args) d) = Some (Dir nm ch) ->
      ch = []) ->
  selectFiles args fs cfg relData key = [].
Proof.
  intros H. unfold selectFiles.
  induction (group_dirs (cfg_group cfg key)
               ++ group_dirs (rel_group relData key))%list as [|d ds IH];
    [reflexivity|].
  simpl flat_map. rewrite IH by (intros d' nm ch Hd; apply H; now right).
  rewrite app_nil_r. unfold os_walk.
  destruct (fs (OsPath.join (FirmwareDir args) d)) as [[nm txt|nm ch]|] eqn:E;
    try reflexivity.
  rewrite (H d nm ch (or_introl eq_refl) E). reflexivity.
Qed.

Lemma selectFiles_nothing_to_walk_witness :
  selectFiles Sample.args Project.fs
              (WalkSample.group ["nowhere"; "releases.yaml"])
              Sample.relData "RoguePackages" = [].
Proof.
  apply (selectFiles_nothing_to_walk
           Sample.args Project.fs
           (WalkSample.group ["nowhere"; "releases.yaml"])
           Sample.relData "RoguePackages").
  intros d nm ch [<-|[<-|[]]]; vm_compute; discriminate.
Defined.

(** X13: the guards of [buildRogueFile].  With no entry in the package
    group the build raises the empty-list exception; with entries but no
    top package (key absent or None) it raises the TopPackage exception.
    In both cases the zip file is not opened: what is at its path stays
    as it was. *)
Theorem buildRogueFile_guards
        (args : Args) (fs : string -> option node)
        (zipName : string) (cfg : ReleaseConfig) (ver relName : string)
        (relData : ReleaseDef) (imgList : list string)
        (st : option (list member)) :
  (selectFiles args fs cfg relData "RoguePackages" = [] ->
   buildRogueFile args fs zipName cfg ver relName relData imgList st
   = (Raise (Exception
               "Invalid release config. Rogue packages list is empty!"), st))
  /\ (selectFiles args fs cfg relData "RoguePackages" <> [] ->
      TopPackage cfg = Absent \/ TopPackage cfg = Null ->
      buildRogueFile args fs zipName cfg ver relName relData imgList st
      = (Raise (Exception
                  "Invalid release config. TopPackage is not defined!"),
         st)).
Proof.
  unfold buildRogueFile. split.
  - intros ->. reflexivity.
  - intros Hne Htop.
    destruct (selectFiles args fs cfg relData "RoguePackages");
      [congruence|].
    simpl length. simpl Nat.eqb. cbv iota.
    destruct Htop as [-> | ->]; reflexivity.
Qed.

Lemma buildRogueFile_guards_witness :
  buildRogueFile Sample.args Project.fs "p/firmware/rogue_r_v1.zip"
    {| Releases := Releases Project.cfg; Targets := Targets Project.cfg;
       TopPackage := Null; cfg_group := Project.groups |}
    "v1" "r" Sample.relData Project.imgList
    (Some [FromBytes "old" "kept"])
  = (Raise (Exception "Invalid release config. TopPackage is not defined!"),
     Some [FromBytes "old" "kept"]).
Proof.
  apply (proj2 (buildRogueFile_guards
                  Sample.args Project.fs "p/firmware/rogue_r_v1.zip"
                  {| Releases := Releases Project.cfg;
                     Targets := Targets Project.cfg;
                     TopPackage := Null; cfg_group := Project.groups |}
                  "v1" "r" Sample.relData Project.imgList
                  (Some [FromBytes "old" "kept"]))).
  - vm_compute. discriminate.
  - now right.
Defined.



(** X15: the zip file of a build that returns holds, in this order: each
    package entry, folders included, under its subPath, except the
    entries whose subPath is the initializer of the top package; each
    entry of the configuration group, folders included, under
    [{TopPackage}/config/{subPath}]; each image under
    [{TopPackage}/images/] and the last component of its path; setup.py;
    the rewritten initializer.  Nothing that was in a file of that name
    before is kept. *)
Theorem buildRogueFile_layout
        (args : Args) (fs : string -> option node)
        (zipName : string) (cfg : ReleaseConfig) (ver relName : string)
        (relData : ReleaseDef) (imgList : list string)
        (st st' : option (list member)) :
  buildRogueFile args fs zipName cfg ver relName relData imgList st
  = (Ok tt, st') ->
  exists top setupPy newInit,
    TopPackage cfg = Val top
    /\ st' =
       Some (map (fun e => FromDisk (fullPath e) (subPath e))
                 (filter (fun e =>
                            negb (String.eqb (subPath e)
                                             (top ++ "/__init__.py")))
                         (selectFiles args fs cfg relData "RoguePackages"))
               ++ map (fun e =>
                         FromDisk (fullPath e)
                                  (top ++ "/config/" ++ subPath e))
                      (selectFiles args fs cfg relData "RogueConfig")
               ++ map (fun e =>
                         FromDisk e (top ++ "/images/" ++ OsPath.basename e))
                      imgList
               ++ [FromBytes "setup.py" setupPy;
                   FromBytes (top ++ "/__init__.py") newInit])%list.
Proof.
  intros H.
  destruct (buildRogueFile_ok_inv args fs _ _ _ _ _ _ _ _ H)
    as (Hne & top & Htop).
  rewrite (buildRogueFile_spec args fs zipName cfg ver relName relData
                               imgList st top Hne Htop) in H.
  cbv zeta in H.
  destruct (open_topPath fs _) as [txt|e]; [|discriminate].
  injection H as <-.
  exists top, (setupPy_text relName ver top
                 (selectFiles args fs cfg relData "RoguePackages")),
    (newInit_of txt ver).
  split; [exact Htop|]. f_equal.
  unfold members_before_init, raw_members, config_members, image_members.
  rewrite <- !app_assoc. reflexivity.
Qed.

Lemma buildRogueFile_layout_witness :
  exists top setupPy newInit,
    TopPackage Project.cfg = Val top
    /\ Some (Project.built "r" "v1") =
       Some (map (fun e => FromDisk (fullPath e) (subPath e))
                 (filter (fun e =>
                            negb (String.eqb (subPath e)
                                             (top ++ "/__init__.py")))
                         (selectFiles Sample.args Project.fs Project.cfg
                                      Sample.relData "RoguePackages"))
               ++ map (fun e =>
                         FromDisk (fullPath e)
                                  (top ++ "/config/" ++ subPath e))
                      (selectFiles Sample.args Project.fs Project.cfg
                                   Sample.relData "RogueConfig")
               ++ map (fun e =>
                         FromDisk e (top ++ "/images/" ++ OsPath.basename e))
                      Project.imgList
               ++ [FromBytes "setup.py" setupPy;
                   FromBytes (top ++ "/__init__.py") newInit])%list.
Proof.
  apply (buildRogueFile_layout
           Sample.args Project.fs "p/firmware/rogue.zip" Project.cfg
           "v1" "r" Sample.relData Project.imgList None
           (Some (Project.built "r" "v1"))).
  vm_compute. reflexivity.
Defined.

(** X16: the setup.py of a build that returns declares every folder entry
    of the package group, by the line of line 303 with its subPath, and
    the config and images data of the top package. *)
Theorem setup_py_declares_packages
        (args : Args) (fs : string -> option node)
        (zipName : string) (cfg : ReleaseConfig) (ver relName : string)
        (relData : ReleaseDef) (imgList : list string)
        (st : option (list member)) (ms : list member) :
  buildRogueFile args fs zipName cfg ver relName relData imgList st
  = (Ok tt, Some ms) ->
  exists top descriptor,
    TopPackage cfg = Val top
    /\ archive_read "setup.py" ms = Some (FromBytes "setup.py" descriptor)
    /\ (forall e,
           In e (selectFiles args fs cfg relData "RoguePackages") ->
           type e = folder ->
           PyStr.contains (package_line (subPath e)) descriptor = true)
    /\ PyStr.contains
         ("   package_data={'" ++ top ++ "':['config/*','images/*']}" ++ nl)
         descriptor = true.
Proof.
  intros H.
  destruct (buildRogueFile_ok_inv args fs _ _ _ _ _ _ _ _ H)
    as (Hne & top & Htop).
  rewrite (buildRogueFile_spec args fs zipName cfg ver relName relData
                               imgList st top Hne Htop) in H.
  cbv zeta in H.
  destruct (open_topPath fs _) as [txt|e]; [|discriminate].
  injection H as <-.
  exists top. eexists. split; [exact Htop|].
  split; [apply archive_read_setup|]. split.
  - intros e Hin Hf.
    destruct (package_lines_In _ e Hin Hf) as (a & b & E).
    unfold setupPy_text. rewrite E. rewrite !append_assoc.
    rewrite <- (append_assoc (setupPy_head relName ver) a).
    apply contains_append.
  - unfold setupPy_text.
    rewrite (append_assoc _ ("   package_data={'" ++ top
                               ++ "':['config/*','images/*']}" ++ nl)).
    rewrite (append_assoc "   package_data={'").
    rewrite (append_assoc top).
    rewrite (append_assoc "':['config/*','images/*']}").
    pose proof (contains_append
                  ("   package_data={'" ++ top
                     ++ "':['config/*','images/*']}" ++ nl)
                  ((setupPy_head relName ver
                      ++ package_lines
                           (selectFiles args fs cfg relData "RoguePackages"))
                     ++ "            ]," ++ nl)
                  (")" ++ nl)) as C.
    rewrite !append_assoc in C. rewrite !append_assoc. exact C.
Qed.

Lemma setup_py_declares_packages_witness :
  exists top descriptor,
    TopPackage Project.cfg = Val top
    /\ archive_read "setup.py" (Project.built "r" "v1")
       = Some (FromBytes "setup.py" descriptor)
    /\ (forall e,
           In e (selectFiles Sample.args Project.fs Project.cfg
                             Sample.relData "RoguePackages") ->
           type e = folder ->
           PyStr.contains (package_line (subPath e)) descriptor = true)
    /\ PyStr.contains
         ("   package_data={'" ++ top ++ "':['config/*','images/*']}" ++ nl)
         descriptor = true.
Proof.
  apply (setup_py_declares_packages
           Sample.args Project.fs "p/firmware/rogue.zip" Project.cfg
           "v1" "r" Sample.relData Project.imgList None
           (Project.built "r" "v1")).
  vm_compute. reflexivity.
Defined.

(** ** Publishing *)

Section PublishFacts.

Variable args : Args.
Variable gh_get_repo : string -> string -> string -> bool.
Variable getReleaseNotes : string -> string -> string -> result string.

Lemma strip_prefix_inv (p s r : string) :
  strip_prefix p s = Some r -> s = p ++ r.
Proof.
  revert s. induction p as [|a p IH]; intros s; simpl.
  - intros H. now injection H as ->.
  - destruct s as [|b s]; [discriminate|].
    destruct (Ascii.eqb_spec a b) as [->|_]; [|discriminate].
    intros H. now rewrite (IH s H).
Qed.

Lemma match_name_inv (s name : string) :
  match_name s = Some name ->
  (exists post, s = name ++ ".gi" ++ post)
  /\ PyStr.contains nl name = false
  /\ PyStr.contains ".gi" name = false.
Proof.
  revert name. induction s as [|c s IH]; intros name.
  - simpl. discriminate.
  - cbn [match_name].
    destruct (String.prefix ".gi" (String c s)) eqn:Ep.
    + intros H. injection H as <-. apply prefix_inv in Ep.
      destruct Ep as (r & ->). split; [now exists r|]. split; reflexivity.
    + destruct (Ascii.eqb_spec c "010"%char) as [_|Hc]; [discriminate|].
      destruct (match_name s) as [name'|]; [|discriminate].
      simpl option_map. intros H. injection H as <-.
      destruct (IH name' eq_refl) as ((post & ->) & Hn & Hg).
      split; [now exists post|]. split.
      * rewrite contains_unfold. unfold nl. cbn [String.prefix].
        destruct (ascii_dec "010" c) as [E|_]; [congruence|].
        exact Hn.
      * rewrite contains_unfold.
        destruct (String.prefix ".gi" (String c name')) eqn:Eq; [|exact Hg].
        apply prefix_inv in Eq. destruct Eq as (r & Eq).
        change (String c (name' ++ ".gi" ++ post))
          with (String c name' ++ ".gi" ++ post) in Ep.
        rewrite Eq, append_assoc, prefix_append in Ep. discriminate.
Qed.

Lemma search_name_inv (url name : string) :
  search_name url = Some name ->
  exists pre post, url = pre ++ "slaclab/" ++ name ++ ".gi" ++ post.
Proof.
  induction url as [|c url IH].
  - simpl. discriminate.
  - cbn [search_name].
    destruct (strip_prefix "slaclab/" (String c url)) as [rest|] eqn:Es.
    + destruct (match_name rest) as [n|] eqn:Em.
      * intros H. injection H as ->.
        apply strip_prefix_inv in Es.
        apply match_name_inv in Em. destruct Em as ((post & ->) & _).
        exists "", post. exact Es.
      * intros H. destruct (IH H) as (pre & post & ->).
        now exists (String c pre), post.
    + intros H. destruct (IH H) as (pre & post & ->).
      now exists (String c pre), post.
Qed.

Lemma search_name_absent (url : string) :
  PyStr.contains "slaclab/" url = false -> search_name url = None.
Proof.
  intros H. destruct (search_name url) as [name|] eqn:E; [|reflexivity].
  apply search_name_inv in E. destruct E as (pre & post & ->).
  now rewrite contains_append in H.
Qed.

(** [upload_assets] adds the attachments, in order, to the release made
    for the tag, when the hosting service takes each of them. *)
Lemma upload_assets_spec tag tagAttach w old rel :
  Forall (fun r => gr_tag r <> tag) old ->
  gr_tag rel = tag ->
  w_releases w = (old ++ [rel])%list ->
  Forall (fun t => asset_answer (w_services w) tag t = Ok tt) tagAttach ->
  upload_assets tag tagAttach w
  = (Ok tt,
     {| w_console := w_console w; w_url := w_url w; w_dirty := w_dirty w;
        w_tags := w_tags w; w_pushed := w_pushed w;
        w_releases :=
          (old ++ [{| gr_repo := gr_repo rel; gr_tag := gr_tag rel;
                      gr_name := gr_name rel; gr_message := gr_message rel;
                      gr_assets := (gr_assets rel ++ tagAttach)%list |}])%list;
        w_services := w_services w |}).
Proof.
  intros Hold Htag. revert w rel Htag.
  induction tagAttach as [|t ts IH]; intros w rel Htag Hw Hall.
  - simpl. unfold ret. rewrite app_nil_r. destruct w, rel. simpl in *.
    now subst.
  - inversion Hall as [|t' ts' Ht Hts]; subst t' ts'.
    simpl upload_assets. unfold bind at 1. unfold upload_asset at 1.
    rewrite Ht.
    rewrite (IH _ {| gr_repo := gr_repo rel; gr_tag := gr_tag rel;
                     gr_name := gr_name rel; gr_message := gr_message rel;
                     gr_assets := (gr_assets rel ++ [t])%list |}).
    + simpl. now rewrite <- app_assoc.
    + exact Htag.
    + simpl. rewrite Hw, map_app. simpl. rewrite Htag, String.eqb_refl.
      f_equal. rewrite <- (map_id old) at 2. apply map_ext_in.
      intros r Hr. rewrite Forall_forall in Hold.
      destruct (String.eqb_spec (gr_tag r) tag) as [E|_]; [|reflexivity].
      now apply Hold in E.
    + simpl. exact Hts.
Qed.

End PublishFacts.

Section PublishSteps.

Variable args : Args.
Variable gh_get_repo : string -> string -> string -> bool.
Variable getReleaseNotes : string -> string -> string -> result string.

(** Lines 364-391: a clean tree, a project name, a fresh tag that git
    makes, a push that returns, and the credentials. *)
Lemma pushRelease_tagged relName ver tagAttach prev w url proj u p c1 c2 :
  w_url w = Some url ->
  search_name (git_url url) = Some proj ->
  w_dirty w = false ->
  Py.mem (relName ++ "_" ++ ver) (map fst (w_tags w)) = false ->
  tag_name_ok (w_services w) (relName ++ "_" ++ ver) = true ->
  push_answer (w_services w) (relName ++ "_" ++ ver) <> PushFails ->
  given_or_read (user args) (w_console w) u c1 ->
  given_or_read (password args) c1 p c2 ->
  pushRelease args gh_get_repo getReleaseNotes relName ver tagAttach prev w
  = (let tag := relName ++ "_" ++ ver in
     let msg := relName ++ " version " ++ ver in
     let prevText := match prev with Some q => q | None => "None" end in
     let tagRange := relName ++ "_" ++ prevText ++ ".."
                             ++ relName ++ "_" ++ ver in
     let remRepo := "slaclab/" ++ proj in
     ((if gh_get_repo u p remRepo then ret tt
       else raise GithubException) ;;;
      md <- lift (getReleaseNotes (project args) remRepo tagRange) ;;
      create_git_release {| gr_repo := remRepo; gr_tag := tag;
                            gr_name := msg; gr_message := md;
                            gr_assets := [] |} ;;;
      upload_assets tag tagAttach)%py (tagged w c2 tag msg)).
Proof.
  intros Hurl Hs Hd Hfresh Hname Hpush Hu Hp. unfold git_url in Hs.
  unfold pushRelease.
  unfold bind at 1. rewrite Hurl.
  unfold bind at 1. rewrite Hs. unfold ret at 1.
  unfold bind at 1. rewrite Hd.
  unfold bind at 1. unfold create_tag at 1. simpl w_tags.
  rewrite Hfresh, Hname. cbn [orb negb].
  unfold bind at 1. unfold push_tag at 1. cbn [w_services].
  unfold tagged.
  destruct (push_answer (w_services w) (relName ++ "_" ++ ver));
    [| |congruence];
    cbv zeta; unfold bind at 1;
    (destruct Hu as [[Eu Hc1]|[Eu Hc1]]; rewrite Eu;
     [ unfold ret at 1; unfold bind at 1;
       destruct Hp as [[Ep Hc2]|[Ep Hc2]]; rewrite Ep;
       [ unfold ret at 1; subst; simpl; reflexivity
       | unfold world_input, input; simpl w_console; rewrite <- Hc1, Hc2;
         simpl; reflexivity ]
     | unfold world_input at 1; unfold input at 1; simpl w_console;
       rewrite Hc1; unfold bind at 1;
       destruct Hp as [[Ep Hc2]|[Ep Hc2]]; rewrite Ep;
       [ unfold ret at 1; subst; simpl; reflexivity
       | unfold world_input, input; simpl w_console; rewrite Hc2;
         simpl; reflexivity ] ]).
Qed.

(** Lines 364-379 when git refuses the tag name, and when the push
    raises. *)
Lemma pushRelease_tag_refused relName ver tagAttach prev w url proj :
  w_url w = Some url ->
  search_name (git_url url) = Some proj ->
  w_dirty w = false ->
  tag_name_ok (w_services w) (relName ++ "_" ++ ver) = false ->
  pushRelease args gh_get_repo getReleaseNotes relName ver tagAttach prev w
  = (Raise GitCommandError, w).
Proof.
  intros Hurl Hs Hd Hname. unfold git_url in Hs.
  unfold pushRelease.
  unfold bind at 1. rewrite Hurl.
  unfold bind at 1. rewrite Hs. unfold ret at 1.
  unfold bind at 1. rewrite Hd.
  unfold bind at 1. unfold create_tag at 1.
  rewrite Hname. cbn [negb]. now rewrite orb_true_r.
Qed.

Lemma pushRelease_push_fails relName ver tagAttach prev w url proj :
  w_url w = Some url ->
  search_name (git_url url) = Some proj ->
  w_dirty w = false ->
  Py.mem (relName ++ "_" ++ ver) (map fst (w_tags w)) = false ->
  tag_name_ok (w_services w) (relName ++ "_" ++ ver) = true ->
  push_answer (w_services w) (relName ++ "_" ++ ver) = PushFails ->
  pushRelease args gh_get_repo getReleaseNotes relName ver tagAttach prev w
  = (Raise GitCommandError,
     tag_created w (relName ++ "_" ++ ver) (relName ++ " version " ++ ver)).
Proof.
  intros Hurl Hs Hd Hfresh Hname Hpush. unfold git_url in Hs.
  unfold pushRelease.
  unfold bind at 1. rewrite Hurl.
  unfold bind at 1. rewrite Hs. unfold ret at 1.
  unfold bind at 1. rewrite Hd.
  unfold bind at 1. unfold create_tag at 1. simpl w_tags.
  rewrite Hfresh, Hname. cbn [orb negb].
  unfold bind at 1. unfold push_tag at 1. cbn [w_services].
  now rewrite Hpush.
Qed.

End PublishSteps.

(** X17: on a clean tree, with a remote under slaclab/, a tag that does
    not exist yet, that git makes and whose push returns, no release for
    it yet, credentials the hosting service accepts, release notes
    generated, and a hosting service that makes the release and takes
    every attachment, [pushRelease] creates the tag [{relName}_{ver}]
    with the message [{relName} version {ver}] and adds one release with
    that tag, title and notes, holding the attachments in the order of
    the list; a missing user name or password is the next line of the
    console.  The tag is on the remote when the remote took the push; a
    push the remote refused is not noticed: the release is made all the
    same, for a tag the remote does not have. *)
Theorem pushRelease_publishes
        (args : Args)
        (gh_get_repo : string -> string -> string -> bool)
        (getReleaseNotes : string -> string -> string -> result string)
        (relName ver : string) (tagAttach : list string)
        (prev : option string) (w : World)
        (url proj u p md : string) (c1 c2 : console) :
  let tag := relName ++ "_" ++ ver in
  let msg := relName ++ " version " ++ ver in
  let prevText := match prev with Some q => q | None => "None" end in
  let tagRange := relName ++ "_" ++ prevText ++ ".."
                          ++ relName ++ "_" ++ ver in
  w_url w = Some url ->
  search_name (git_url url) = Some proj ->
  w_dirty w = false ->
  Py.mem tag (map fst (w_tags w)) = false ->
  tag_name_ok (w_services w) tag = true ->
  push_answer (w_services w) tag <> PushFails ->
  Forall (fun r => gr_tag r <> tag) (w_releases w) ->
  given_or_read (user args) (w_console w) u c1 ->
  given_or_read (password args) c1 p c2 ->
  gh_get_repo u p ("slaclab/" ++ proj) = true ->
  getReleaseNotes (project args) ("slaclab/" ++ proj) tagRange = Ok md ->
  release_answer (w_services w) tag = Ok tt ->
  Forall (fun t => asset_answer (w_services w) tag t = Ok tt) tagAttach ->
  pushRelease args gh_get_repo getReleaseNotes relName ver tagAttach prev w
  = (Ok tt,
     {| w_console := c2; w_url := w_url w; w_dirty := w_dirty w;
        w_tags := (w_tags w ++ [(tag, msg)])%list;
        w_pushed := match push_answer (w_services w) tag with
                    | Pushed => (w_pushed w ++ [tag])%list
                    | _ => w_pushed w
                    end;
        w_releases :=
          (w_releases w
             ++ [{| gr_repo := "slaclab/" ++ proj; gr_tag := tag;
                    gr_name := msg; gr_message := md;
                    gr_assets := tagAttach |}])%list;
        w_services := w_services w |}).
Proof.
  intros tag msg prevText tagRange Hurl Hs Hd Hfresh Hname Hpush Hold Hu Hp
         Hgh Hmd Hrel Hup.
  subst tag msg prevText tagRange.
  rewrite (pushRelease_tagged args gh_get_repo getReleaseNotes relName ver
             tagAttach prev w url proj u p c1 c2 Hurl Hs Hd Hfresh Hname
             Hpush Hu Hp).
  cbv zeta.
  rewrite Hgh. unfold bind at 1. unfold ret at 1.
  unfold bind at 1. unfold lift at 1. rewrite Hmd.
  unfold bind at 1. unfold create_git_release at 1.
  cbn [gr_tag tagged w_services]. rewrite Hrel.
  rewrite (upload_assets_spec
             (relName ++ "_" ++ ver) tagAttach _ (w_releases w)
             {| gr_repo := "slaclab/" ++ proj;
                gr_tag := relName ++ "_" ++ ver;
                gr_name := relName ++ " version " ++ ver;
                gr_message := md; gr_assets := [] |});
    auto.
Qed.

Lemma pushRelease_publishes_witness :
  pushRelease Sample.args (fun _ _ _ => true) (fun _ _ _ => Ok "notes")
              "r" "v1" ["a.bit"; "a.zip"] (Some "v0") PushSample.clean
  = (Ok tt,
     {| w_console := []; w_url := w_url PushSample.clean;
        w_dirty := w_dirty PushSample.clean;
        w_tags := (w_tags PushSample.clean
                     ++ [("r_v1", "r version v1")])%list;
        w_pushed := (w_pushed PushSample.clean ++ ["r_v1"])%list;
        w_releases :=
          (w_releases PushSample.clean
             ++ [{| gr_repo := "slaclab/ruckus";
                    gr_tag := "r_v1";
                    gr_name := "r version v1";
                    gr_message := "notes";
                    gr_assets := ["a.bit"; "a.zip"] |}])%list;
        w_services := willing |}).
Proof.
  apply (pushRelease_publishes
           Sample.args (fun _ _ _ => true) (fun _ _ _ => Ok "notes")
           "r" "v1" ["a.bit"; "a.zip"] (Some "v0") PushSample.clean
           "https://github.com/slaclab/ruckus" "ruckus" "me" "secret"
           "notes" ["secret"] []).
  - reflexivity.
  - reflexivity.
  - reflexivity.
  - reflexivity.
  - reflexivity.
  - discriminate.
  - constructor.
  - right. split; reflexivity.
  - right. split; reflexivity.
  - reflexivity.
  - reflexivity.
  - reflexivity.
  - repeat constructor.
Defined.

(** A push the remote refuses is not noticed: the release is published
    for a tag that is not on the remote. *)
Example pushRelease_refused_push_unnoticed :
  let '(r, w) :=
    pushRelease Sample.args (fun _ _ _ => true) (fun _ _ _ => Ok "notes")
                "r" "v1" ["a.zip"] (Some "v0") PushSample.refusing in
  r = Ok tt
  /\ w_pushed w = ["r_v0"]
  /\ map gr_tag (w_releases w) = ["r_v1"].
Proof. vm_compute. repeat split. Qed.

(** X18: nothing is rolled back.  For a tag that does not exist yet, on a
    clean tree with a remote under slaclab/: when git refuses the tag
    name, [pushRelease] raises with nothing changed; when the push
    raises, the tag stays in the local repository; when the push returns
    and then the hosting service refuses the repository, the release
    notes cannot be generated, or the service does not make the release,
    [pushRelease] raises with the tag created, on the remote if the
    remote took it, and no release made. *)
Theorem pushRelease_keeps_tag_on_failure
        (args : Args)
        (gh_get_repo : string -> string -> string -> bool)
        (getReleaseNotes : string -> string -> string -> result string)
        (relName ver : string) (tagAttach : list string)
        (prev : option string) (w : World)
        (url proj u p : string) (c1 c2 : console) :
  let tag := relName ++ "_" ++ ver in
  let msg := relName ++ " version " ++ ver in
  let prevText := match prev with Some q => q | None => "None" end in
  let tagRange := relName ++ "_" ++ prevText ++ ".."
                          ++ relName ++ "_" ++ ver in
  w_url w = Some url ->
  search_name (git_url url) = Some proj ->
  w_dirty w = false ->
  Py.mem tag (map fst (w_tags w)) = false ->
  (tag_name_ok (w_services w) tag = false ->
   pushRelease args gh_get_repo getReleaseNotes relName ver tagAttach prev w
   = (Raise GitCommandError, w))
  /\ (tag_name_ok (w_services w) tag = true ->
      push_answer (w_services w) tag = PushFails ->
      pushRelease args gh_get_repo getReleaseNotes relName ver tagAttach
                  prev w
      = (Raise GitCommandError, tag_created w tag msg))
  /\ (tag_name_ok (w_services w) tag = true ->
      push_answer (w_services w) tag <> PushFails ->
      given_or_read (user args) (w_console w) u c1 ->
      given_or_read (password args) c1 p c2 ->
      (gh_get_repo u p ("slaclab/" ++ proj) = false ->
       pushRelease args gh_get_repo getReleaseNotes relName ver tagAttach
                   prev w
       = (Raise GithubException, tagged w c2 tag msg))
      /\ (forall e,
             gh_get_repo u p ("slaclab/" ++ proj) = true ->
             getReleaseNotes (project args) ("slaclab/" ++ proj) tagRange
             = Raise e ->
             pushRelease args gh_get_repo getReleaseNotes relName ver
                         tagAttach prev w
             = (Raise e, tagged w c2 tag msg))
      /\ (forall md e,
             gh_get_repo u p ("slaclab/" ++ proj) = true ->
             getReleaseNotes (project args) ("slaclab/" ++ proj) tagRange
             = Ok md ->
             release_answer (w_services w) tag = Raise e ->
             pushRelease args gh_get_repo getReleaseNotes relName ver
                         tagAttach prev w
             = (Raise e, tagged w c2 tag msg))).
Proof.
  intros tag msg prevText tagRange Hurl Hs Hd Hfresh.
  subst tag msg prevText tagRange. split; [|split].
  - intros Hname.
    now apply (pushRelease_tag_refused args gh_get_repo getReleaseNotes
                 relName ver tagAttach prev w url proj).
  - intros Hname Hpush.
    now apply (pushRelease_push_fails args gh_get_repo getReleaseNotes
                 relName ver tagAttach prev w url proj).
  - intros Hname Hpush Hu Hp.
    rewrite (pushRelease_tagged args gh_get_repo getReleaseNotes relName ver
               tagAttach prev w url proj u p c1 c2 Hurl Hs Hd Hfresh Hname
               Hpush Hu Hp).
    cbv zeta. split; [|split].
    + intros Hgh. rewrite Hgh. reflexivity.
    + intros e Hgh Hmd. rewrite Hgh. unfold bind at 1. unfold ret at 1.
      unfold bind at 1. unfold lift at 1. now rewrite Hmd.
    + intros md e Hgh Hmd Hrel. rewrite Hgh. unfold bind at 1.
      unfold ret at 1. unfold bind at 1. unfold lift at 1. rewrite Hmd.
      unfold bind at 1. unfold create_git_release at 1.
      cbn [gr_tag tagged w_services]. now rewrite Hrel.
Qed.

Lemma pushRelease_keeps_tag_on_failure_witness :
  pushRelease Sample.args (fun _ _ _ => false) (fun _ _ _ => Ok "notes")
              "r" "v1" ["a.zip"] (Some "v0") PushSample.clean
  = (Raise GithubException,
     tagged PushSample.clean [] "r_v1" "r version v1")
  /\ pushRelease Sample.args (fun _ _ _ => false) (fun _ _ _ => Ok "notes")
                 "r" "v1" ["a.zip"] (Some "v0") PushSample.refusing
     = (Raise GithubException,
        tagged PushSample.refusing [] "r_v1" "r version v1")
  /\ w_pushed (tagged PushSample.refusing [] "r_v1" "r version v1")
     = ["r_v0"].
Proof.
  split; [|split].
  - apply (proj1 (proj2 (proj2 (pushRelease_keeps_tag_on_failure
                    Sample.args (fun _ _ _ => false) (fun _ _ _ => Ok "notes")
                    "r" "v1" ["a.zip"] (Some "v0") PushSample.clean
                    "https://github.com/slaclab/ruckus" "ruckus" "me" "secret"
                    ["secret"] []
                    eq_refl eq_refl eq_refl eq_refl))
                  eq_refl
                  ltac:(discriminate)
                  (or_intror (conj eq_refl eq_refl))
                  (or_intror (conj eq_refl eq_refl)))).
    reflexivity.
  - apply (proj1 (proj2 (proj2 (pushRelease_keeps_tag_on_failure
                    Sample.args (fun _ _ _ => false) (fun _ _ _ => Ok "notes")
                    "r" "v1" ["a.zip"] (Some "v0") PushSample.refusing
                    "https://github.com/slaclab/ruckus" "ruckus" "me" "secret"
                    ["secret"] []
                    eq_refl eq_refl eq_refl eq_refl))
                  eq_refl
                  ltac:(discriminate)
                  (or_intror (conj eq_refl eq_refl))
                  (or_intror (conj eq_refl eq_refl)))).
    reflexivity.
  - reflexivity.
Defined.

(** X19: a remote whose url, with [.git] added when missing, has no
    [slaclab/] in it stops [pushRelease] with AttributeError at line 369,
    on a clean tree as on a dirty one, before anything is changed. *)
Theorem pushRelease_remote_outside_slaclab
        (args : Args)
        (gh_get_repo : string -> string -> string -> bool)
        (getReleaseNotes : string -> string -> string -> result string)
        (relName ver : string) (tagAttach : list string)
        (prev : option string) (w : World) (url : string) :
  w_url w = Some url ->
  PyStr.contains "slaclab/" (git_url url) = false ->
  pushRelease args gh_get_repo getReleaseNotes relName ver tagAttach prev w
  = (Raise AttributeError, w).
Proof.
  intros Hurl Hc. apply search_name_absent in Hc. unfold git_url in Hc.
  unfold pushRelease. unfold bind at 1. rewrite Hurl.
  unfold bind at 1. now rewrite Hc.
Qed.

Lemma pushRelease_remote_outside_slaclab_witness :
  pushRelease Sample.args (fun _ _ _ => true) (fun _ _ _ => Ok "notes")
              "r" "v1" ["a.zip"] (Some "v0")
              {| w_console := []; w_url := Some "git@host:me/fork.git";
                 w_dirty := false; w_tags := []; w_pushed := [];
                 w_releases := []; w_services := willing |}
  = (Raise AttributeError,
     {| w_console := []; w_url := Some "git@host:me/fork.git";
        w_dirty := false; w_tags := []; w_pushed := [];
        w_releases := []; w_services := willing |}).
Proof.
  apply (pushRelease_remote_outside_slaclab
           Sample.args (fun _ _ _ => true) (fun _ _ _ => Ok "notes")
           "r" "v1" ["a.zip"] (Some "v0")
           {| w_console := []; w_url := Some "git@host:me/fork.git";
              w_dirty := false; w_tags := []; w_pushed := [];
              w_releases := []; w_services := willing |}
           "git@host:me/fork.git");
    reflexivity.
Defined.

(** X20: the project name the regular expression of line 369 finds is a
    text of the url that directly follows an occurrence of [slaclab/]
    and is directly followed by [.gi]; it holds no line break and no
    [.gi] (the match is the shortest one). *)
Theorem search_name_sound (url name : string) :
  search_name url = Some name ->
  (exists pre post, url = pre ++ "slaclab/" ++ name ++ ".gi" ++ post)
  /\ PyStr.contains nl name = false
  /\ PyStr.contains ".gi" name = false.
Proof.
  intros H. split; [now apply search_name_inv|].
  induction url as [|c url IH]; [discriminate|].
  cbn [search_name] in H.
  destruct (strip_prefix "slaclab/" (String c url)) as [rest|];
    [|now apply IH].
  destruct (match_name rest) as [n|] eqn:Em; [|now apply IH].
  injection H as ->. now apply match_name_inv in Em.
Qed.

Lemma search_name_sound_witness :
  (exists pre post,
      "https://github.com/slaclab/surf.gitlab.git"
      = pre ++ "slaclab/" ++ "surf" ++ ".gi" ++ post)
  /\ PyStr.contains nl "surf" = false
  /\ PyStr.contains ".gi" "surf" = false.
Proof.
  apply (search_name_sound "https://github.com/slaclab/surf.gitlab.git"
                           "surf").
  reflexivity.
Defined.

(** ** The main program *)

Section MainFacts.

Variable args : Args.
Variable fs : string -> option node.
Variable fs_zip : string -> option node.
Variable yaml_load : string -> option (yaml ReleaseConfig).
Variable py_int : string -> option Z.
Variable gh_get_repo : string -> string -> string -> bool.
Variable getReleaseNotes : string -> string -> string -> result string.

Lemma bind_inv {S A B} (m : M S A) (k : A -> M S B) s r s' :
  bind m k s = (r, s') ->
  (exists e, m s = (Raise e, s') /\ r = Raise e)
  \/ (exists a s1, m s = (Ok a, s1) /\ k a s1 = (r, s')).
Proof.
  unfold bind. destruct (m s) as [[a|e] s1].
  - intros H. right. now exists a, s1.
  - intros H. injection H as <- <-. left. now exists e.
Qed.

Lemma same_repo_refl s : same_repo s s.
Proof. unfold same_repo. tauto. Qed.

Lemma same_repo_trans s1 s2 s3 :
  same_repo s1 s2 -> same_repo s2 s3 -> same_repo s1 s3.
Proof. unfold same_repo. intuition congruence. Qed.

Lemma on_console_same_repo {A} (m : M console A) s r s' :
  on_console m s = (r, s') -> same_repo s s'.
Proof.
  unfold on_console. destruct (m (w_console (m_world s))) as [x c].
  intros H. injection H as _ <-. unfold same_repo. simpl. tauto.
Qed.

Lemma on_console_inv {A} (m : M console A) s r s' :
  on_console m s = (r, s') ->
  exists c, m (w_console (m_world s)) = (r, c) /\ s' = with_console s c.
Proof.
  unfold on_console. destruct (m (w_console (m_world s))) as [x c].
  intros H. injection H as <- <-. now exists c.
Qed.

Lemma with_console_same_repo s c : same_repo s (with_console s c).
Proof. unfold same_repo. simpl. tauto. Qed.

Lemma with_console_twice s c1 c2 :
  with_console (with_console s c1) c2 = with_console s c2.
Proof. reflexivity. Qed.

Lemma on_file_world {A} name (m : M (option (list member)) A) s r s' :
  on_file name m s = (r, s') -> m_world s' = m_world s.
Proof.
  unfold on_file. destruct (m (Py.get (m_files s) name)) as [x f].
  intros H. now injection H as _ <-.
Qed.

Lemma get_dict_set_other {V} (d : Py.dict V) (k k' : string) (v : V) :
  k' <> k -> Py.get (dict_set d k v) k' = Py.get d k'.
Proof.
  intros Hne. induction d as [|[k0 v0] d IH]; simpl.
  - destruct (String.eqb_spec k' k); [contradiction|reflexivity].
  - destruct (String.eqb_spec k k0) as [->|Hk]; simpl.
    + destruct (String.eqb_spec k' k0); [contradiction|reflexivity].
    + destruct (String.eqb_spec k' k0); [reflexivity|exact IH].
Qed.

Lemma get_dict_set_same {V} (d : Py.dict V) (k : string) (v : V) :
  Py.get (dict_set d k v) k = Some v.
Proof.
  induction d as [|[k0 v0] d IH]; simpl.
  - now rewrite String.eqb_refl.
  - destruct (String.eqb_spec k k0) as [->|Hk]; simpl.
    + now rewrite String.eqb_refl.
    + destruct (String.eqb_spec k k0); [contradiction|exact IH].
Qed.

Lemma on_file_other {A} name (m : M (option (list member)) A) s r s' :
  on_file name m s = (r, s') ->
  forall name', name' <> name ->
                Py.get (m_files s') name' = Py.get (m_files s) name'.
Proof.
  unfold on_file. destruct (m (Py.get (m_files s) name)) as [x f].
  intros H name' Hne. injection H as _ <-. simpl.
  destruct f; [now apply get_dict_set_other|reflexivity].
Qed.

Lemma has_type_inv {S} relData t (s : S) r s' :
  @has_type S relData t s = (r, s') ->
  s' = s
  /\ ((exists types, rel_Types relData = Val types
                     /\ r = Ok (Py.mem t types))
      \/ (exists e, r = Raise e /\ missing (rel_Types relData) = true)).
Proof.
  unfold has_type.
  destruct (rel_Types relData) as [| |types]; intros H;
    injection H as <- <-; split; try reflexivity; eauto.
Qed.

(** Lines 417-429 in terms of the two builders. *)
Lemma build_archives_world cfg relName relData imgList ver s r s' :
  build_archives args fs fs_zip cfg relName relData imgList ver s = (r, s') ->
  m_world s' = m_world s.
Proof.
  unfold build_archives. cbv zeta. intros H.
  apply bind_inv in H. destruct H as [(e & H & _)|(rogue & s1 & H1 & H)].
  { apply has_type_inv in H. destruct H as [-> _]. reflexivity. }
  apply has_type_inv in H1. destruct H1 as [-> _].
  apply bind_inv in H. destruct H as [(e & H & _)|(ta & s2 & H2 & H)].
  { destruct rogue; [|discriminate].
    apply bind_inv in H. destruct H as [(e' & H & _)|(x & s3 & H3 & H)].
    - now apply on_file_world in H.
    - discriminate. }
  assert (Hw2 : m_world s2 = m_world s).
  { destruct rogue.
    - apply bind_inv in H2.
      destruct H2 as [(e' & H2 & E)|(x & s3 & H3 & H2)]; [discriminate|].
      injection H2 as _ <-. now apply on_file_world in H3.
    - now injection H2 as _ <-. }
  apply bind_inv in H. destruct H as [(e & H & _)|(cpsw & s3 & H3 & H)].
  { apply has_type_inv in H. destruct H as [-> _]. exact Hw2. }
  apply has_type_inv in H3. destruct H3 as [-> _].
  destruct cpsw.
  - apply bind_inv in H.
    destruct H as [(e' & H & _)|(x & s4 & H4 & H)].
    + apply on_file_world in H. congruence.
    + injection H as _ <-. apply on_file_world in H4. congruence.
  - injection H as _ <-. exact Hw2.
Qed.

End MainFacts.

(** X21: a run changes the repository and the hosting service through
    [pushRelease] alone, and calls it only with [--push], once the
    configuration is loaded, the release is selected from the console as
    it was at the start, the images are selected from what is left of
    the console, the version is read from what is left then, and every
    archive the release asks for is built with exactly these: in every
    other run, failed or not, the tags, the pushed tags and the releases
    are what they were. *)
Theorem main_changes_repository_by_push_only
        (args : Args) (fs fs_zip : string -> option node)
        (yaml_load : string -> option (yaml ReleaseConfig))
        (py_int : string -> option Z)
        (gh_get_repo : string -> string -> string -> bool)
        (getReleaseNotes : string -> string -> string -> result string)
        (s s' : Machine) (r : result unit) :
  main args fs fs_zip yaml_load py_int gh_get_repo getReleaseNotes s
  = (r, s') ->
  (push args = None -> same_repo s s')
  /\ (same_repo s s'
      \/ exists cfg relName relData imgList ver prev tagAttach c1 c2 c3 s2,
          push args <> None
          /\ loadReleaseConfig args fs yaml_load = Ok cfg
          /\ selectRelease args py_int cfg (w_console (m_world s))
             = (Ok (relName, relData), c1)
          /\ selectBuildImages args fs py_int cfg relName relData c1
             = (Ok imgList, c2)
          /\ getVersion args c2 = (Ok (ver, prev), c3)
          /\ build_archives args fs fs_zip cfg relName relData imgList ver
                            (with_console s c3)
             = (Ok tagAttach, s2)
          /\ pushRelease args gh_get_repo getReleaseNotes relName ver
                         tagAttach prev (m_world s2)
             = (r, m_world s')
          /\ m_files s' = m_files s2).
Proof.
  unfold main. intros H.
  assert (Hstop : forall P : Prop, same_repo s s' ->
            (push args = None -> same_repo s s') /\ (same_repo s s' \/ P)).
  { intros P Hx. split; [intros _; exact Hx|now left]. }
  apply bind_inv in H. destruct H as [(e & H & _)|(cfg & s0 & H0 & H)].
  { unfold lift in H. injection H as _ <-. apply Hstop, same_repo_refl. }
  unfold lift in H0. injection H0 as Hcfg <-.
  apply bind_inv in H.
  destruct H as [(e & H & _)|([relName relData] & s1 & H1 & H)].
  { apply Hstop. now apply on_console_same_repo in H. }
  apply on_console_inv in H1. destruct H1 as (c1 & H1 & ->).
  apply bind_inv in H. destruct H as [(e & H & _)|(imgList & s2 & H2 & H)].
  { apply on_console_inv in H. destruct H as (c & _ & E).
    rewrite with_console_twice in E. subst s'.
    apply Hstop, with_console_same_repo. }
  apply on_console_inv in H2. destruct H2 as (c2 & H2 & ->).
  rewrite with_console_twice in H.
  cbn [with_console m_world w_console] in H2.
  apply bind_inv in H. destruct H as [(e & H & _)|([ver prev] & s3 & H3 & H)].
  { apply on_console_inv in H. destruct H as (c & _ & E).
    rewrite with_console_twice in E. subst s'.
    apply Hstop, with_console_same_repo. }
  apply on_console_inv in H3. destruct H3 as (c3 & H3 & ->).
  rewrite with_console_twice in H.
  cbn [with_console m_world w_console] in H3.
  apply bind_inv in H. destruct H as [(e & H & _)|(tagAttach & s4 & H4 & H)].
  { apply Hstop. apply build_archives_world in H.
    pose proof (with_console_same_repo s c3) as R.
    unfold same_repo in *. rewrite H. exact R. }
  assert (Hs4 : same_repo s s4).
  { pose proof (build_archives_world _ _ _ _ _ _ _ _ _ _ _ H4) as E.
    pose proof (with_console_same_repo s c3) as R.
    unfold same_repo in *. rewrite E. exact R. }
  destruct (push args) as [n|] eqn:Ep.
  - split; [discriminate|]. right.
    exists cfg, relName, relData, imgList, ver, prev, tagAttach, c1, c2, c3, s4.
    split; [discriminate|]. split; [exact Hcfg|]. split; [exact H1|].
    split; [exact H2|]. split; [exact H3|]. split; [exact H4|].
    unfold on_world in H.
    destruct (pushRelease args gh_get_repo getReleaseNotes relName ver
                          tagAttach prev (m_world s4)) as [x w].
    injection H as <- <-. split; reflexivity.
  - unfold ret in H. injection H as _ <-. now apply Hstop.
Qed.

(** X22: when the archives are built the attachments are the images,
    then the zip file if the release has the type Rogue, then the tarball
    if it has the type CPSW, the two named
    [rogue_{relName}_{ver}.zip] and [cpsw_{relName}_{ver}.tar.gz] in the
    firmware directory; a release with neither type writes no file. *)
Theorem build_archives_attachments
        (args : Args) (fs fs_zip : string -> option node)
        (cfg : ReleaseConfig) (relName : string) (relData : ReleaseDef)
        (imgList : list string) (ver : string) (s : Machine) :
  (forall tagAttach s',
      build_archives args fs fs_zip cfg relName relData imgList ver s
      = (Ok tagAttach, s') ->
      exists types,
        rel_Types relData = Val types
        /\ tagAttach
           = (imgList
                ++ (if Py.mem "Rogue" types
                    then [zipName_of args relName ver] else [])
                ++ (if Py.mem "CPSW" types
                    then [tarName_of args relName ver] else []))%list)
  /\ (forall types,
         rel_Types relData = Val types ->
         Py.mem "Rogue" types = false ->
         Py.mem "CPSW" types = false ->
         build_archives args fs fs_zip cfg relName relData imgList ver s
         = (Ok imgList, s)).
Proof.
  split.
  - intros tagAttach s' H. unfold build_archives in H. cbv zeta in H.
    apply bind_ok_inv in H. destruct H as (rogue & s1 & H1 & H).
    unfold has_type in H1, H.
    destruct (rel_Types relData) as [| |types]; try discriminate.
    apply ret_ok_inv in H1. destruct H1 as [<- ->].
    exists types. split; [reflexivity|].
    apply bind_ok_inv in H. destruct H as (ta & s2 & H2 & H).
    apply bind_ok_inv in H. destruct H as (cpsw & s3 & H3 & H).
    apply ret_ok_inv in H3. destruct H3 as [<- ->].
    assert (Eta : ta = (imgList ++ (if Py.mem "Rogue" types
                                    then [zipName_of args relName ver]
                                    else []))%list).
    { destruct (Py.mem "Rogue" types).
      - apply bind_ok_inv in H2. destruct H2 as (x & s4 & _ & H2).
        apply ret_ok_inv in H2. now destruct H2 as [<- _].
      - apply ret_ok_inv in H2. destruct H2 as [<- _].
        now rewrite app_nil_r. }
    subst ta.
    destruct (Py.mem "CPSW" types).
    + apply bind_ok_inv in H. destruct H as (x & s4 & _ & H).
      apply ret_ok_inv in H. destruct H as [<- _].
      now rewrite <- app_assoc.
    + apply ret_ok_inv in H. destruct H as [<- _].
      now rewrite app_nil_r.
  - intros types Ht Hr Hc. unfold build_archives, has_type. rewrite Ht.
    cbv zeta. unfold bind at 1. unfold ret at 1. rewrite Hr.
    unfold bind at 1. unfold ret at 1.
    unfold bind at 1. unfold ret at 1. now rewrite Hc.
Qed.

Lemma main_changes_repository_by_push_only_witness :
  (push MainSample.args = None
   -> same_repo MainSample.start (snd MainSample.run))
  /\ (same_repo MainSample.start (snd MainSample.run)
      \/ exists cfg relName relData imgList ver prev tagAttach c1 c2 c3 s2,
          push MainSample.args <> None
          /\ loadReleaseConfig MainSample.args Project.fs sample_yaml = Ok cfg
          /\ selectRelease MainSample.args Sample.to_int cfg
                           (w_console (m_world MainSample.start))
             = (Ok (relName, relData), c1)
          /\ selectBuildImages MainSample.args Project.fs Sample.to_int cfg
                               relName relData c1
             = (Ok imgList, c2)
          /\ getVersion MainSample.args c2 = (Ok (ver, prev), c3)
          /\ build_archives MainSample.args Project.fs Project.fs cfg
                            relName relData imgList ver
                            (with_console MainSample.start c3)
             = (Ok tagAttach, s2)
          /\ pushRelease MainSample.args (fun _ _ _ => true)
                         (fun _ _ _ => Ok "notes") relName ver tagAttach
                         prev (m_world s2)
             = (fst MainSample.run, m_world (snd MainSample.run))
          /\ m_files (snd MainSample.run) = m_files s2).
Proof.
  apply (main_changes_repository_by_push_only
           MainSample.args Project.fs Project.fs
           sample_yaml Sample.to_int
           (fun _ _ _ => true) (fun _ _ _ => Ok "notes")
           MainSample.start (snd MainSample.run) (fst MainSample.run)).
  vm_compute. reflexivity.
Defined.

(** The sample run publishes the release with the two images, the zip
    file and the tarball, in this order. *)
Example main_sample_run :
  fst MainSample.run = Ok tt
  /\ map gr_assets (w_releases (m_world (snd MainSample.run)))
     = [["p/firmware/targets/fw/images/fw_1.bit";
         "p/firmware/targets/fw/images/fw_1.mcs";
         "p/firmware/rogue_r_v1.zip";
         "p/firmware/cpsw_r_v1.tar.gz"]]
  /\ map fst (m_files (snd MainSample.run))
     = ["p/firmware/rogue_r_v1.zip"; "p/firmware/cpsw_r_v1.tar.gz"].
Proof. vm_compute. repeat split. Qed.

Lemma build_archives_attachments_witness :
  exists types,
    rel_Types Sample.relData = Val types
    /\ fst (build_archives MainSample.args Project.fs Project.fs
                           Project.cfg "r" Sample.relData Project.imgList
                           "v1" MainSample.start)
       = Ok (Project.imgList
               ++ (if Py.mem "Rogue" types
                   then [zipName_of MainSample.args "r" "v1"] else [])
               ++ (if Py.mem "CPSW" types
                   then [tarName_of MainSample.args "r" "v1"] else []))%list.
Proof.
  destruct (proj1 (build_archives_attachments
                     MainSample.args Project.fs Project.fs Project.cfg "r"
                     Sample.relData Project.imgList "v1" MainSample.start)
                  (Project.imgList
                     ++ [zipName_of MainSample.args "r" "v1";
                         tarName_of MainSample.args "r" "v1"])%list
                  (snd (build_archives MainSample.args Project.fs Project.fs
                                       Project.cfg "r" Sample.relData
                                       Project.imgList "v1"
                                       MainSample.start)))
    as (types & Ht & E).
  - vm_compute. reflexivity.
  - exists types. split; [exact Ht|]. rewrite <- E. vm_compute. reflexivity.
Defined.

Section ArchiveSequence.

Variable args : Args.

Lemma zipName_not_tarName (relName ver : string) :
  tarName_of args relName ver <> zipName_of args relName ver.
Proof.
  unfold tarName_of, zipName_of, OsPath.join, PyStr.startswith, OsPath.sep.
  cbn [String.prefix append].
  destruct (ascii_dec "/" "c") as [E|_]; [discriminate|].
  destruct (ascii_dec "/" "r") as [E|_]; [discriminate|].
  destruct (orb _ _); intros C; apply append_inv_head in C; discriminate.
Qed.

End ArchiveSequence.

(** X23: a failure of the zip build ends the building of archives with
    the same exception: the tarball is not written (what is at its path
    stays as it was), and the repository and the console are as before. *)
Theorem build_archives_stops_at_rogue_failure
        (args : Args) (fs fs_zip : string -> option node)
        (cfg : ReleaseConfig) (relName : string) (relData : ReleaseDef)
        (imgList : list string) (ver : string) (s : Machine)
        (types : list string) (e : exn) (f : option (list member)) :
  rel_Types relData = Val types ->
  Py.mem "Rogue" types = true ->
  buildRogueFile args fs (zipName_of args relName ver) cfg ver relName
                 relData imgList
                 (Py.get (m_files s) (zipName_of args relName ver))
  = (Raise e, f) ->
  exists s',
    build_archives args fs fs_zip cfg relName relData imgList ver s
    = (Raise e, s')
    /\ m_world s' = m_world s
    /\ Py.get (m_files s') (tarName_of args relName ver)
       = Py.get (m_files s) (tarName_of args relName ver).
Proof.
  intros Ht Hr Hb.
  unfold build_archives, has_type. rewrite Ht. cbv zeta.
  unfold bind at 1. unfold ret at 1. rewrite Hr.
  unfold bind at 1. unfold bind at 1.
  destruct (on_file (zipName_of args relName ver)
                    (buildRogueFile args fs (zipName_of args relName ver)
                                    cfg ver relName relData imgList) s)
    as [x s1] eqn:E.
  assert (Hx : x = Raise e).
  { unfold on_file in E. rewrite Hb in E. now injection E as <- _. }
  subst x. unfold zipName_of in E. rewrite E.
  exists s1. split; [reflexivity|].
  fold (zipName_of args relName ver) in E. split.
  - now apply on_file_world in E.
  - apply (on_file_other _ _ _ _ _ E). apply zipName_not_tarName.
Qed.

Lemma build_archives_stops_at_rogue_failure_witness :
  exists s',
    build_archives MainSample.args Project.fs Project.fs ProjectNoInit.cfg
                   "r" Sample.relData Project.imgList "v1" MainSample.start
    = (Raise TypeError, s')
    /\ m_world s' = m_world MainSample.start
    /\ Py.get (m_files s') (tarName_of MainSample.args "r" "v1")
       = Py.get (m_files MainSample.start)
                (tarName_of MainSample.args "r" "v1").
Proof.
  apply (build_archives_stops_at_rogue_failure
           MainSample.args Project.fs Project.fs ProjectNoInit.cfg "r"
           Sample.relData Project.imgList "v1" MainSample.start
           ["Rogue"; "CPSW"] TypeError
           (snd (buildRogueFile MainSample.args Project.fs
                   (zipName_of MainSample.args "r" "v1") ProjectNoInit.cfg
                   "v1" "r" Sample.relData Project.imgList None))).
  - reflexivity.
  - reflexivity.
  - vm_compute. reflexivity.
Defined.

(** ** Walking the file groups *)

Section WalkExact.

Variable args : Args.
Variable fs : string -> option node.

Lemma node_induction (P : node -> Prop) :
  (forall nm txt, P (File nm txt)) ->
  (forall nm ch, Forall P ch -> P (Dir nm ch)) ->
  forall n, P n.
Proof.
  intros HF HD. fix IH 1. intros [nm txt|nm ch].
  - apply HF.
  - apply HD. induction ch as [|c ch IHch]; constructor.
    + apply IH.
    + exact IHch.
Qed.

(** Every entry of a walk is the entry of a node below the directory
    walked. *)
Lemma walk_entries_sound base n :
  forall path e,
    In e (walk_entries base path n) ->
    exists p' n', under path n p' n' /\ e = entry_of base p' n'.
Proof.
  induction n as [nm txt|nm ch IH] using node_induction; intros path e He.
  - destruct He.
  - rewrite walk_entries_Dir in He.
    apply in_app_or in He. destruct He as [He|He].
    + apply in_app_or in He. destruct He as [He|He];
        unfold genFileList in He; apply in_map_iff in He;
        destruct He as (x & <- & Hx); apply in_map_iff in Hx;
        destruct Hx as (c & <- & Hc); apply filter_In in Hc;
        destruct Hc as [Hc Hd];
        exists (OsPath.join path (node_name c)), c;
        (split; [now constructor|]);
        unfold entry_of, kind_of.
      * now rewrite Hd.
      * apply negb_true_iff in Hd. now rewrite Hd.
    + apply in_flat_map in He. destruct He as (c & Hc & He).
      rewrite Forall_forall in IH.
      destruct (IH c Hc _ _ He) as (p' & n' & Hu & ->).
      exists p', n'. split; [|reflexivity].
      now apply (under_deeper path nm ch c).
Qed.

Lemma join_proper (path nm : string) :
  path <> "" -> PyStr.endswith "/" path = false ->
  PyStr.contains "/" nm = false ->
  OsPath.join path nm = path ++ "/" ++ nm.
Proof.
  intros Hp He Hn. unfold OsPath.join, PyStr.startswith, OsPath.sep.
  rewrite contains_unfold in Hn.
  destruct (String.prefix "/" nm); [discriminate|].
  destruct (String.eqb_spec path ""); [contradiction|].
  now rewrite He.
Qed.

Lemma endswith_sep_append (a x : string) :
  x <> "" -> PyStr.endswith "/" (a ++ x) = PyStr.endswith "/" x.
Proof.
  intros Hx. induction a as [|c a IH]; [reflexivity|].
  change (String c a ++ x) with (String c (a ++ x)).
  rewrite endswith_unfold, IH.
  destruct (String.eqb_spec (String c (a ++ x)) "/") as [E|_];
    [|reflexivity].
  injection E as _ E. destruct a; simpl in E; [contradiction|discriminate].
Qed.

Lemma endswith_sep_contains (x : string) :
  PyStr.endswith "/" x = true -> PyStr.contains "/" x = true.
Proof.
  intros H. apply endswith_inv in H. destruct H as (a & ->).
  rewrite <- (append_nil_r "/") at 2. apply contains_append.
Qed.

Lemma endswith_sep_proper (a nm : string) :
  proper_name nm -> PyStr.endswith "/" (a ++ "/" ++ nm) = false.
Proof.
  intros [Hne Hc].
  rewrite <- append_assoc, endswith_sep_append by exact Hne.
  destruct (PyStr.endswith "/" nm) eqn:E; [|reflexivity].
  apply endswith_sep_contains in E. congruence.
Qed.

Lemma under_of_below n rel n' :
  below n rel n' ->
  forall path,
    path <> "" -> PyStr.endswith "/" path = false ->
    (forall r m, below n r m -> proper_name (node_name m)) ->
    under path n (path ++ "/" ++ rel) n'.
Proof.
  induction 1 as [nm ch c Hc|nm ch c rel n' Hc Hb IH];
    intros path Hp He Hnames.
  - rewrite <- join_proper; auto.
    + now constructor.
    + apply (Hnames (node_name c) c). now constructor.
  - assert (Hpc : proper_name (node_name c)).
    { apply (Hnames (node_name c) c). now constructor. }
    apply (under_deeper path nm ch c); [exact Hc|].
    rewrite (join_proper path (node_name c)) by (auto; apply Hpc).
    replace (path ++ "/" ++ node_name c ++ "/" ++ rel)
      with ((path ++ "/" ++ node_name c) ++ "/" ++ rel)
      by (now rewrite !append_assoc).
    apply IH.
    + destruct path; [contradiction|discriminate].
    + now apply endswith_sep_proper.
    + intros r m Hrm. apply (Hnames (node_name c ++ "/" ++ r) m).
      now apply (below_deeper nm ch c).
Qed.

Lemma append_nonempty_l (a b : string) : a <> "" -> a ++ b <> "".
Proof. destruct a; [congruence|discriminate]. Qed.

Lemma append_nonempty_r (a b : string) : b <> "" -> a ++ b <> "".
Proof. destruct a; [now simpl|discriminate]. Qed.

Lemma join_nonempty (a b : string) : a <> "" -> OsPath.join a b <> "".
Proof.
  intros Ha. unfold OsPath.join, PyStr.startswith.
  destruct (String.prefix OsPath.sep b) eqn:E.
  - apply prefix_inv in E. destruct E as (r & ->). discriminate.
  - destruct (orb _ _); now apply append_nonempty_l.
Qed.

Lemma FirmwareDir_nonempty : FirmwareDir args <> "".
Proof.
  unfold FirmwareDir, OsPath.join, PyStr.startswith, OsPath.sep.
  cbn [String.prefix].
  destruct (ascii_dec "/" "f"); [discriminate|].
  destruct (orb _ _); apply append_nonempty_r; discriminate.
Qed.

End WalkExact.

(** X24: the entries of a file group are exactly the directories and
    files below the directories of the group that are there: each with
    the type of the node (folder or file), the path of the walk and the
    subPath computed from it. *)
Theorem selectFiles_exactly_nodes_below
        (args : Args) (fs : string -> option node)
        (cfg : ReleaseConfig) (relData : ReleaseDef) (key : string)
        (e : FileEntry) :
  In e (selectFiles args fs cfg relData key)
  <-> exists d n p' n',
      In d (group_dirs (cfg_group cfg key)
              ++ group_dirs (rel_group relData key))%list
      /\ fs (OsPath.join (FirmwareDir args) d) = Some n
      /\ under (OsPath.join (FirmwareDir args) d) n p' n'
      /\ e = entry_of (OsPath.join (FirmwareDir args) d) p' n'.
Proof.
  split.
  - unfold selectFiles. intros H. apply in_flat_map in H.
    destruct H as (d & Hd & H). unfold os_walk in H.
    destruct (fs (OsPath.join (FirmwareDir args) d)) as [n|] eqn:E;
      [|destruct H].
    apply (walk_entries_sound _ n) in H.
    destruct H as (p' & n' & Hu & ->). now exists d, n, p', n'.
  - intros (d & n & p' & n' & Hd & Hfs & Hu & ->).
    now apply (selectFiles_records_every_node args fs cfg relData key d n).
Qed.

(** X25: for a group directory written without a trailing separator, in
    a tree of proper file names, the node at the relative path [rel]
    below it is recorded with the full path [base/rel] and, unless
    [base/] occurs again inside [rel], with [rel] as its subPath. *)
Theorem selectFiles_subPath_is_relative_path
        (args : Args) (fs : string -> option node)
        (cfg : ReleaseConfig) (relData : ReleaseDef) (key d : string)
        (n n' : node) (rel : string) :
  let base := OsPath.join (FirmwareDir args) d in
  In d (group_dirs (cfg_group cfg key)
          ++ group_dirs (rel_group relData key))%list ->
  fs base = Some n ->
  PyStr.endswith "/" base = false ->
  (forall r m, below n r m -> proper_name (node_name m)) ->
  below n rel n' ->
  PyStr.contains (base ++ "/") rel = false ->
  In {| type := kind_of n'; fullPath := base ++ "/" ++ rel; subPath := rel |}
     (selectFiles args fs cfg relData key).
Proof.
  intros base Hd Hfs He Hnames Hb Hc.
  assert (Hne : base <> "")
    by (apply join_nonempty, FirmwareDir_nonempty).
  pose proof (under_of_below n rel n' Hb base Hne He Hnames) as Hu.
  pose proof (selectFiles_records_every_node
                args fs cfg relData key d n _ n' Hd Hfs Hu) as Hin.
  fold base in Hin.
  replace (PyStr.remove_all (base ++ "/") (base ++ "/" ++ rel)) with rel
    in Hin; [exact Hin|].
  rewrite <- append_assoc. symmetry. apply remove_all_prefix; [|exact Hc].
  destruct base; discriminate.
Qed.

Lemma selectFiles_subPath_is_relative_path_witness :
  In {| type := file; fullPath := "p/firmware/base" ++ "/" ++ "sub/b.txt";
        subPath := "sub/b.txt" |}
     (selectFiles Sample.args (TreeFs.lookup WalkSample.tree)
                  (WalkSample.group ["base"]) Sample.relData
                  "RoguePackages").
Proof.
  apply (selectFiles_subPath_is_relative_path
           Sample.args (TreeFs.lookup WalkSample.tree)
           (WalkSample.group ["base"]) Sample.relData "RoguePackages"
           "base"
           (Dir "base" [File "a.txt" "A"; Dir "sub" [File "b.txt" "B"]])
           (File "b.txt" "B") "sub/b.txt").
  - left. reflexivity.
  - reflexivity.
  - reflexivity.
  - intros r m Hb.
    assert (Hm : In (node_name m) ["a.txt"; "sub"; "b.txt"]).
    { inversion Hb as [nm ch c Hc|nm ch c rel n0 Hc Hb']; subst.
      - destruct Hc as [<-|[<-|[]]]; simpl; auto.
      - destruct Hc as [<-|[<-|[]]].
        + inversion Hb'.
        + inversion Hb' as [nm1 ch1 c1 Hc1|nm1 ch1 c1 rel1 n1 Hc1 Hb1];
            subst.
          * destruct Hc1 as [<-|[]]. simpl. auto.
          * destruct Hc1 as [<-|[]]. inversion Hb1. }
    destruct Hm as [<-|[<-|[<-|[]]]]; split; (discriminate || reflexivity).
  - apply (below_deeper "base" _ (Dir "sub" [File "b.txt" "B"])
                        "b.txt" (File "b.txt" "B")).
    + right. now left.
    + apply (below_child "sub" [File "b.txt" "B"] (File "b.txt" "B")).
      now left.
  - reflexivity.
Defined.

(** ** The rewritten initializer *)

Section InitializerFacts.

Lemma prefix_nil_r (p : string) : String.prefix p "" = true -> p = "".
Proof. destruct p; [reflexivity|discriminate]. Qed.

(** A text without newline that starts inside a line does not reach
    beyond the newline that ends the line. *)
Lemma prefix_within_line (needle body rest : string) :
  PyStr.contains nl needle = false ->
  String.prefix needle (body ++ nl ++ rest) = true ->
  String.prefix needle (body ++ nl) = true.
Proof.
  revert body. induction needle as [|a needle IH]; intros body Hn Hp.
  - now destruct (body ++ nl).
  - rewrite contains_unfold in Hn.
    destruct (String.prefix nl (String a needle)) eqn:E; [discriminate|].
    destruct body as [|b body].
    + exfalso. unfold nl in E, Hp. simpl in E, Hp.
      destruct (ascii_dec "010" a) as [<-|Hne].
      * now destruct needle.
      * destruct (ascii_dec a "010") as [->|_]; [|discriminate].
        now apply Hne.
    + change (String b body ++ nl ++ rest)
        with (String b (body ++ nl ++ rest)) in Hp.
      change (String b body ++ nl) with (String b (body ++ nl)).
      cbn [String.prefix] in *.
      destruct (ascii_dec a b); [|discriminate].
      now apply IH.
Qed.

Lemma contains_line_or_rest (needle body rest : string) :
  PyStr.contains nl needle = false ->
  PyStr.contains nl body = false ->
  PyStr.contains needle ((body ++ nl) ++ rest) = true ->
  PyStr.contains needle (body ++ nl) = true
  \/ PyStr.contains needle rest = true.
Proof.
  intros Hn. rewrite append_assoc.
  induction body as [|b body IH]; intros Hb.
  - change ("" ++ nl ++ rest) with (String "010"%char rest).
    change ("" ++ nl) with nl.
    rewrite contains_unfold.
    destruct (String.prefix needle (String "010"%char rest)) eqn:E.
    + intros _. left.
      destruct needle as [|a needle]; [reflexivity|].
      exfalso. rewrite contains_unfold in Hn. unfold nl in Hn.
      cbn [String.prefix] in E, Hn.
      destruct (ascii_dec a "010") as [->|_]; [|discriminate].
      destruct (ascii_dec "010" "010"); [|contradiction].
      now destruct needle.
    + intros H. now right.
  - change (String b body ++ nl ++ rest)
      with (String b (body ++ nl ++ rest)).
    change (String b body ++ nl) with (String b (body ++ nl)).
    rewrite (contains_unfold needle (String b (body ++ nl ++ rest))).
    rewrite (contains_unfold needle (String b (body ++ nl))).
    destruct (String.prefix needle (String b (body ++ nl ++ rest))) eqn:E.
    + intros _. left.
      change (String b (body ++ nl ++ rest))
        with (String b body ++ nl ++ rest) in E.
      apply (prefix_within_line needle (String b body) rest Hn) in E.
      change (String b body ++ nl) with (String b (body ++ nl)) in E.
      now rewrite E.
    + intros H.
      rewrite contains_unfold in Hb.
      destruct (String.prefix nl (String b body)); [discriminate|].
      destruct (IH Hb H) as [L|R]; [|now right].
      left. rewrite L.
      destruct (String.prefix needle (String b (body ++ nl))); reflexivity.
Qed.

Lemma readlines_ok (s : string) : lines_ok (PyStr.readlines s).
Proof.
  induction s as [|c s IH]; [exact I|].
  cbn [PyStr.readlines].
  destruct (Ascii.eqb_spec c "010"%char) as [->|Hc].
  - split; [|exact IH]. right. exists "". split; reflexivity.
  - destruct (PyStr.readlines s) as [|l ls] eqn:E.
    + split; [now left|exact I].
    + destruct IH as [Hl Hls]. split; [|exact Hls].
      destruct Hl as [->|(body & -> & Hb)]; [now left|].
      right. exists (String c body). split; [reflexivity|].
      rewrite contains_unfold. unfold nl at 1. cbn [String.prefix].
      destruct (ascii_dec "010" c) as [E'|_]; [congruence|exact Hb].
Qed.

Lemma kept_lines_free (needle : string) (keep : string -> bool)
      (ls : list string) :
  needle <> "" ->
  PyStr.contains nl needle = false ->
  (forall l, keep l = true -> PyStr.contains needle l = false) ->
  lines_ok ls ->
  PyStr.contains needle (String.concat "" (filter keep ls)) = false.
Proof.
  intros Hne Hn Hkeep.
  induction ls as [|l ls IH]; intros Hok.
  - simpl. destruct needle; [congruence|reflexivity].
  - destruct Hok as [Hl Hls]. specialize (IH Hls).
    cbn [filter]. destruct (keep l) eqn:Ek; [|exact IH].
    rewrite concat_cons.
    destruct Hl as [->|(body & -> & Hb)].
    + simpl filter. simpl String.concat. rewrite append_nil_r.
      now apply Hkeep.
    + destruct (PyStr.contains needle
                  ((body ++ nl) ++ String.concat "" (filter keep ls)))
        eqn:E; [|reflexivity].
      apply contains_line_or_rest in E; auto.
      destruct E as [E|E]; [|congruence].
      rewrite (Hkeep _ Ek) in E. discriminate.
Qed.

End InitializerFacts.

(** X26: what the rewritten initializer holds before the added block,
    the kept lines of the file put together, contains none of the four
    markers: removing the marked lines leaves no marker behind, also not
    across the place of a removed line. *)
Theorem newInit_markers_removed (txt ver marker : string) :
  In marker ["import os"; "__version__"; "ConfigDir"; "ImageDir"] ->
  exists kept,
    newInit_of txt ver = kept ++ added_lines ver
    /\ PyStr.contains marker kept = false.
Proof.
  intros Hm.
  exists (String.concat "" (filter keep_line (PyStr.readlines txt))).
  split; [reflexivity|].
  apply kept_lines_free.
  - destruct Hm as [<-|[<-|[<-|[<-|[]]]]]; discriminate.
  - destruct Hm as [<-|[<-|[<-|[<-|[]]]]]; reflexivity.
  - intros l Hl. now apply (proj1 (keep_line_spec l) Hl).
  - apply readlines_ok.
Qed.

Lemma newInit_markers_removed_witness :
  exists kept,
    newInit_of Project.initText "v1" = kept ++ added_lines "v1"
    /\ PyStr.contains "__version__" kept = false.
Proof.
  apply (newInit_markers_removed Project.initText "v1" "__version__").
  simpl. auto.
Defined.

(** ** Errors of the build selection *)

(** X27: with [--build] the console is not read.  [latest] with no
    candidate at all ends in IndexError; a name that is not a candidate is
    rejected with the message that quotes it. *)
Theorem chooseBuild_command_line
        (args : Args) (py_int : string -> option Z)
        (sortList : list string) (c : console) (buildName : string) :
  build args = Some buildName ->
  (forall r c', chooseBuild args py_int sortList c = (r, c') -> c' = c)
  /\ (buildName = "latest" -> sortList = [] ->
      chooseBuild args py_int sortList c = (Raise IndexError, c))
  /\ (buildName <> "latest" -> Py.mem buildName sortList = false ->
      chooseBuild args py_int sortList c
      = (Raise (Exception
                  ("Invalid command line build arg: " ++ buildName)), c)).
Proof.
  intros Hb. unfold chooseBuild. rewrite Hb. split; [|split].
  - intros r c'. destruct (String.eqb buildName "latest").
    + intros H. now injection H as _ <-.
    + destruct (negb _); intros H; now injection H as _ <-.
  - intros -> ->. reflexivity.
  - intros Hne Hm. apply String.eqb_neq in Hne. now rewrite Hne, Hm.
Qed.

Lemma chooseBuild_command_line_witness :
  chooseBuild (Sample.with_build "fw_9") Sample.to_int
              ["fw_1"; "fw_2"] ["0"]
  = (Raise (Exception "Invalid command line build arg: fw_9"), ["0"]).
Proof.
  apply (proj2 (proj2 (chooseBuild_command_line
                         (Sample.with_build "fw_9") Sample.to_int
                         ["fw_1"; "fw_2"] ["0"] "fw_9" eq_refl))).
  - discriminate.
  - reflexivity.
Defined.

(** X28: a target of the release that [Targets] does not declare, or
    declares as a mapping without an Extensions list (key absent or
    None), stops the selection with the message that names the target.
    A target declared with no value ([None]), or with a number, stops it
    with the TypeError of line 185; one declared as a string or a
    sequence stops it with that TypeError when [Extensions] is in it and
    with the message for the Extensions list otherwise.  In every case
    the image directory is not listed and the console is not read. *)
Theorem selectBuildImages_target_not_declared
        (args : Args) (fs : string -> option node)
        (py_int : string -> option Z) (cfg : ReleaseConfig)
        (tdict : Py.dict (yaml TargetDef)) (target : string)
        (retList : list string) (c : console) :
  Targets cfg = Val tdict ->
  (Py.get tdict target = None ->
   selectBuildImages_target args fs py_int cfg target retList c
   = (Raise (Exception
               ("Invalid release config. Referenced target " ++ target
                  ++ " is missing in target list.!")), c))
  /\ (forall tdef,
         Py.get tdict target = Some (YMap tdef) ->
         Extensions tdef = Absent \/ Extensions tdef = Null ->
         selectBuildImages_target args fs py_int cfg target retList c
         = (Raise (Exception
                     ("Invalid release config. Extensions list for target "
                        ++ target ++ " is missing or empty!")), c))
  /\ (Py.get tdict target = Some (YOther YNone)
      \/ Py.get tdict target = Some (YOther YScalar) ->
      selectBuildImages_target args fs py_int cfg target retList c
      = (Raise TypeError, c))
  /\ (forall s,
         Py.get tdict target = Some (YOther (YStr s)) ->
         selectBuildImages_target args fs py_int cfg target retList c
         = (if PyStr.contains "Extensions" s then Raise TypeError
            else Raise (Exception
                     ("Invalid release config. Extensions list for target "
                        ++ target ++ " is missing or empty!")), c))
  /\ (forall items,
         Py.get tdict target = Some (YOther (YSeq items)) ->
         selectBuildImages_target args fs py_int cfg target retList c
         = (if seq_mem "Extensions" items then Raise TypeError
            else Raise (Exception
                     ("Invalid release config. Extensions list for target "
                        ++ target ++ " is missing or empty!")), c)).
Proof.
  intros Ht. unfold selectBuildImages_target. rewrite Ht. cbv zeta.
  split; [|split; [|split; [|split]]].
  - intros Hg. unfold bind at 1. unfold ret at 1.
    unfold bind at 1. now rewrite Hg.
  - intros tdef Hg He. unfold bind at 1. unfold ret at 1.
    unfold bind at 1. rewrite Hg. unfold ret at 1.
    unfold bind at 1. destruct He as [-> | ->]; reflexivity.
  - intros Hg. unfold bind at 1. unfold ret at 1.
    unfold bind at 1. destruct Hg as [-> | ->]; reflexivity.
  - intros s Hg. unfold bind at 1. unfold ret at 1.
    unfold bind at 1. rewrite Hg. unfold ret at 1.
    unfold bind at 1. unfold bind at 1. unfold lift, missing_in.
    now destruct (PyStr.contains "Extensions" s).
  - intros items Hg. unfold bind at 1. unfold ret at 1.
    unfold bind at 1. rewrite Hg. unfold ret at 1.
    unfold bind at 1. unfold bind at 1. unfold lift, missing_in.
    now destruct (seq_mem "Extensions" items).
Qed.

Lemma selectBuildImages_target_not_declared_witness :
  selectBuildImages_target Sample.args Project.fs Sample.to_int Project.cfg
                           "other" [] ["0"]
  = (Raise (Exception
              "Invalid release config. Referenced target other is missing in target list.!"),
     ["0"])
  /\ selectBuildImages_target Sample.args Project.fs Sample.to_int
                              BareTarget.cfg "fw" [] ["0"]
     = (Raise TypeError, ["0"]).
Proof.
  split.
  - apply (proj1 (selectBuildImages_target_not_declared
                    Sample.args Project.fs Sample.to_int Project.cfg
                    Sample.targets "other" [] ["0"] eq_refl)).
    reflexivity.
  - apply (proj1 (proj2 (proj2 (selectBuildImages_target_not_declared
                    Sample.args Project.fs Sample.to_int BareTarget.cfg
                    [("fw", YOther YNone)] "fw" [] ["0"] eq_refl)))).
    now left.
Defined.

(** ** The reader of the descriptor *)

Section ReaderFacts.

Lemma read_packages_sound fuel s pkgs r :
  read_packages fuel s = Some (pkgs, r) ->
  Forall (fun pkg => plain pkg = true) pkgs
  /\ s = render_packages pkgs ++ packages_end ++ r.
Proof.
  revert s pkgs r.
  induction fuel as [|fuel IH]; intros s pkgs r; cbn [read_packages];
    destruct (strip_prefix packages_end s) as [r0|] eqn:E1;
    try (intros H; injection H as <- <-; split; [constructor|];
         now apply strip_prefix_inv in E1);
    try discriminate.
  destruct (strip_prefix package_open s) as [r1|] eqn:E2; [|discriminate].
  destruct (read_literal r1) as [[pkg r2]|] eqn:E3; [|discriminate].
  destruct (strip_prefix ("," ++ nl) r2) as [r3|] eqn:E4; [|discriminate].
  destruct (read_packages fuel r3) as [[pkgs' r']|] eqn:E5; [|discriminate].
  intros H. injection H as <- <-.
  destruct (IH _ _ _ E5) as [Hall ->].
  apply strip_prefix_inv in E2, E4. apply read_literal_inv in E3.
  destruct E3 as [Hp ->]. subst r2 s. split; [now constructor|].
  cbn [render_packages]. rewrite !append_assoc. reflexivity.
Qed.

(** The reader is strict: what it reads is the text [render] writes for
    the arguments it returns, every one of them plain. *)
Lemma read_call_sound (descriptor : string) (call : SetupCall) :
  read_call descriptor = Some call ->
  descriptor = render call
  /\ plain (su_name call) = true
  /\ plain (su_version call) = true
  /\ Forall (fun pkg => plain pkg = true) (su_packages call)
  /\ plain (su_package_data call) = true.
Proof.
  unfold read_call.
  destruct (strip_prefix descriptor_prefix descriptor) as [r1|] eqn:E1;
    [|discriminate].
  destruct (read_literal r1) as [[name r2]|] eqn:E2; [|discriminate].
  destruct (strip_prefix version_prefix r2) as [r3|] eqn:E3; [|discriminate].
  destruct (read_literal r3) as [[ver r4]|] eqn:E4; [|discriminate].
  destruct (strip_prefix packages_prefix r4) as [r5|] eqn:E5; [|discriminate].
  destruct (read_packages (String.length r5) r5) as [[pkgs r6]|] eqn:E6;
    [|discriminate].
  destruct (strip_prefix data_prefix r6) as [r7|] eqn:E7; [|discriminate].
  destruct (read_literal r7) as [[top r8]|] eqn:E8; [|discriminate].
  destruct (strip_prefix data_suffix r8) as [[|x r9]|] eqn:E9;
    try discriminate.
  intros H. injection H as <-.
  apply strip_prefix_inv in E1, E3, E5, E7, E9.
  apply read_literal_inv in E2, E4, E8.
  apply read_packages_sound in E6.
  destruct E2 as [Hn ->], E4 as [Hv ->], E8 as [Ht ->], E6 as [Hp ->].
  subst. unfold render. cbn [su_name su_version su_packages su_package_data].
  split; [|repeat split; assumption].
  rewrite append_nil_r. reflexivity.
Qed.

End ReaderFacts.
